(** * olmocr front end (app.py): a shallow embedding and its properties

    The program is a Gradio front end around two external command-line
    tools.  Its two handlers, [process_pdf] and [process_multiple_pdfs],
    stage files in a workspace, run the tools as subprocesses, read one
    JSON record back and post-process an HTML preview with
    [modify_html_for_better_display].

    Modelling conventions.
    - A Python [str] is modelled by the [string] of its UTF-8 bytes.  All
      patterns the program searches for are ASCII, and UTF-8 never reuses an
      ASCII byte inside a multi-byte sequence, so substring search, literal
      replacement and the two negated character classes of its one regular
      expression act on the bytes exactly as they act on the code points.
    - The file system, the clock and the log of launched commands form an
      explicit [World]; every effectful operation is a function
      [World -> outcome * World] in a small state-and-exception monad.
    - The two external tools, and the text that [str(e)] gives for an
      exception, are collected in an environment [Env] that the handlers
      take as a parameter; [Demo] and [Scenario] give such environments, to
      run the handlers on concrete inputs.
    - Recursion that is not structural (the scans of [str.replace],
      [re.sub], [str.strip] and [json.loads], and [os.makedirs]) carries
      fuel; the part on the recursion bounds shows that the fuel given is
      always enough. *)

From Stdlib Require Import String Ascii List ZArith Lia Bool Arith Decimal DecimalString.
Import ListNotations.
Open Scope string_scope.

Set Implicit Arguments.
Set Warnings "-register-all".

(** ** Python strings *)

Module PyStr.

(** The double quote and the line feed, which the literals of app.py use. *)
Definition dq : string := String "034"%char "".
Definition nl : string := String "010"%char "".

(** [strip_prefix p s] is [Some r] exactly when [s = p ++ r]. *)
Fixpoint strip_prefix (p s : string) : option string :=
  match p with
  | "" => Some s
  | String a p' =>
      match s with
      | "" => None
      | String b s' => if Ascii.eqb a b then strip_prefix p' s' else None
      end
  end.

(** [s.startswith(p)] *)
Definition startswith (p s : string) : bool :=
  match strip_prefix p s with Some _ => true | None => false end.

(** [p in s] *)
Fixpoint contains (p s : string) : bool :=
  startswith p s ||
  match s with
  | "" => false
  | String _ t => contains p t
  end.

(** [c in s] for a single character *)
Fixpoint has_char (c : ascii) (s : string) : bool :=
  match s with
  | "" => false
  | String x t => Ascii.eqb x c || has_char c t
  end.

(** [s.endswith(p)] *)
Fixpoint endswith (p s : string) : bool :=
  String.eqb p s ||
  match s with
  | "" => false
  | String _ t => endswith p t
  end.

(** [new] in front of, between and behind the characters of [s]: what
    [str.replace] returns for an empty [old]. *)
Fixpoint interleave (new s : string) : string :=
  match s with
  | "" => new
  | String c t => new ++ String c (interleave new t)
  end.

(** Left-to-right scan of [str.replace] for a non-empty [old]: at each
    position either [old] starts here, is replaced and skipped, or one
    character is copied.  [fuel] bounds the number of positions visited. *)
Fixpoint replace_scan (fuel : nat) (old new s : string) : string :=
  match fuel with
  | O => s
  | S n =>
      match strip_prefix old s with
      | Some rest => new ++ replace_scan n old new rest
      | None =>
          match s with
          | "" => ""
          | String c t => String c (replace_scan n old new t)
          end
      end
  end.

(** [s.replace(old, new)] *)
Definition replace (old new s : string) : string :=
  match old with
  | "" => interleave new s
  | _ => replace_scan (S (String.length s)) old new s
  end.

(** *** The regular expression of line 42

    It reads: the letters <img, a starred class of every character but the
    closing angle bracket (group 1), the letters style= and a double quote,
    a starred class of every character but the double quote (group 2), and
    a double quote. *)

(** Group 2 and the closing quote: the characters up to the first double
    quote, and what follows that quote.  The star is greedy, and giving
    characters back never helps, since none of them is a quote. *)
Fixpoint match_value (s : string) : option (string * string) :=
  match s with
  | "" => None
  | String c t =>
      if Ascii.eqb c "034" then Some ("", t)
      else match match_value t with
           | Some (g2, rest) => Some (String c g2, rest)
           | None => None
           end
  end.

(** The attribute name, its opening quote, group 2 and the closing quote
    at the head of [s]. *)
Definition match_style (s : string) : option (string * string) :=
  match strip_prefix ("style=" ++ dq) s with
  | Some t => match_value t
  | None => None
  end.

(** Group 1 and the attribute: the greedy star takes the longest run of
    characters other than [>] after which the rest of the pattern still
    matches (the engine tries the longest run first and backs off one
    character at a time). *)
Fixpoint match_attrs (s : string) : option (string * string * string) :=
  let here :=
    match match_style s with
    | Some (g2, rest) => Some ("", g2, rest)
    | None => None
    end in
  match s with
  | "" => here
  | String c t =>
      if Ascii.eqb c ">" then here
      else match match_attrs t with
           | Some (g1, g2, rest) => Some (String c g1, g2, rest)
           | None => here
           end
  end.

(** One match of the whole pattern at the head of [s]: groups 1 and 2 and
    the text after the match. *)
Definition match_img (s : string) : option (string * string * string) :=
  match strip_prefix "<img" s with
  | Some t => match_attrs t
  | None => None
  end.

(** The replacement template: <img, group 1, the attribute name and quote,
    the two added declarations, group 2, the closing quote. *)
Definition img_template (g1 g2 : string) : string :=
  "<img" ++ g1 ++ "style=" ++ dq ++ "max-width: 100%; height: auto; "
         ++ g2 ++ dq.

(** [re.sub] for this pattern: leftmost matches, not overlapping. *)
Fixpoint img_sub_scan (fuel : nat) (s : string) : string :=
  match fuel with
  | O => s
  | S n =>
      match match_img s with
      | Some (g1, g2, rest) => img_template g1 g2 ++ img_sub_scan n rest
      | None =>
          match s with
          | "" => ""
          | String c t => String c (img_sub_scan n t)
          end
      end
  end.

Definition img_sub (s : string) : string := img_sub_scan (S (String.length s)) s.

(** *** [str.strip()]

    Python strips the code points for which [str.isspace] holds.  In UTF-8
    these are the ASCII controls 9-13 and 28-31, the space, and the
    encodings below of U+0085, U+00A0, U+1680, U+2000-U+200A, U+2028,
    U+2029, U+202F, U+205F and U+3000. *)

Definition bytes (l : list nat) : string :=
  string_of_list_ascii (map ascii_of_nat l).

Definition whitespace : list string :=
  map bytes
    ([[9]; [10]; [11]; [12]; [13]; [28]; [29]; [30]; [31]; [32];
      [194; 133]; [194; 160]; [225; 154; 128]]
     ++ map (fun b => [226; 128; b]) (seq 128 11)
     ++ [[226; 128; 168]; [226; 128; 169]; [226; 128; 175];
         [226; 129; 159]; [227; 128; 128]]).

Fixpoint strip_any_prefix (ps : list string) (s : string) : option string :=
  match ps with
  | [] => None
  | p :: ps' =>
      match strip_prefix p s with
      | Some r => Some r
      | None => strip_any_prefix ps' s
      end
  end.

Fixpoint lstrip_scan (fuel : nat) (s : string) : string :=
  match fuel with
  | O => s
  | S n =>
      match strip_any_prefix whitespace s with
      | Some r => lstrip_scan n r
      | None => s
      end
  end.

Definition lstrip (s : string) : string := lstrip_scan (String.length s) s.

Fixpoint rev (s : string) : string :=
  match s with
  | "" => ""
  | String c t => rev t ++ String c ""
  end.

Fixpoint rstrip_scan (fuel : nat) (r : string) : string :=
  match fuel with
  | O => r
  | S n =>
      match strip_any_prefix (map rev whitespace) r with
      | Some r' => rstrip_scan n r'
      | None => r
      end
  end.

(** The scan runs over the reversed string, where a white-space sequence
    at the end of [s] is a reversed sequence at the front. *)
Definition rstrip (s : string) : string :=
  rev (rstrip_scan (String.length s) (rev s)).

Definition strip (s : string) : string := rstrip (lstrip s).

(** *** Decimal numerals, as [str(int)] and f-strings print them *)

Definition str_of_Z (z : Z) : string := NilZero.string_of_int (Z.to_int z).

End PyStr.

Import PyStr.

(** ** The HTML preview adapter (app.py, lines 18-55) *)

Definition container_old : string := "<div class=" ++ dq ++ "container" ++ dq ++ ">".
Definition container_new : string :=
  "<div class=" ++ dq ++ "container" ++ dq ++ " style=" ++ dq
  ++ "max-width: 100%; width: 100%;" ++ dq ++ ">".

Definition style_old : string := "<style>".
Definition style_new : string :=
  "<style>" ++ nl ++ "body {font-size: 16px;}" ++ nl
  ++ ".text-content {font-size: 16px; line-height: 1.5;}" ++ nl.

Definition row_old : string := "<div class=" ++ dq ++ "row" ++ dq ++ ">".
Definition row_new : string :=
  "<div class=" ++ dq ++ "row" ++ dq ++ " style=" ++ dq
  ++ "display: flex; flex-wrap: wrap;" ++ dq ++ ">".

Definition col_old : string := "<div class=" ++ dq ++ "col-md-6" ++ dq ++ ">".
Definition col_new : string :=
  "<div class=" ++ dq ++ "col-md-6" ++ dq ++ " style=" ++ dq
  ++ "flex: 0 0 50%; max-width: 50%; padding: 15px;" ++ dq ++ ">".

Definition page_old : string := "<div class=" ++ dq ++ "page" ++ dq ++ ">".
Definition page_new : string :=
  "<div class=" ++ dq ++ "page" ++ dq ++ " style=" ++ dq
  ++ "margin-bottom: 30px; border-bottom: 1px solid #ccc; padding-bottom: 20px;"
  ++ dq ++ ">".

Definition body_close : string := "</body>".

(** The triple-quoted literal of lines 47-52, line by line. *)
Definition zoom_controls : string :=
  nl
  ++ "    <div style=" ++ dq
  ++ "position: fixed; bottom: 20px; right: 20px; background: #fff; padding: 10px; border-radius: 5px; box-shadow: 0 0 10px rgba(0,0,0,0.2); z-index: 1000;"
  ++ dq ++ ">" ++ nl
  ++ "        <button onclick=" ++ dq
  ++ "document.body.style.zoom = parseFloat(document.body.style.zoom || 1) + 0.1;"
  ++ dq ++ " style=" ++ dq ++ "margin-right: 5px;" ++ dq ++ ">放大</button>" ++ nl
  ++ "        <button onclick=" ++ dq
  ++ "document.body.style.zoom = parseFloat(document.body.style.zoom || 1) - 0.1;"
  ++ dq ++ ">缩小</button>" ++ nl
  ++ "    </div>" ++ nl
  ++ "    ".

Definition modify_html_for_better_display (html_content : string) : string :=
  match html_content with
  | "" => html_content
  | _ =>
      let html_content := replace container_old container_new html_content in
      let html_content := replace style_old style_new html_content in
      let html_content := replace row_old row_new html_content in
      let html_content := replace col_old col_new html_content in
      let html_content := replace page_old page_new html_content in
      let html_content := img_sub html_content in
      let html_content :=
        replace body_close (zoom_controls ++ body_close) html_content in
      html_content
  end.

(** ** [os.path] on POSIX *)

Module OsPath.

Definition is_sep (c : ascii) : bool := Ascii.eqb c "/".

(** [(p[:i], p[i:])] for [i = p.rfind('/') + 1]: the part up to and with
    the last separator, and the part after it. *)
Fixpoint rsplit_sep (p : string) : string * string :=
  match p with
  | "" => ("", "")
  | String c t =>
      let (h, tl) := rsplit_sep t in
      match h with
      | "" => if is_sep c then (String c "", t) else ("", String c t)
      | _ => (String c h, tl)
      end
  end.

Definition basename (p : string) : string := snd (rsplit_sep p).

Fixpoint all_sep (s : string) : bool :=
  match s with
  | "" => true
  | String c t => is_sep c && all_sep t
  end.

(** [head.rstrip('/')] *)
Fixpoint rstrip_sep (s : string) : string :=
  match s with
  | "" => ""
  | String c t =>
      match rstrip_sep t with
      | "" => if is_sep c then "" else String c ""
      | t' => String c t'
      end
  end.

(** [os.path.split] *)
Definition split (p : string) : string * string :=
  let (head, tail) := rsplit_sep p in
  (if all_sep head then head else rstrip_sep head, tail).

Definition dirname (p : string) : string := fst (split p).

(** [(n[:d], n[d:])] for the last dot [d] of [n], if there is one. *)
Fixpoint rsplit_dot (n : string) : option (string * string) :=
  match n with
  | "" => None
  | String c t =>
      match rsplit_dot t with
      | Some (root, ext) => Some (String c root, ext)
      | None => if Ascii.eqb c "." then Some ("", n) else None
      end
  end.

Fixpoint all_dots (s : string) : bool :=
  match s with
  | "" => true
  | String c t => Ascii.eqb c "." && all_dots t
  end.

(** [os.path.splitext]: the extension starts at the last dot of the last
    component, unless only dots precede it there. *)
Definition splitext (p : string) : string * string :=
  let (head, name) := rsplit_sep p in
  match rsplit_dot name with
  | Some (root, ext) =>
      if all_dots root then (p, "") else (head ++ root, ext)
  | None => (p, "")
  end.

(** [os.path.join(a, b)] *)
Definition join (a b : string) : string :=
  if startswith "/" b then b
  else match a with
       | "" => b
       | _ => if endswith "/" a then a ++ b else a ++ "/" ++ b
       end.

End OsPath.

(** ** Python values and [json.loads] *)

(** What [json.loads] can return.  A [dict] keeps its keys in insertion
    order, so it is an association list without repeated keys.  A float is
    kept as the numeral it was read from: its value is never inspected. *)
Inductive pyval : Type :=
| PyNone
| PyBool (b : bool)
| PyInt (z : Z)
| PyFloat (numeral : string)
| PyStr (s : string)
| PyList (items : list pyval)
| PyDict (entries : list (string * pyval)).

(** [type(v).__name__] *)
Definition type_name (v : pyval) : string :=
  match v with
  | PyNone => "NoneType"
  | PyBool _ => "bool"
  | PyInt _ => "int"
  | PyFloat _ => "float"
  | PyStr _ => "str"
  | PyList _ => "list"
  | PyDict _ => "dict"
  end.

Module Dict.

Fixpoint get (k : string) (d : list (string * pyval)) : option pyval :=
  match d with
  | [] => None
  | (k', v) :: d' => if String.eqb k k' then Some v else get k d'
  end.

(** [d[k] = v]: a present key keeps its place, a new key goes last. *)
Fixpoint set (k : string) (v : pyval) (d : list (string * pyval))
  : list (string * pyval) :=
  match d with
  | [] => [(k, v)]
  | (k', v') :: d' =>
      if String.eqb k k' then (k, v) :: d' else (k', v') :: set k v d'
  end.

End Dict.

Module Json.

Inductive parse (A : Type) : Type :=
| Parsed (a : A) (rest : string)
| Malformed
| OutOfFuel.
Arguments Malformed {A}.
Arguments OutOfFuel {A}.

Definition is_ws (c : ascii) : bool :=
  Ascii.eqb c " " || Ascii.eqb c "009" || Ascii.eqb c "010" || Ascii.eqb c "013".

Fixpoint skip_ws (s : string) : string :=
  match s with
  | String c t => if is_ws c then skip_ws t else s
  | "" => ""
  end.

Definition is_digit (c : ascii) : bool :=
  ((48 <=? nat_of_ascii c) && (nat_of_ascii c <=? 57))%nat.

(** The longest run of digits at the head of [s], and the rest. *)
Fixpoint take_digits (s : string) : string * string :=
  match s with
  | String c t =>
      if is_digit c then let (ds, r) := take_digits t in (String c ds, r)
      else ("", s)
  | "" => ("", "")
  end.

Fixpoint Z_of_digits (acc : Z) (ds : string) : Z :=
  match ds with
  | "" => acc
  | String c t => Z_of_digits (10 * acc + Z.of_nat (nat_of_ascii c - 48)) t
  end.

Definition hex_digit (c : ascii) : option N :=
  let n := nat_of_ascii c in
  if ((48 <=? n) && (n <=? 57))%nat then Some (N.of_nat (n - 48))
  else if ((65 <=? n) && (n <=? 70))%nat then Some (N.of_nat (n - 55))
  else if ((97 <=? n) && (n <=? 102))%nat then Some (N.of_nat (n - 87))
  else None.

(** Four hexadecimal digits at the head of [s]. *)
Definition hex4 (s : string) : option (N * string) :=
  match s with
  | String a (String b (String c (String d r))) =>
      match hex_digit a, hex_digit b, hex_digit c, hex_digit d with
      | Some x, Some y, Some z, Some w =>
          Some ((((x * 16 + y) * 16 + z) * 16 + w)%N, r)
      | _, _, _, _ => None
      end
  | _ => None
  end.

Definition byte_of_N (n : N) : ascii := ascii_of_N n.

(** The UTF-8 bytes of a code point; a lone surrogate is written with the
    same three-byte scheme, which no valid UTF-8 text contains. *)
Definition utf8 (cp : N) : string :=
  (if cp <? 128 then String (byte_of_N cp) ""
   else if cp <? 2048 then
     String (byte_of_N (192 + cp / 64))
       (String (byte_of_N (128 + cp mod 64)) "")
   else if cp <? 65536 then
     String (byte_of_N (224 + cp / 4096))
       (String (byte_of_N (128 + (cp / 64) mod 64))
          (String (byte_of_N (128 + cp mod 64)) ""))
   else
     String (byte_of_N (240 + cp / 262144))
       (String (byte_of_N (128 + (cp / 4096) mod 64))
          (String (byte_of_N (128 + (cp / 64) mod 64))
             (String (byte_of_N (128 + cp mod 64)) ""))))%N.

Definition is_high_surrogate (u : N) : bool := ((55296 <=? u) && (u <=? 56319))%N.
Definition is_low_surrogate (u : N) : bool := ((56320 <=? u) && (u <=? 57343))%N.

(** A [\uXXXX] escape whose [\u] has been read: the code point and the
    rest.  A high surrogate followed by an escaped low surrogate is one
    code point. *)
Definition scan_unicode_escape (s : string) : option (N * string) :=
  match hex4 s with
  | Some (u, r) =>
      if is_high_surrogate u then
        match strip_prefix "\u" r with
        | Some r1 =>
            match hex4 r1 with
            | Some (u2, r2) =>
                if is_low_surrogate u2
                then Some ((65536 + (u - 55296) * 1024 + (u2 - 56320))%N, r2)
                else Some (u, r)
            | None => Some (u, r)
            end
        | None => Some (u, r)
        end
      else Some (u, r)
  | None => None
  end.

Definition simple_escape (c : ascii) : option ascii :=
  if Ascii.eqb c "034" then Some "034"%char
  else if Ascii.eqb c "\" then Some "\"%char
  else if Ascii.eqb c "/" then Some "/"%char
  else if Ascii.eqb c "b" then Some "008"%char
  else if Ascii.eqb c "f" then Some "012"%char
  else if Ascii.eqb c "n" then Some "010"%char
  else if Ascii.eqb c "r" then Some "013"%char
  else if Ascii.eqb c "t" then Some "009"%char
  else None.

(** The body of a string literal, after its opening quote (strict mode:
    a raw control character is an error). *)
Fixpoint scan_string (fuel : nat) (s : string) : parse string :=
  match fuel with
  | O => OutOfFuel
  | S n =>
      match s with
      | "" => Malformed
      | String c t =>
          if Ascii.eqb c "034" then Parsed "" t
          else if Ascii.eqb c "\" then
            match t with
            | "" => Malformed
            | String e t' =>
                if Ascii.eqb e "u" then
                  match scan_unicode_escape t' with
                  | Some (cp, r) =>
                      match scan_string n r with
                      | Parsed body rest => Parsed (utf8 cp ++ body) rest
                      | err => err
                      end
                  | None => Malformed
                  end
                else
                  match simple_escape e with
                  | Some x =>
                      match scan_string n t' with
                      | Parsed body rest => Parsed (String x body) rest
                      | err => err
                      end
                  | None => Malformed
                  end
            end
          else if (nat_of_ascii c <? 32)%nat then Malformed
          else
            match scan_string n t with
            | Parsed body rest => Parsed (String c body) rest
            | err => err
            end
      end
  end.

Definition string_literal (t : string) : parse string :=
  scan_string (S (String.length t)) t.

(** A numeral: an optional minus, an integer part without a leading zero,
    an optional fraction and an optional exponent.  With neither it is an
    [int], otherwise a [float].  Each part comes with the text after it. *)
Definition scan_sign (s : string) : bool * string :=
  match strip_prefix "-" s with
  | Some t => (true, t)
  | None => (false, s)
  end.

Definition scan_int_part (s : string) : option (string * string) :=
  match s with
  | String c t =>
      if Ascii.eqb c "0" then Some ("0", t)
      else if is_digit c then
        let (ds, r) := take_digits t in Some (String c ds, r)
      else None
  | "" => None
  end.

Definition scan_frac (r : string) : string * string :=
  match strip_prefix "." r with
  | Some t =>
      match take_digits t with
      | ("", _) => ("", r)
      | (fs, r') => ("." ++ fs, r')
      end
  | None => ("", r)
  end.

Definition scan_exp (r : string) : string * string :=
  match r with
  | String e t =>
      if Ascii.eqb e "e" || Ascii.eqb e "E" then
        let (sign, t1) :=
          match strip_prefix "+" t, strip_prefix "-" t with
          | Some t', _ => ("+", t')
          | None, Some t' => ("-", t')
          | None, None => ("", t)
          end in
        match take_digits t1 with
        | ("", _) => ("", r)
        | (es, r') => (String e (sign ++ es), r')
        end
      else ("", r)
  | "" => ("", r)
  end.

Definition scan_number (s : string) : option (pyval * string) :=
  let (neg, s1) := scan_sign s in
  match scan_int_part s1 with
  | None => None
  | Some (ds, r) =>
      let (frac, r1) := scan_frac r in
      let (exp, r2) := scan_exp r1 in
      match frac, exp with
      | "", "" =>
          let z := Z_of_digits 0 ds in
          Some (PyInt (if neg then (- z)%Z else z), r2)
      | _, _ => Some (PyFloat ((if neg then "-" else "") ++ ds ++ frac ++ exp), r2)
      end
  end.

Definition keyword (kw : string) (v : pyval) (s : string) : parse pyval :=
  match strip_prefix kw s with
  | Some r => Parsed v r
  | None => Malformed
  end.

(** One JSON value at the head of [s], an array after its bracket and an
    object from the opening quote of a key on. *)
Fixpoint scan_once (fuel : nat) (s : string) : parse pyval :=
  match fuel with
  | O => OutOfFuel
  | S n =>
      match s with
      | "" => Malformed
      | String c t =>
          if Ascii.eqb c "034" then
            match string_literal t with
            | Parsed body r => Parsed (PyStr body) r
            | Malformed => Malformed
            | OutOfFuel => OutOfFuel
            end
          else if Ascii.eqb c "{" then
            match strip_prefix "}" (skip_ws t) with
            | Some r => Parsed (PyDict []) r
            | None =>
                match scan_pairs n (skip_ws t) [] with
                | Parsed d r => Parsed (PyDict d) r
                | Malformed => Malformed
                | OutOfFuel => OutOfFuel
                end
            end
          else if Ascii.eqb c "[" then
            match strip_prefix "]" (skip_ws t) with
            | Some r => Parsed (PyList []) r
            | None =>
                match scan_items n (skip_ws t) with
                | Parsed l r => Parsed (PyList l) r
                | Malformed => Malformed
                | OutOfFuel => OutOfFuel
                end
            end
          else if Ascii.eqb c "n" then keyword "null" PyNone s
          else if Ascii.eqb c "t" then keyword "true" (PyBool true) s
          else if Ascii.eqb c "f" then keyword "false" (PyBool false) s
          else if Ascii.eqb c "N" then keyword "NaN" (PyFloat "NaN") s
          else if Ascii.eqb c "I" then keyword "Infinity" (PyFloat "Infinity") s
          else
            match strip_prefix "-Infinity" s with
            | Some r => Parsed (PyFloat "-Infinity") r
            | None =>
                match scan_number s with
                | Some (v, r) => Parsed v r
                | None => Malformed
                end
            end
      end
  end

with scan_items (fuel : nat) (s : string) : parse (list pyval) :=
  match fuel with
  | O => OutOfFuel
  | S n =>
      match scan_once n s with
      | Parsed v r =>
          match strip_prefix "]" (skip_ws r), strip_prefix "," (skip_ws r) with
          | Some r', _ => Parsed [v] r'
          | None, Some r' =>
              match scan_items n (skip_ws r') with
              | Parsed l r'' => Parsed (v :: l) r''
              | err => err
              end
          | None, None => Malformed
          end
      | Malformed => Malformed
      | OutOfFuel => OutOfFuel
      end
  end

with scan_pairs (fuel : nat) (s : string) (acc : list (string * pyval))
  : parse (list (string * pyval)) :=
  match fuel with
  | O => OutOfFuel
  | S n =>
      match strip_prefix dq s with
      | Some t =>
          match string_literal t with
          | Parsed key r =>
              match strip_prefix ":" (skip_ws r) with
              | Some r1 =>
                  match scan_once n (skip_ws r1) with
                  | Parsed v r2 =>
                      match strip_prefix "}" (skip_ws r2),
                            strip_prefix "," (skip_ws r2) with
                      | Some r3, _ => Parsed (Dict.set key v acc) r3
                      | None, Some r3 =>
                          scan_pairs n (skip_ws r3) (Dict.set key v acc)
                      | None, None => Malformed
                      end
                  | Malformed => Malformed
                  | OutOfFuel => OutOfFuel
                  end
              | None => Malformed
              end
          | Malformed => Malformed
          | OutOfFuel => OutOfFuel
          end
      | None => Malformed
      end
  end.

(** [json.loads(s)]: one value, white space around it, nothing else.
    [None] stands for [JSONDecodeError]. *)
Definition loads (s : string) : option pyval :=
  match scan_once (2 * String.length s + 2) (skip_ws s) with
  | Parsed v r => match skip_ws r with "" => Some v | _ => None end
  | _ => None
  end.

End Json.

(** ** The world: files, clock, launched commands, progress shown *)

(** A regular file holds text or, for the batch archive, the entries of a
    zip archive (name and data, in the order written).  Text is what a
    text-mode [read()] returns; an archive is not readable as text. *)
Inductive content : Type :=
| Text (s : string)
| Archive (entries : list (string * string)).

Inductive node : Type :=
| Dir
| File (c : content).

(** Paths are identified by their spelling.  The first binding of a path
    is the node it names; the order of the bindings is the order in which a
    directory scan yields them. *)
Definition fs : Type := list (string * node).

Record World : Type := mkWorld {
  files : fs;
  clock : Z;                                 (* int(time.time()) *)
  launched : list (list string);             (* commands run so far *)
  shown : list (Z * Z * string)              (* progress(num/den, desc) *)
}.

Inductive exn : Type :=
| CalledProcessError (cmd : list string) (returncode : Z)
                     (stdout stderr : option string)
| LaunchError (detail : string)
| FileNotFoundError (path : string)
| FileExistsError (path : string)
| IsADirectoryError (path : string)
| NotADirectoryError (path : string)
| SameFileError (src dst : string)
| NullByteError
| UnicodeDecodeError (path : string)
| UnicodeEncodeError
| JSONDecodeError (doc : string)
| AttributeError (type_of_object attribute : string)
| WriteTypeError (type_of_argument : string).

(** How a subprocess ends: with an exit status and its two output
    streams, or without having run at all. *)
Inductive proc_result : Type :=
| Exited (returncode : Z) (stdout stderr : string)
| NotStarted (detail : string).

(** What the program takes from outside: the behaviour of the commands it
    launches, which may change every part of the world, and the text that
    [str(e)] gives for an exception. *)
Record Env : Type := mkEnv {
  run_tool : list string -> World -> proc_result * World;
  str_exn : exn -> string
}.

Module FS.

Fixpoint lookup (p : string) (f : fs) : option node :=
  match f with
  | [] => None
  | (q, n) :: f' => if String.eqb p q then Some n else lookup p f'
  end.

(** Rebinding keeps the place of a path that is bound; a new path goes
    last. *)
Fixpoint set (p : string) (n : node) (f : fs) : fs :=
  match f with
  | [] => [(p, n)]
  | (q, m) :: f' =>
      if String.eqb p q then (p, n) :: f' else (q, m) :: set p n f'
  end.

(** The bindings that are not shadowed by an earlier one. *)
Fixpoint effective (f : fs) : fs :=
  match f with
  | [] => []
  | (p, n) :: f' =>
      (p, n) :: filter (fun e => negb (String.eqb (fst e) p)) (effective f')
  end.

Definition has_nul (p : string) : bool := has_char "000" p.

Definition is_dir (f : fs) (p : string) : bool :=
  match lookup p f with
  | Some Dir => true
  | _ => false
  end.

(** The directory a new entry [p] would go into: the working directory,
    the root, or a bound directory. *)
Inductive parent_state : Type := ParentDir | ParentFile | ParentMissing.

Definition parent (f : fs) (p : string) : parent_state :=
  let d := OsPath.dirname p in
  match d with
  | "" => ParentDir
  | _ =>
      if OsPath.all_sep d then ParentDir
      else match lookup d f with
           | Some Dir => ParentDir
           | Some (File _) => ParentFile
           | None => ParentMissing
           end
  end.

(** The name of a directory entry: [p] is [dir/name], and [name] is a
    file name (not empty, without separator or null byte). *)
Definition child_name (dir p : string) : option string :=
  match strip_prefix (dir ++ "/") p with
  | Some "" => None
  | Some name =>
      if has_char "/" name || has_char "000" name then None else Some name
  | None => None
  end.

(** [fnmatch] for a pattern with one star: [pre*post]. *)
Definition fnmatch_star (pre post name : string) : bool :=
  match strip_prefix pre name with
  | Some r => endswith post r
  | None => false
  end.

(** [list(Path(dir).glob(pre*post))], as path strings. *)
Definition glob (f : fs) (dir pre post : string) : list string :=
  if is_dir f dir then
    map fst
      (filter
         (fun e =>
            match child_name dir (fst e) with
            | Some name => fnmatch_star pre post name
            | None => false
            end)
         (effective f))
  else [].

End FS.

(** ** A state and exception monad *)

Inductive outcome (A : Type) : Type :=
| Return (a : A)
| Raise (e : exn).
Arguments Raise {A}.

Definition M (A : Type) : Type := World -> outcome A * World.

Definition ret {A} (a : A) : M A := fun w => (Return a, w).

Definition raise {A} (e : exn) : M A := fun w => (Raise e, w).

Definition bind {A B} (m : M A) (k : A -> M B) : M B :=
  fun w =>
    match m w with
    | (Return a, w') => k a w'
    | (Raise e, w') => (Raise e, w')
    end.

(** [try: m  except Exception as e: h e] *)
Definition try_except {A} (m : M A) (h : exn -> M A) : M A :=
  fun w =>
    match m w with
    | (Return a, w') => (Return a, w')
    | (Raise e, w') => h e w'
    end.

Declare Scope py_scope.
Delimit Scope py_scope with py.
Notation "x <- m ;; k" := (bind m (fun x => k))
  (at level 61, m at next level, right associativity) : py_scope.
Notation "m ;;; k" := (bind m (fun _ => k))
  (at level 61, right associativity) : py_scope.
Open Scope py_scope.

Definition get_files : M fs := fun w => (Return (files w), w).

Definition put_files (f : fs) : M unit :=
  fun w => (Return tt, mkWorld f (clock w) (launched w) (shown w)).

(** [int(time.time())] *)
Definition time_time : M Z := fun w => (Return (clock w), w).

(** [progress(num/den, desc=desc)] *)
Definition show (num den : Z) (desc : string) (w : World) : World :=
  mkWorld (files w) (clock w) (launched w) (shown w ++ [(num, den, desc)])%list.

Definition progress (num den : Z) (desc : string) : M unit :=
  fun w => (Return tt, show num den desc w).

(** ** File operations *)

Definition check_path (p : string) : M unit :=
  if FS.has_nul p then raise NullByteError else ret tt.

(** [os.path.exists] *)
Definition os_path_exists (p : string) : M bool :=
  f <- get_files ;;
  ret (match FS.lookup p f with Some _ => negb (FS.has_nul p) | None => false end).

(** [os.mkdir] *)
Definition os_mkdir (p : string) : M unit :=
  check_path p ;;;
  f <- get_files ;;
  match p with
  | "" => raise (FileNotFoundError p)
  | _ =>
      match FS.lookup p f with
      | Some _ => raise (FileExistsError p)
      | None =>
          match FS.parent f p with
          | FS.ParentDir => put_files (FS.set p Dir f)
          | FS.ParentFile => raise (NotADirectoryError p)
          | FS.ParentMissing => raise (FileNotFoundError p)
          end
      end
  end.

(** [os.makedirs(name, exist_ok=True)]: the missing ancestors first (an
    ancestor that exists by then is passed over), then [name] itself,
    where an error is passed over if [name] is a directory.  The recursion
    is on the head of the path, which is shorter than the path; [fuel]
    bounds its depth. *)
Fixpoint os_makedirs_rec (fuel : nat) (name : string) : M unit :=
  match fuel with
  | O => os_mkdir name
  | S n =>
      let (head0, tail0) := OsPath.split name in
      let (head, tail) :=
        match tail0 with
        | "" => OsPath.split head0
        | _ => (head0, tail0)
        end in
      head_exists <- os_path_exists head ;;
      let make_leaf : M unit :=
        try_except (os_mkdir name)
          (fun e =>
             f <- get_files ;;
             match e with
             | FileNotFoundError _ | FileExistsError _
             | IsADirectoryError _ | NotADirectoryError _ =>
                 if FS.is_dir f name then ret tt else raise e
             | _ => raise e
             end) in
      match head, tail with
      | "", _ | _, "" => make_leaf
      | _, _ =>
          if head_exists then make_leaf
          else
            try_except (os_makedirs_rec n head)
              (fun e =>
                 match e with
                 | FileExistsError _ => ret tt
                 | _ => raise e
                 end) ;;;
            if String.eqb tail "." then ret tt else make_leaf
      end
  end.

Definition os_makedirs (name : string) : M unit :=
  os_makedirs_rec (S (String.length name)) name.

(** [open(p, "w")] followed by a successful write of [c] and the close. *)
Definition write_file (p : string) (c : content) : M unit :=
  check_path p ;;;
  f <- get_files ;;
  match p with
  | "" => raise (FileNotFoundError p)
  | _ =>
      match FS.lookup p f with
      | Some Dir => raise (IsADirectoryError p)
      | _ =>
          match FS.parent f p with
          | FS.ParentDir => put_files (FS.set p (File c) f)
          | FS.ParentFile => raise (NotADirectoryError p)
          | FS.ParentMissing => raise (FileNotFoundError p)
          end
      end
  end.

(** [open(p, "r").read()] *)
Definition read_text (p : string) : M string :=
  check_path p ;;;
  f <- get_files ;;
  match FS.lookup p f with
  | None => raise (FileNotFoundError p)
  | Some Dir => raise (IsADirectoryError p)
  | Some (File (Text s)) => ret s
  | Some (File (Archive _)) => raise (UnicodeDecodeError p)
  end.

(** [shutil.copy(src, dst)] *)
Definition shutil_copy (src dst : string) : M unit :=
  f <- get_files ;;
  let dst :=
    if FS.is_dir f dst then OsPath.join dst (OsPath.basename src) else dst in
  check_path src ;;;
  check_path dst ;;;
  match FS.lookup src f with
  | None => raise (FileNotFoundError src)
  | Some Dir =>
      if String.eqb src dst then raise (SameFileError src dst)
      else raise (IsADirectoryError src)
  | Some (File c) =>
      if String.eqb src dst then raise (SameFileError src dst)
      else write_file dst c
  end.

(** [list(Path(dir).glob(pattern))] *)
Definition path_glob (dir pre post : string) : M (list string) :=
  f <- get_files ;;
  ret (FS.glob f dir pre post).

(** ** The two handlers (app.py, lines 57-181) *)

(** [pd.DataFrame(rows, columns=columns)] *)
Record DataFrame : Type := mkDataFrame {
  rows : list (list pyval);
  columns : list string
}.

(** The five values [process_pdf] returns: log, extracted text, HTML
    preview, metadata table, path of the file to download. *)
Definition outputs : Type :=
  (string * string * option string * option DataFrame * option string)%type.

Definition WORKSPACE_DIR : string := "olmocr_workspace".

Section Handlers.

Variable env : Env.

(** [subprocess.run(cmd, ..., check=True)]; [capture] tells whether the
    two streams are piped.  Returns the captured standard output. *)
Definition launch (cmd : list string) (w : World) : World :=
  mkWorld (files w) (clock w) (launched w ++ [cmd])%list (shown w).

Definition subprocess_run (cmd : list string) (capture : bool) : M string :=
  fun w =>
    match run_tool env cmd (launch cmd w) with
    | (Exited code out err, w1) =>
        if (code =? 0)%Z then (Return out, w1)
        else
          (Raise (CalledProcessError cmd code
                    (if capture then Some out else None)
                    (if capture then Some err else None)), w1)
    | (NotStarted detail, w1) => (Raise (LaunchError detail), w1)
    end.

(** [json.loads] *)
Definition json_loads (doc : string) : M pyval :=
  match Json.loads doc with
  | Some v => ret v
  | None => raise (JSONDecodeError doc)
  end.

(** [obj.get(key, default)] *)
Definition py_get (obj : pyval) (key : string) (default : pyval) : M pyval :=
  match obj with
  | PyDict d =>
      ret (match Dict.get key d with Some v => v | None => default end)
  | _ => raise (AttributeError (type_name obj) "get")
  end.

(** [obj.items()] *)
Definition py_items (obj : pyval) : M (list (string * pyval)) :=
  match obj with
  | PyDict d => ret d
  | _ => raise (AttributeError (type_name obj) "items")
  end.

(** UTF-8 cannot encode a surrogate; in the byte model one shows as the
    byte 237 followed by a byte of 160 or more. *)
Fixpoint has_surrogate (s : string) : bool :=
  match s with
  | String a ((String b _) as t) =>
      (((nat_of_ascii a =? 237) && (160 <=? nat_of_ascii b))%nat)
      || has_surrogate t
  | _ => false
  end.

(** [with open(p, "w", encoding="utf-8") as f: f.write(v)]: the file is
    created or emptied before the argument is looked at.  Returns the
    string written. *)
Definition write_value (p : string) (v : pyval) : M string :=
  write_file p (Text "") ;;;
  match v with
  | PyStr s =>
      if has_surrogate s then raise UnicodeEncodeError
      else write_file p (Text s) ;;; ret s
  | _ => raise (WriteTypeError (type_name v))
  end.

(** The f-string rendering of an optional string. *)
Definition format_opt (o : option string) : string :=
  match o with
  | Some s => s
  | None => "None"
  end.

Definition failure (message : string) : outputs :=
  (message, "", None, None, None).

Definition process_pdf (pdf_file : option string) : M outputs :=
  match pdf_file with
  | None => ret (failure "请上传PDF文件")
  | Some pdf_file =>
      timestamp <- time_time ;;
      let work_dir := OsPath.join WORKSPACE_DIR ("job_" ++ str_of_Z timestamp) in
      os_makedirs work_dir ;;;
      let original_filename := fst (OsPath.splitext (OsPath.basename pdf_file)) in
      let pdf_path := OsPath.join work_dir "input.pdf" in
      shutil_copy pdf_file pdf_path ;;;
      let cmd := ["python"; "-m"; "olmocr.pipeline"; work_dir; "--pdfs"; pdf_path] in
      try_except
        (progress 2 10 "正在处理PDF..." ;;;
         log_text <- subprocess_run cmd true ;;
         progress 6 10 "正在生成预览..." ;;;
         let results_dir := OsPath.join work_dir "results" in
         results_exist <- os_path_exists results_dir ;;
         if negb results_exist then
           ret (failure ("处理完成，但未生成结果目录" ++ nl ++ nl ++ "日志输出:" ++ nl ++ log_text))
         else
           output_files <- path_glob results_dir "output_" ".jsonl" ;;
           match output_files with
           | [] =>
               ret (failure ("处理完成，但未找到输出文件" ++ nl ++ nl ++ "日志输出:" ++ nl ++ log_text))
           | output_file :: _ =>
               progress 8 10 "正在生成下载文件..." ;;;
               raw <- read_text output_file ;;
               let content := strip raw in
               match content with
               | "" =>
                   ret (failure ("输出文件为空" ++ nl ++ nl ++ "日志输出:" ++ nl ++ log_text))
               | _ =>
                   result <- json_loads content ;;
                   extracted_text <- py_get result "text" (PyStr "未找到文本内容") ;;
                   let preview_cmd :=
                     ["python"; "-m"; "olmocr.viewer.dolmaviewer"; output_file] in
                   log_text <-
                     try_except
                       (subprocess_run preview_cmd false ;;; ret log_text)
                       (fun e =>
                          ret (log_text ++ nl ++ "生成HTML预览失败: " ++ str_exn env e)) ;;
                   html_files <- path_glob "dolma_previews" "" ".html" ;;
                   preview <-
                     match html_files with
                     | [] => ret ("", log_text)
                     | html_file :: _ =>
                         try_except
                           (html_content <- read_text html_file ;;
                            ret (modify_html_for_better_display html_content,
                                 log_text))
                           (fun e =>
                              ret ("", log_text ++ nl ++ "读取HTML预览失败: "
                                       ++ str_exn env e))
                     end ;;
                   let (html_content, log_text) := preview in
                   metadata <- py_get result "metadata" (PyDict []) ;;
                   items <- py_items metadata ;;
                   let meta_rows := map (fun kv => [PyStr (fst kv); snd kv]) items in
                   let df := mkDataFrame meta_rows ["属性"; "值"] in
                   let download_file :=
                     OsPath.join work_dir (original_filename ++ "_extracted_text.txt") in
                   extracted_text <- write_value download_file extracted_text ;;
                   progress 10 10 "处理完成！" ;;;
                   ret (log_text, extracted_text, Some html_content, Some df,
                        Some download_file)
               end
           end)
        (fun e =>
           match e with
           | CalledProcessError _ _ _ stderr =>
               ret (failure ("命令执行失败: " ++ format_opt stderr))
           | _ => ret (failure ("处理过程中发生错误: " ++ str_exn env e))
           end)
  end.

(** [ZipInfo] ends an entry name at its first null byte. *)
Fixpoint zip_arcname (name : string) : string :=
  match name with
  | "" => ""
  | String c t => if Ascii.eqb c "000" then "" else String c (zip_arcname t)
  end.

(** [zipf.writestr(name, data)] on the archive opened at [zip_path], whose
    entries so far are [entries]: the new entry goes last, and the file at
    [zip_path] holds the entries written so far. *)
Definition zip_writestr (zip_path : string) (entries : list (string * string))
    (name data : string) : M (list (string * string)) :=
  let entries' := (entries ++ [(zip_arcname name, data)])%list in
  f <- get_files ;;
  put_files (FS.set zip_path (File (Archive entries')) f) ;;;
  ret entries'.

(** The loop of lines 168-179 from item number [i] on. *)
Fixpoint batch_loop (zip_path : string) (total_files i : Z)
    (pdf_files : list string) (entries : list (string * string)) : M unit :=
  match pdf_files with
  | [] => ret tt
  | pdf_file :: rest =>
      progress i total_files
        ("正在处理第 " ++ str_of_Z i ++ "/" ++ str_of_Z total_files ++ " 个文件...") ;;;
      out <- process_pdf (Some pdf_file) ;;
      let '(log_text, extracted_text, _, _, _) := out in
      let original_filename := fst (OsPath.splitext (OsPath.basename pdf_file)) in
      let text_filename := original_filename ++ "_extracted_text.txt" in
      entries <- zip_writestr zip_path entries text_filename extracted_text ;;
      batch_loop zip_path total_files (i + 1) rest entries
  end.

Definition process_multiple_pdfs (pdf_files : option (list string))
  : M (string * option string) :=
  match pdf_files with
  | None | Some [] => ret ("请上传PDF文件", None)
  | Some pdf_files =>
      timestamp <- time_time ;;
      let batch_dir := OsPath.join WORKSPACE_DIR ("batch_" ++ str_of_Z timestamp) in
      os_makedirs batch_dir ;;;
      let zip_path := OsPath.join batch_dir "extracted_texts.zip" in
      write_file zip_path (Archive []) ;;;
      let total_files := Z.of_nat (List.length pdf_files) in
      batch_loop zip_path total_files 1 pdf_files [] ;;;
      ret ("所有文件处理完成！", Some zip_path)
  end.

End Handlers.

(** ** Notions used in the statements *)

Section Runs.

Variable env : Env.

(** The names a job started in world [w] works with. *)
Definition job_dir (w : World) : string :=
  OsPath.join WORKSPACE_DIR ("job_" ++ str_of_Z (clock w)).

Definition input_copy (w : World) : string := OsPath.join (job_dir w) "input.pdf".

Definition results_dir (w : World) : string := OsPath.join (job_dir w) "results".

Definition stem (pdf_file : string) : string :=
  fst (OsPath.splitext (OsPath.basename pdf_file)).

Definition text_filename (pdf_file : string) : string :=
  stem pdf_file ++ "_extracted_text.txt".

Definition download_path (pdf_file : string) (w : World) : string :=
  OsPath.join (job_dir w) (text_filename pdf_file).

Definition pipeline_cmd (w : World) : list string :=
  ["python"; "-m"; "olmocr.pipeline"; job_dir w; "--pdfs"; input_copy w].

Definition viewer_cmd (output_file : string) : list string :=
  ["python"; "-m"; "olmocr.viewer.dolmaviewer"; output_file].

(** Staging, the part of [process_pdf] before its [try]: the job
    directory and the copy of the input. *)
Definition staging (pdf_file : string) : M unit :=
  fun w => (os_makedirs (job_dir w) ;;; shutil_copy pdf_file (input_copy w)) w.

(** A run of [process_pdf] up to the end of the extraction subprocess:
    how that subprocess ended and the world it left. *)
Definition extraction (pdf_file : string) : M proc_result :=
  fun w =>
    match staging pdf_file w with
    | (Return _, w') =>
        let cmd := pipeline_cmd w in
        let (r, w'') := run_tool env cmd (launch cmd (show 2 10 "正在处理PDF..." w')) in
        (Return r, w'')
    | (Raise e, w') => (Raise e, w')
    end.

(** The first output file of the job started in [w], in the world [w1]
    that the extraction left, with the text a read of it returns. *)
Definition first_output (w w1 : World) (output_file raw : string) : Prop :=
  (exists others,
     FS.glob (files w1) (results_dir w) "output_" ".jsonl" = output_file :: others)
  /\ FS.lookup output_file (files w1) = Some (File (Text raw)).

(** The world after the preview subprocess of a run whose extraction left
    [w1] and whose first output file is [output_file]. *)
Definition preview_world (output_file : string) (w1 : World) : World :=
  snd (subprocess_run env (viewer_cmd output_file) false
         (show 8 10 "正在生成下载文件..." (show 6 10 "正在生成预览..." w1))).

(** [open(p, "w")] succeeds on the files [f]. *)
Definition writable (f : fs) (p : string) : bool :=
  negb (String.eqb p "") && negb (FS.has_nul p) && negb (FS.is_dir f p)
  && match FS.parent f p with FS.ParentDir => true | _ => false end.

(** A record whose [text], if present, is a string that UTF-8 can encode
    and whose [metadata], if present, is an object. *)
Definition well_typed_record (d : list (string * pyval)) : bool :=
  match Dict.get "text" d with
  | None => true
  | Some (PyStr s) => negb (has_surrogate s)
  | Some _ => false
  end
  && match Dict.get "metadata" d with
     | None | Some (PyDict _) => true
     | Some _ => false
     end.

(** What a run that reaches its end returns for the record [d]: the text,
    and the rows of the metadata table. *)
Definition record_text (d : list (string * pyval)) : string :=
  match Dict.get "text" d with
  | Some (PyStr s) => s
  | _ => "未找到文本内容"
  end.

Definition record_rows (d : list (string * pyval)) : list (list pyval) :=
  match Dict.get "metadata" d with
  | Some (PyDict m) => map (fun kv => [PyStr (fst kv); snd kv]) m
  | _ => []
  end.

Definition metadata_table (d : list (string * pyval)) : DataFrame :=
  mkDataFrame (record_rows d) ["属性"; "值"].

(** What [process_pdf] returns is a failure, with a message only, or a
    complete result. *)
Definition well_shaped (out : outputs) : Prop :=
  (exists message, out = failure message)
  \/ (exists log text html df dl, out = (log, text, Some html, Some df, Some dl)).

(** The names of a batch started in world [w]. *)
Definition batch_dir (w : World) : string :=
  OsPath.join WORKSPACE_DIR ("batch_" ++ str_of_Z (clock w)).

Definition zip_path (w : World) : string :=
  OsPath.join (batch_dir w) "extracted_texts.zip".

(** The world in which the loop of a batch starts: batch directory made,
    empty archive opened. *)
Definition batch_setup : M unit :=
  fun w => (os_makedirs (batch_dir w) ;;; write_file (zip_path w) (Archive [])) w.

Definition item_desc (i total : Z) : string :=
  "正在处理第 " ++ str_of_Z i ++ "/" ++ str_of_Z total ++ " 个文件...".

Definition put_archive (zip : string) (entries : list (string * string))
    (w : World) : World :=
  mkWorld (FS.set zip (File (Archive entries)) (files w))
          (clock w) (launched w) (shown w).

(** [batch_calls zip total i pdf_files entries w texts w']: from world [w],
    with [entries] in the archive, the calls of [process_pdf] for
    [pdf_files] (numbered from [i]) all return; the i-th returns the text
    [texts_i], and the last step leaves world [w']. *)
Inductive batch_calls (zip : string) (total : Z)
  : Z -> list string -> list (string * string) -> World
    -> list string -> World -> Prop :=
| calls_done i entries w :
    batch_calls zip total i [] entries w [] w
| calls_step i pdf_file rest entries w log text html df dl w1 texts w' :
    process_pdf env (Some pdf_file) (show i total (item_desc i total) w)
    = (Return (log, text, html, df, dl), w1) ->
    batch_calls zip total (i + 1) rest
      (entries ++ [(text_filename pdf_file, text)])
      (put_archive zip (entries ++ [(text_filename pdf_file, text)]) w1)
      texts w' ->
    batch_calls zip total i (pdf_file :: rest) entries w (text :: texts) w'.

End Runs.

(** The record of the worked example: an object with the text hello and
    the metadata object with the one field pages, of value 1. *)
Definition hello_record : string :=
  "{" ++ dq ++ "text" ++ dq ++ ": " ++ dq ++ "hello" ++ dq ++ ", "
  ++ dq ++ "metadata" ++ dq ++ ": {" ++ dq ++ "pages" ++ dq ++ ": 1}}".

(** ** A concrete tool and concrete worlds

    A stand-in for the two external tools, used to run the handlers on
    concrete inputs.  The extraction tool looks at the first bytes of the
    staged input: [fail] makes it exit with status 2 and a message on its
    error stream, [nodir] makes it exit with status 0 without results,
    [blank] and [bare] make it write a blank output file and the record
    with no fields; any other input gives the record of the document.  The
    viewer writes one preview page. *)

Module Demo.

Definition add (p : string) (n : node) (w : World) : World :=
  mkWorld (FS.set p n (files w)) (clock w) (launched w) (shown w).

Definition with_output (work_dir text : string) (w : World) : World :=
  add (work_dir ++ "/results/output_0001.jsonl") (File (Text text))
    (add (work_dir ++ "/results") Dir w).

Definition staged_input (pdf_path : string) (w : World) : string :=
  match FS.lookup pdf_path (files w) with
  | Some (File (Text s)) => s
  | _ => ""
  end.

Definition page : string :=
  "<html><body><div class=" ++ dq ++ "page" ++ dq ++ ">hello</div></body></html>".

Definition tool (cmd : list string) (w : World) : proc_result * World :=
  match cmd with
  | [_; _; "olmocr.pipeline"; work_dir; _; pdf_path] =>
      let input := staged_input pdf_path w in
      if startswith "fail" input then (Exited 2 "" "boom", w)
      else if startswith "nodir" input then (Exited 0 "started" "", w)
      else if startswith "blank" input then
        (Exited 0 "started" "", with_output work_dir (" " ++ nl) w)
      else if startswith "bare" input then
        (Exited 0 "started" "", with_output work_dir "{}" w)
      else
        (Exited 0 "started" "", with_output work_dir (hello_record ++ nl) w)
  | _ =>
      (Exited 0 "" "",
       add "dolma_previews/page.html" (File (Text page))
         (add "dolma_previews" Dir w))
  end.

Definition env : Env := mkEnv tool (fun _ => "error").

Definition upload : string := "/tmp/gradio/paper.v2.pdf".

(** A world with the workspace directory and one uploaded file holding
    [input]. *)
Definition world (input : string) : World :=
  mkWorld [("olmocr_workspace", Dir); (upload, File (Text input))]
          1700000000 [] [].

(** A second upload for batches. *)
Definition upload2 : string := "/tmp/gradio/scan.pdf".

Definition world2 (input input2 : string) : World :=
  add upload2 (File (Text input2)) (world input).

End Demo.

(** ** Further notions *)

(** The world [w] with the files [f]. *)
Definition with_files (f : fs) (w : World) : World :=
  mkWorld f (clock w) (launched w) (shown w).

(** Line 16 of app.py, run when the module is loaded. *)
Definition startup : M unit := os_makedirs WORKSPACE_DIR.

(** The world in which the preview subprocess starts, when the extraction
    left [w1]. *)
Definition preview_start (w1 : World) : World :=
  show 8 10 "正在生成下载文件..." (show 6 10 "正在生成预览..." w1).

(** Lines 112 and 134: the two fields of the record, with their
    defaults. *)
Definition text_value (d : list (string * pyval)) : pyval :=
  match Dict.get "text" d with
  | Some v => v
  | None => PyStr "未找到文本内容"
  end.

Definition metadata_value (d : list (string * pyval)) : pyval :=
  match Dict.get "metadata" d with
  | Some v => v
  | None => PyDict []
  end.

Section Fragments.

Variable env : Env.

(** Lines 149-152: the two handlers of the [try]. *)
Definition on_error (e : exn) : M outputs :=
  match e with
  | CalledProcessError _ _ _ stderr =>
      ret (failure ("命令执行失败: " ++ format_opt stderr))
  | _ => ret (failure ("处理过程中发生错误: " ++ str_exn env e))
  end.

(** Lines 134-147: the table, the download file and the result. *)
Definition finish (pdf_file : string) (w : World)
    (d : list (string * pyval)) (html_content log_text : string) : M outputs :=
  items <- py_items (metadata_value d) ;;
  extracted_text <- write_value (download_path pdf_file w) (text_value d) ;;
  progress 10 10 "处理完成！" ;;;
  ret (log_text, extracted_text, Some html_content,
       Some (mkDataFrame (map (fun kv => [PyStr (fst kv); snd kv]) items)
               ["属性"; "值"]),
       Some (download_path pdf_file w)).

(** Lines 115-119: the preview subprocess, whose failure only adds a line
    to the log. *)
Definition preview_attempt (output_file log_text : string) : M string :=
  try_except
    (subprocess_run env (viewer_cmd output_file) false ;;; ret log_text)
    (fun e => ret (log_text ++ nl ++ "生成HTML预览失败: " ++ str_exn env e)).

(** Lines 122-131: the preview read from the first HTML file, with the
    log. *)
Definition preview_read (html_files : list string) (log_text : string)
  : M (string * string) :=
  match html_files with
  | [] => ret ("", log_text)
  | html_file :: _ =>
      try_except
        (html_content <- read_text html_file ;;
         ret (modify_html_for_better_display html_content, log_text))
        (fun e => ret ("", log_text ++ nl ++ "读取HTML预览失败: " ++ str_exn env e))
  end.

End Fragments.

(** ** Scripted tools

    An environment whose extraction tool is [extract], applied to the job
    directory, and whose viewer is [view]. *)

Module Scenario.

Definition run (extract : string -> World -> proc_result * World)
    (view : World -> proc_result * World)
    (cmd : list string) (w : World) : proc_result * World :=
  match cmd with
  | [_; _; "olmocr.pipeline"; work_dir; _; _] => extract work_dir w
  | _ => view w
  end.

Definition script (extract : string -> World -> proc_result * World)
    (view : World -> proc_result * World) : Env :=
  mkEnv (run extract view) (fun _ => "error").

(** The extraction writes one output file holding [text]. *)
Definition writes (text work_dir : string) (w : World) : proc_result * World :=
  (Exited 0 "started" "", Demo.with_output work_dir text w).

(** The extraction makes the results directory and nothing else. *)
Definition writes_nothing (work_dir : string) (w : World)
  : proc_result * World :=
  (Exited 0 "started" "", Demo.add (work_dir ++ "/results") Dir w).

Definition cannot_start (work_dir : string) (w : World)
  : proc_result * World :=
  (NotStarted "python: command not found", w).


Definition view_nothing (w : World) : proc_result * World :=
  (Exited 0 "" "", w).

(** The viewer leaves a page of an earlier job in the shared directory. *)
Definition view_page (w : World) : proc_result * World :=
  (Exited 0 "" "",
   Demo.add "dolma_previews/page.html" (File (Text Demo.page))
     (Demo.add "dolma_previews" Dir w)).

Definition quoted (s : string) : string := dq ++ s ++ dq.

(** A record whose text field is the number 5. *)
Definition numeric_text : string := "{" ++ quoted "text" ++ ": 5}".

(** A record whose metadata field is a list. *)
Definition list_metadata : string := "{" ++ quoted "metadata" ++ ": [1]}".

(** A world like [Demo.world] in which an earlier job has left a
    preview. *)
Definition world_with_preview (input : string) : World :=
  Demo.add "dolma_previews/earlier.html" (File (Text Demo.page))
    (Demo.add "dolma_previews" Dir (Demo.world input)).

(** A world like [Demo.world] in which the job directory is there already
    and holds a directory under the name of the download file. *)
Definition world_with_blocked_download (input : string) : World :=
  Demo.add "olmocr_workspace/job_1700000000/paper.v2_extracted_text.txt" Dir
    (Demo.add "olmocr_workspace/job_1700000000" Dir (Demo.world input)).

End Scenario.

(** ** Notions used in the proofs *)

(** [p] occurs in [s]: the meaning of [contains]. *)
Definition occurs (p s : string) : Prop := exists a b, s = a ++ p ++ b.

(** The characters of a decimal numeral. *)
Definition numeral_char (c : ascii) : bool :=
  Json.is_digit c || Ascii.eqb c "-".

(** A scan of the JSON reader went well on [s]: it did not run out of
    fuel, and a value it read took at least one character. *)
Definition sound (A : Type) (r : Json.parse A) (s : string) : Prop :=
  match r with
  | Json.Parsed _ rest => String.length rest < String.length s
  | Json.Malformed => True
  | Json.OutOfFuel => False
  end.

Unset Implicit Arguments.

(** * Properties *)

(** ** Strings *)

Module StrFacts.

Lemma app_assoc (a b c : string) : (a ++ b) ++ c = a ++ b ++ c.
Proof. induction a as [|x a IH]; simpl; [reflexivity | now rewrite IH]. Qed.

Lemma app_nil_r (a : string) : a ++ "" = a.
Proof. induction a as [|x a IH]; simpl; [reflexivity | now rewrite IH]. Qed.

Lemma length_app (a b : string) :
  String.length (a ++ b) = String.length a + String.length b.
Proof. induction a as [|x a IH]; simpl; [reflexivity | now rewrite IH]. Qed.

Lemma strip_prefix_app (p r : string) : strip_prefix p (p ++ r) = Some r.
Proof.
  induction p as [|x p IH]; simpl; [reflexivity|].
  now rewrite Ascii.eqb_refl.
Qed.

Lemma strip_prefix_some (p s r : string) :
  strip_prefix p s = Some r -> s = p ++ r.
Proof.
  revert s; induction p as [|x p IH]; simpl; intros s H.
  - now injection H.
  - destruct s as [|y s]; [discriminate|].
    destruct (Ascii.eqb_spec x y) as [->|]; [|discriminate].
    now rewrite (IH _ H).
Qed.

Lemma occurs_here (p b : string) : occurs p (p ++ b).
Proof. now exists "", b. Qed.

Lemma occurs_cons (p : string) (c : ascii) (s : string) :
  occurs p s -> occurs p (String c s).
Proof. intros (a & b & ->). now exists (String c a), b. Qed.

Lemma occurs_app_l (p x s : string) : occurs p s -> occurs p (x ++ s).
Proof.
  intros (a & b & ->). exists (x ++ a), b. now rewrite app_assoc.
Qed.

Lemma occurs_app_r (p s y : string) : occurs p s -> occurs p (s ++ y).
Proof.
  intros (a & b & ->). exists a, (b ++ y). now rewrite !app_assoc.
Qed.

Lemma occurs_uncons (p : string) (c : ascii) (s : string) :
  occurs p (String c s) ->
  (exists b, String c s = p ++ b) \/ occurs p s.
Proof.
  intros (a & b & H). destruct a as [|x a].
  - left. now exists b.
  - right. simpl in H. injection H as _ ->. now exists a, b.
Qed.

Lemma contains_unfold (p s : string) :
  contains p s =
  startswith p s || match s with "" => false | String _ t => contains p t end.
Proof. destruct s; reflexivity. Qed.

Lemma contains_occurs (p s : string) : contains p s = true <-> occurs p s.
Proof.
  split.
  - induction s as [|c s IH]; simpl; unfold startswith.
    + destruct (strip_prefix p "") eqn:E; [|discriminate].
      intros _. apply strip_prefix_some in E. rewrite E. apply occurs_here.
    + destruct (strip_prefix p (String c s)) eqn:E; simpl.
      * intros _. apply strip_prefix_some in E. rewrite E. apply occurs_here.
      * intros H. apply occurs_cons. now apply IH.
  - intros (a & b & ->). induction a as [|c a IH]; simpl.
    + rewrite contains_unfold. unfold startswith.
      now rewrite strip_prefix_app.
    + rewrite IH. apply orb_true_r.
Qed.

Lemma has_char_app (c : ascii) (a b : string) :
  has_char c (a ++ b) = has_char c a || has_char c b.
Proof.
  induction a as [|x a IH]; simpl; [reflexivity|].
  now rewrite IH, orb_assoc.
Qed.

(** An occurrence of [p] has all the characters of [p]. *)
Lemma occurs_has_char (c : ascii) (p s : string) :
  occurs p s -> has_char c p = true -> has_char c s = true.
Proof.
  intros (a & b & ->) H. rewrite !has_char_app, H.
  now rewrite orb_true_r.
Qed.

(** Splitting an equation between two concatenations. *)
Lemma app_eq_app (a b x y : string) :
  a ++ b = x ++ y ->
  (exists m, x = a ++ m /\ b = m ++ y) \/ (exists m, a = x ++ m /\ y = m ++ b).
Proof.
  revert x; induction a as [|c a IH]; simpl; intros x H.
  - left. now exists x.
  - destruct x as [|d x]; simpl in H.
    + right. now exists (String c a).
    + injection H as -> H. destruct (IH _ H) as [(m & -> & ->)|(m & -> & ->)].
      * left. now exists m.
      * right. now exists m.
Qed.

(** An occurrence of [p] in [x ++ c :: y], where [c] is not in [p], lies
    in [x] or in [y]. *)
Lemma occurs_split_at (c : ascii) (p x y : string) :
  has_char c p = false ->
  occurs p (x ++ String c y) -> occurs p x \/ occurs p y.
Proof.
  intros Hc (a & b & H). symmetry in H.
  destruct (app_eq_app _ _ _ _ H) as [(m & -> & Hm)|(m & -> & Hm)].
  - (* the occurrence starts in [x] *)
    destruct (app_eq_app _ _ _ _ Hm) as [(k & -> & Hb)|(k & Hk & Hb)].
    + left. now exists a, k.
    + destruct k as [|d k].
      * rewrite app_nil_r in Hk. subst m. left. exists a, "".
        now rewrite app_nil_r.
      * simpl in Hb. injection Hb as -> _.
        rewrite Hk, has_char_app in Hc. simpl in Hc.
        rewrite Ascii.eqb_refl in Hc. simpl in Hc.
        rewrite orb_true_r in Hc. discriminate.
  - destruct m as [|d m].
    + simpl in Hm. destruct p as [|e p].
      * right. exists "", y. reflexivity.
      * simpl in Hm. injection Hm as -> _. simpl in Hc.
        rewrite Ascii.eqb_refl in Hc. discriminate.
    + simpl in Hm. injection Hm as -> ->. right. now exists m, b.
Qed.

End StrFacts.
Import StrFacts.

(** ** Literal replacement *)

Module ReplaceFacts.

Lemma occurs_nonempty (p s : string) :
  occurs p s -> p <> "" -> s <> "".
Proof.
  intros (a & b & ->) Hp H. destruct a; [|discriminate].
  destruct p; [congruence | discriminate].
Qed.

(** An occurrence of [c :: p'] in [x ++ y] lies in [y] when [x] has no
    [c]. *)
Lemma occurs_skip (c : ascii) (p' x y : string) :
  has_char c x = false ->
  occurs (String c p') (x ++ y) -> occurs (String c p') y.
Proof.
  induction x as [|d x IH]; simpl; intros Hx H; [exact H|].
  apply orb_false_iff in Hx as [Hd Hx].
  apply occurs_uncons in H as [(b & H)|H].
  - simpl in H. injection H as -> _. now rewrite Ascii.eqb_refl in Hd.
  - now apply IH.
Qed.

Section Replace.

Variables old new : string.

Lemma replace_scan_length (fuel : nat) (s : string) :
  String.length old <= String.length new ->
  String.length s <= String.length (replace_scan fuel old new s).
Proof.
  intros Hlen. revert s; induction fuel as [|n IH]; intros s; simpl; [lia|].
  destruct (strip_prefix old s) as [rest|] eqn:E.
  - apply strip_prefix_some in E. subst s.
    rewrite !length_app. specialize (IH rest). lia.
  - destruct s as [|c t]; simpl; [lia|]. specialize (IH t). lia.
Qed.

Lemma replace_scan_grows (fuel : nat) (s : string) :
  old <> "" ->
  String.length old < String.length new ->
  occurs old s ->
  String.length s < fuel ->
  String.length s < String.length (replace_scan fuel old new s).
Proof.
  intros Hne Hlen. revert s; induction fuel as [|n IH]; intros s Hocc Hfuel;
    simpl; [lia|].
  destruct (strip_prefix old s) as [rest|] eqn:E.
  - apply strip_prefix_some in E. subst s. rewrite !length_app.
    pose proof (replace_scan_length n rest). lia.
  - destruct s as [|c t].
    + now destruct (occurs_nonempty _ _ Hocc Hne).
    + apply occurs_uncons in Hocc as [(b & H)|H].
      * rewrite H, strip_prefix_app in E. discriminate.
      * simpl in *. specialize (IH t H). lia.
  Qed.

(** The scan always leaves an occurrence of [old] when the replacement
    ends with [old]. *)
Lemma replace_scan_reinserts (x : string) (fuel : nat) (s : string) :
  new = x ++ old ->
  occurs old s -> occurs old (replace_scan fuel old new s).
Proof.
  intros ->. revert s; induction fuel as [|n IH]; intros s Hocc; simpl;
    [exact Hocc|].
  destruct (strip_prefix old s) as [rest|] eqn:E.
  - rewrite app_assoc. apply occurs_app_l, occurs_here.
  - destruct s as [|c t].
    + destruct Hocc as (a & b & H). destruct a; [|discriminate].
      simpl in H. destruct old; [now exists "", ""|discriminate].
    + apply occurs_uncons in Hocc as [(b & H)|H].
      * rewrite H, strip_prefix_app in E. discriminate.
      * apply occurs_cons. now apply IH.
Qed.

(** Both [old] and the pattern [p] to keep start with [c] and have no
    other [c]; then no occurrence of [old] overlaps one of [p]. *)
Variable c : ascii.
Variables old' p' : string.
Hypothesis old_eq : old = String c old'.
Hypothesis old_anchor : has_char c old' = false.
Hypothesis p_anchor : has_char c p' = false.

Lemma replace_scan_copies (x b : string) (fuel : nat) :
  has_char c x = false ->
  exists b', replace_scan fuel old new (x ++ b) = x ++ b'.
Proof.
  revert fuel; induction x as [|d x IH]; intros fuel Hx.
  - now exists (replace_scan fuel old new b).
  - simpl in Hx. apply orb_false_iff in Hx as [Hd Hx].
    destruct fuel as [|n]; simpl.
    + now exists b.
    + rewrite old_eq. simpl. rewrite Ascii.eqb_sym, Hd.
      destruct (IH n Hx) as (b' & Hb'). rewrite <- old_eq, Hb'.
      now exists b'.
Qed.

Lemma replace_scan_keeps (fuel : nat) (s : string) :
  (forall b, strip_prefix old (String c p' ++ b) = None) ->
  occurs (String c p') s ->
  occurs (String c p') (replace_scan fuel old new s).
Proof.
  intros Hdiff. revert s; induction fuel as [|n IH]; intros s Hocc; simpl;
    [exact Hocc|].
  destruct (strip_prefix old s) as [rest|] eqn:E.
  - apply occurs_app_l, IH.
    pose proof (strip_prefix_some _ _ _ E) as Hs. subst s.
    rewrite old_eq in Hocc. simpl in Hocc.
    apply occurs_uncons in Hocc as [(b & H)|H].
    + pose proof (Hdiff b) as D. rewrite <- H in D.
      change (String c (old' ++ rest)) with (String c old' ++ rest) in D.
      rewrite <- old_eq, strip_prefix_app in D. discriminate.
    + now apply occurs_skip in H.
  - destruct s as [|d t].
    + exfalso. now apply (occurs_nonempty _ _ Hocc).
    + apply occurs_uncons in Hocc as [(b & H)|H].
      * simpl in H. injection H as -> ->.
        destruct (replace_scan_copies p' b n p_anchor) as (b' & ->).
        apply (occurs_here (String c p') b').
      * apply occurs_cons. now apply IH.
Qed.

End Replace.

Lemma replace_length (old new s : string) :
  old <> "" ->
  String.length old <= String.length new ->
  String.length s <= String.length (replace old new s).
Proof.
  intros Hne Hlen. destruct old; [congruence|].
  now apply replace_scan_length.
Qed.

Lemma replace_grows (old new s : string) :
  old <> "" ->
  String.length old < String.length new ->
  occurs old s ->
  String.length s < String.length (replace old new s).
Proof.
  intros Hne Hlen Hocc. destruct old as [|a o]; [congruence|].
  apply replace_scan_grows; auto.
Qed.

Lemma replace_reinserts (old x s : string) :
  old <> "" ->
  occurs old s -> occurs old (replace old (x ++ old) s).
Proof.
  intros Hne Hocc. destruct old as [|a o]; [congruence|].
  now apply replace_scan_reinserts with (x := x).
Qed.

Lemma replace_keeps (c : ascii) (old' new p' s : string) :
  has_char c old' = false ->
  has_char c p' = false ->
  (forall b, strip_prefix (String c old') (String c p' ++ b) = None) ->
  occurs (String c p') s ->
  occurs (String c p') (replace (String c old') new s).
Proof.
  intros Ho Hp Hdiff Hocc.
  now apply replace_scan_keeps with (old' := old').
Qed.

End ReplaceFacts.
Import ReplaceFacts.

(** ** The image substitution and the adapter *)

Module ImgFacts.

Lemma match_value_some (s g2 rest : string) :
  match_value s = Some (g2, rest) -> s = g2 ++ String "034" rest.
Proof.
  revert g2; induction s as [|c t IH]; simpl; intros g2 H; [discriminate|].
  destruct (Ascii.eqb_spec c "034") as [->|_].
  - now injection H as <- <-.
  - destruct (match_value t) as [[g r]|]; [|discriminate].
    injection H as <- <-. simpl. now rewrite (IH g eq_refl).
Qed.

Lemma match_style_some (s g2 rest : string) :
  match_style s = Some (g2, rest) ->
  s = "style=" ++ String "034" (g2 ++ String "034" rest).
Proof.
  unfold match_style. intros H.
  destruct (strip_prefix ("style=" ++ dq) s) as [t|] eqn:E; [|discriminate].
  apply strip_prefix_some in E. apply match_value_some in H. now subst.
Qed.

Lemma match_attrs_some (s g1 g2 rest : string) :
  match_attrs s = Some (g1, g2, rest) ->
  s = g1 ++ "style=" ++ String "034" (g2 ++ String "034" rest)
  /\ has_char ">" g1 = false.
Proof.
  revert g1; induction s as [|c t IH]; intros g1 H.
  - discriminate H.
  - cbn [match_attrs] in H.
    assert (Hhere : forall g1,
               match match_style (String c t) with
               | Some (g2, rest) => Some ("", g2, rest)
               | None => None
               end = Some (g1, g2, rest) ->
               String c t = g1 ++ "style=" ++ String "034" (g2 ++ String "034" rest)
               /\ has_char ">" g1 = false).
    { intros g H0.
      destruct (match_style (String c t)) as [[g' r]|] eqn:E; [|discriminate].
      injection H0 as <- <- <-. now apply match_style_some in E. }
    destruct (Ascii.eqb c ">") eqn:Ec; [now apply Hhere|].
    destruct (match_attrs t) as [[[g g'] r]|]; [|now apply Hhere].
    injection H as <- <- <-. destruct (IH g eq_refl) as [-> Hg].
    split; [reflexivity|]. simpl. now rewrite Ec.
Qed.

Lemma match_img_some (s g1 g2 rest : string) :
  match_img s = Some (g1, g2, rest) ->
  s = "<img" ++ g1 ++ "style=" ++ String "034" (g2 ++ String "034" rest)
  /\ has_char ">" g1 = false.
Proof.
  unfold match_img. intros H.
  destruct (strip_prefix "<img" s) as [t|] eqn:E; [|discriminate].
  apply strip_prefix_some in E. apply match_attrs_some in H as [-> Hg].
  now subst.
Qed.

Lemma img_template_length (g1 g2 : string) :
  String.length (img_template g1 g2)
  = 43 + String.length g1 + String.length g2.
Proof.
  unfold img_template. rewrite !length_app. simpl. lia.
Qed.

Lemma img_sub_scan_length (fuel : nat) (s : string) :
  String.length s <= String.length (img_sub_scan fuel s).
Proof.
  revert s; induction fuel as [|n IH]; intros s; cbn [img_sub_scan]; [lia|].
  destruct (match_img s) as [[[g1 g2] rest]|] eqn:E.
  - apply match_img_some in E as [-> _].
    specialize (IH rest).
    rewrite !length_app, img_template_length. simpl.
    rewrite !length_app. simpl. lia.
  - destruct s as [|c t]; simpl; [lia|]. specialize (IH t). lia.
Qed.

Lemma img_sub_scan_copies (x b : string) (fuel : nat) :
  has_char "<" x = false ->
  exists b', img_sub_scan fuel (x ++ b) = x ++ b'.
Proof.
  revert fuel; induction x as [|d x IH]; intros fuel Hx.
  - now exists (img_sub_scan fuel b).
  - simpl in Hx. apply orb_false_iff in Hx as [Hd Hx].
    destruct fuel as [|n]; cbn [img_sub_scan].
    + now exists b.
    + unfold match_img. cbn [strip_prefix append]. rewrite Ascii.eqb_sym, Hd.
      destruct (IH n Hx) as (b' & ->). now exists b'.
Qed.

(** A pattern [<p'] that has a [>], no double quote and no second [<]
    survives the substitution: inside a match it can only lie in group 2,
    which the template copies. *)
Lemma img_sub_scan_keeps (p' : string) (fuel : nat) (s : string) :
  has_char "<" p' = false ->
  has_char "034" p' = false ->
  has_char ">" p' = true ->
  occurs (String "<" p') s ->
  occurs (String "<" p') (img_sub_scan fuel s).
Proof.
  intros Hlt Hq Hgt. revert s; induction fuel as [|n IH]; intros s Hocc;
    cbn [img_sub_scan]; [exact Hocc|].
  destruct (match_img s) as [[[g1 g2] rest]|] eqn:E.
  - apply match_img_some in E as [-> Hg1].
    replace ("<img" ++ g1 ++ "style=" ++ String "034" (g2 ++ String "034" rest))
      with ((("<img" ++ g1 ++ "style=") ++ String "034" g2) ++ String "034" rest)
      in Hocc by (now rewrite !app_assoc).
    apply occurs_split_at in Hocc as [Hocc|Hocc]; [|now apply occurs_app_l, IH|exact Hq].
    apply occurs_split_at in Hocc as [Hocc|Hocc]; [| |exact Hq].
    + apply occurs_has_char with (c := ">"%char) in Hocc; [|simpl; now rewrite Hgt].
      rewrite !has_char_app in Hocc. simpl in Hocc. rewrite Hg1 in Hocc.
      discriminate.
    + apply occurs_app_r. unfold img_template.
      do 5 apply occurs_app_l. now apply occurs_app_r.
  - destruct s as [|d t].
    + exfalso. now apply (occurs_nonempty _ _ Hocc).
    + apply occurs_uncons in Hocc as [(b & H)|H].
      * simpl in H. injection H as -> ->.
        destruct (img_sub_scan_copies p' b n Hlt) as (b' & ->).
        apply (occurs_here (String "<" p') b').
      * apply occurs_cons. now apply IH.
Qed.

End ImgFacts.

Import ImgFacts.

Lemma modify_html_length (s : string) :
  String.length s <= String.length (modify_html_for_better_display s).
Proof.
  unfold modify_html_for_better_display. destruct s as [|c t]; [simpl; lia|].
  set (s := String c t).
  pose proof (replace_length container_old container_new s) as H1.
  set (s1 := replace container_old container_new s) in *.
  pose proof (replace_length style_old style_new s1) as H2.
  set (s2 := replace style_old style_new s1) in *.
  pose proof (replace_length row_old row_new s2) as H3.
  set (s3 := replace row_old row_new s2) in *.
  pose proof (replace_length col_old col_new s3) as H4.
  set (s4 := replace col_old col_new s3) in *.
  pose proof (replace_length page_old page_new s4) as H5.
  set (s5 := replace page_old page_new s4) in *.
  pose proof (img_sub_scan_length (S (String.length s5)) s5) as H6.
  fold (img_sub s5) in H6. set (s6 := img_sub s5) in *.
  pose proof (replace_length body_close (zoom_controls ++ body_close) s6) as H7.
  specialize (H1 ltac:(discriminate) ltac:(vm_compute; lia)).
  specialize (H2 ltac:(discriminate) ltac:(vm_compute; lia)).
  specialize (H3 ltac:(discriminate) ltac:(vm_compute; lia)).
  specialize (H4 ltac:(discriminate) ltac:(vm_compute; lia)).
  specialize (H5 ltac:(discriminate) ltac:(vm_compute; lia)).
  specialize (H7 ltac:(discriminate) ltac:(vm_compute; lia)).
  lia.
Qed.

(** The first six steps keep every occurrence of the closing body tag. *)
Ltac keep_through old :=
  let o := eval vm_compute in old in
  lazymatch o with
  | String ?c ?o' =>
      change old with (String c o');
      apply replace_keeps;
      [reflexivity | reflexivity | intros ?; reflexivity | ]
  end.

Lemma modify_html_keeps_body (s : string) :
  occurs body_close s ->
  occurs body_close (modify_html_for_better_display s).
Proof.
  intros H. unfold modify_html_for_better_display.
  destruct s as [|c t]; [exact H|].
  apply replace_reinserts; [discriminate|].
  change body_close with (String "<" "/body>") in *.
  apply img_sub_scan_keeps; try reflexivity.
  keep_through page_old. keep_through col_old. keep_through row_old.
  keep_through style_old. keep_through container_old. exact H.
Qed.

Lemma modify_html_grows (s : string) :
  occurs body_close s ->
  String.length s < String.length (modify_html_for_better_display s).
Proof.
  intros H. pose proof (modify_html_keeps_body s H) as K.
  unfold modify_html_for_better_display in *.
  destruct s as [|c t].
  - destruct H as (a & b & H). destruct a; discriminate.
  - set (s := String c t) in *.
    set (s5 := replace page_old page_new _) in *.
    assert (Hs5 : String.length s <= String.length (img_sub s5)).
    { pose proof (img_sub_scan_length (S (String.length s5)) s5) as H6.
      fold (img_sub s5) in H6.
      assert (String.length s <= String.length s5); [|lia].
      subst s5.
      repeat (etransitivity; [|apply replace_length;
                               [discriminate | vm_compute; lia]]).
      lia. }
    assert (Hocc : occurs body_close (img_sub s5)).
    { change body_close with (String "<" "/body>") in *.
      apply img_sub_scan_keeps; try reflexivity. subst s5.
      keep_through page_old. keep_through col_old. keep_through row_old.
      keep_through style_old. keep_through container_old. exact H. }
    pose proof (replace_grows body_close (zoom_controls ++ body_close)
                  (img_sub s5) ltac:(discriminate) ltac:(vm_compute; lia) Hocc).
    lia.
Qed.

(** C8.  The adapter is not idempotent: on every input that contains the
    closing body tag, a second application gives a result different from
    the first one (it is strictly longer: the zoom controls are inserted
    once more). *)
Theorem modify_html_not_idempotent (s : string) :
  contains body_close s = true ->
  modify_html_for_better_display (modify_html_for_better_display s)
  <> modify_html_for_better_display s.
Proof.
  intros H. apply contains_occurs in H.
  pose proof (modify_html_grows _ (modify_html_keeps_body s H)) as G.
  intros E. rewrite E in G. lia.
Qed.

Lemma modify_html_not_idempotent_witness :
  contains body_close Demo.page = true
  /\ modify_html_for_better_display (modify_html_for_better_display Demo.page)
     <> modify_html_for_better_display Demo.page.
Proof.
  split; [reflexivity|].
  apply (modify_html_not_idempotent Demo.page). reflexivity.
Defined.

(** On the smallest such input the second result has the controls twice. *)
Lemma zoom_controls_twice :
  modify_html_for_better_display (modify_html_for_better_display body_close)
  = zoom_controls ++ zoom_controls ++ body_close
  /\ modify_html_for_better_display body_close = zoom_controls ++ body_close.
Proof. split; vm_compute; reflexivity. Qed.


(** ** Names of the workspace *)

Module PathFacts.

(** A character that is neither a digit nor the minus sign is not in a
    decimal numeral. *)
Lemma string_of_uint_chars (c : ascii) (d : uint) :
  numeral_char c = false -> has_char c (NilEmpty.string_of_uint d) = false.
Proof.
  intros Hc.
  induction d; cbn [NilEmpty.string_of_uint has_char]; try reflexivity;
    rewrite IHd, orb_false_r;
    match goal with
    | |- Ascii.eqb ?x c = false =>
        destruct (Ascii.eqb_spec x c) as [<-|]; [discriminate Hc|reflexivity]
    end.
Qed.

Lemma str_of_Z_chars (c : ascii) (z : Z) :
  numeral_char c = false -> has_char c (str_of_Z z) = false.
Proof.
  intros Hc. unfold str_of_Z, NilZero.string_of_int, NilZero.string_of_uint.
  assert (H0 : has_char c "0" = false).
  { cbn [has_char]. rewrite orb_false_r.
    destruct (Ascii.eqb_spec "0" c) as [<-|]; [discriminate Hc|reflexivity]. }
  assert (Hm : Ascii.eqb "-" c = false).
  { destruct (Ascii.eqb_spec "-" c) as [<-|]; [discriminate Hc|reflexivity]. }
  destruct (Z.to_int z) as [d|d].
  - destruct d; try exact H0; now apply string_of_uint_chars.
  - cbn [has_char]. rewrite Hm. cbn [orb].
    destruct d; try exact H0; now apply string_of_uint_chars.
Qed.

Lemma str_of_Z_nonempty (z : Z) : str_of_Z z <> "".
Proof.
  unfold str_of_Z, NilZero.string_of_int, NilZero.string_of_uint.
  destruct (Z.to_int z) as [d|d]; destruct d; discriminate.
Qed.

(** A string that is not empty and has no [c] does not end with [c],
    whatever stands before it. *)
Lemma endswith_char_app (c : ascii) (a b : string) :
  b <> "" -> has_char c b = false ->
  endswith (String c "") (a ++ b) = false.
Proof.
  intros Hb Hc.
  assert (Hbase : endswith (String c "") b = false).
  { clear Hb. induction b as [|x b IH]; [reflexivity|].
    simpl in Hc. apply orb_false_iff in Hc as [Hx Hc].
    cbn [endswith String.eqb]. rewrite Ascii.eqb_sym, Hx. simpl. now apply IH. }
  induction a as [|x a IH]; [exact Hbase|].
  cbn [append endswith String.eqb]. rewrite IH, orb_false_r.
  destruct (Ascii.eqb c x); [|reflexivity].
  destruct (a ++ b) eqn:E; [|reflexivity].
  destruct a; [simpl in E; congruence | discriminate].
Qed.

Lemma job_dir_eq (w : World) :
  job_dir w = "olmocr_workspace/job_" ++ str_of_Z (clock w).
Proof. reflexivity. Qed.

Lemma batch_dir_eq (w : World) :
  batch_dir w = "olmocr_workspace/batch_" ++ str_of_Z (clock w).
Proof. reflexivity. Qed.

(** Joining a relative name to a directory whose name ends with a
    numeral. *)
Lemma join_numbered (pre : string) (z : Z) (x : string) :
  startswith "/" x = false ->
  OsPath.join (pre ++ str_of_Z z) x = (pre ++ str_of_Z z) ++ "/" ++ x.
Proof.
  intros Hx. unfold OsPath.join. rewrite Hx.
  destruct (pre ++ str_of_Z z) eqn:E.
  - destruct pre; [|discriminate]. now destruct (str_of_Z_nonempty z).
  - rewrite <- E, endswith_char_app; [reflexivity | apply str_of_Z_nonempty |].
    now apply str_of_Z_chars.
Qed.

Lemma input_copy_eq (w : World) :
  input_copy w = "olmocr_workspace/job_" ++ str_of_Z (clock w) ++ "/input.pdf".
Proof.
  unfold input_copy. rewrite job_dir_eq, join_numbered by reflexivity.
  now rewrite app_assoc.
Qed.

Lemma results_dir_eq (w : World) :
  results_dir w = "olmocr_workspace/job_" ++ str_of_Z (clock w) ++ "/results".
Proof.
  unfold results_dir. rewrite job_dir_eq, join_numbered by reflexivity.
  now rewrite app_assoc.
Qed.

Lemma zip_path_eq (w : World) :
  zip_path w
  = "olmocr_workspace/batch_" ++ str_of_Z (clock w) ++ "/extracted_texts.zip".
Proof.
  unfold zip_path. rewrite batch_dir_eq, join_numbered by reflexivity.
  now rewrite app_assoc.
Qed.

Lemma results_dir_no_nul (w : World) : FS.has_nul (results_dir w) = false.
Proof.
  rewrite results_dir_eq. unfold FS.has_nul.
  rewrite !has_char_app, str_of_Z_chars by reflexivity. reflexivity.
Qed.

End PathFacts.
Import PathFacts.

(** ** The monad and the file system *)

Module MonadFacts.

Lemma bind_return {A B} (m : M A) (k : A -> M B) (w : World) a w' :
  m w = (Return a, w') -> bind m k w = k a w'.
Proof. unfold bind. now intros ->. Qed.

Lemma bind_raise {A B} (m : M A) (k : A -> M B) (w : World) e w' :
  m w = (Raise e, w') -> bind m k w = (Raise e, w').
Proof. unfold bind. now intros ->. Qed.

Lemma try_except_return {A} (m : M A) (h : exn -> M A) (w : World) a w' :
  m w = (Return a, w') -> try_except m h w = (Return a, w').
Proof. unfold try_except. now intros ->. Qed.

Lemma try_except_raise {A} (m : M A) (h : exn -> M A) (w : World) e w' :
  m w = (Raise e, w') -> try_except m h w = h e w'.
Proof. unfold try_except. now intros ->. Qed.

Lemma bind_inv {A B} (m : M A) (k : A -> M B) (w w' : World) (b : B) :
  bind m k w = (Return b, w') ->
  exists a w1, m w = (Return a, w1) /\ k a w1 = (Return b, w').
Proof.
  unfold bind. destruct (m w) as [[a|e] w1]; [|discriminate].
  intros H. now exists a, w1.
Qed.

End MonadFacts.
Import MonadFacts.


Module FSFacts.

Lemma lookup_set (q p : string) (n : node) (f : fs) :
  FS.lookup q (FS.set p n f)
  = if String.eqb q p then Some n else FS.lookup q f.
Proof.
  induction f as [|[k m] f IH]; simpl.
  - reflexivity.
  - destruct (String.eqb_spec p k) as [->|Hpk]; simpl.
    + destruct (String.eqb_spec q k); reflexivity.
    + destruct (String.eqb_spec q k) as [->|Hqk].
      * destruct (String.eqb_spec k p); [congruence|reflexivity].
      * exact IH.
Qed.

(** Every path a scan of [dir] yields is [dir/name] for a file name, and
    [dir] is a directory. *)
Lemma glob_first (f : fs) (dir pre post x : string) (others : list string) :
  FS.glob f dir pre post = x :: others ->
  FS.is_dir f dir = true
  /\ exists name, x = dir ++ "/" ++ name /\ has_char "000" name = false.
Proof.
  unfold FS.glob. destruct (FS.is_dir f dir); [|discriminate].
  intros H. split; [reflexivity|].
  assert (Hin : In x (x :: others)) by now left.
  rewrite <- H in Hin. apply in_map_iff in Hin as ([p n] & <- & Hin).
  apply filter_In in Hin as [_ Hp]. simpl in *.
  unfold FS.child_name in Hp.
  destruct (strip_prefix (dir ++ "/") p) as [name|] eqn:E; [|discriminate].
  apply strip_prefix_some in E. rewrite app_assoc in E.
  destruct name as [|c name]; [discriminate|].
  destruct (has_char "/" (String c name) || has_char "000" (String c name))
    eqn:Hc; [discriminate|].
  apply orb_false_iff in Hc as [_ Hc]. now exists (String c name).
Qed.

Lemma os_path_exists_true (p : string) (n : node) (w : World) :
  FS.lookup p (files w) = Some n -> FS.has_nul p = false ->
  os_path_exists p w = (Return true, w).
Proof.
  intros H Hn. unfold os_path_exists, bind, get_files, ret.
  now rewrite H, Hn.
Qed.

Lemma os_path_exists_false (p : string) (w : World) :
  FS.lookup p (files w) = None -> os_path_exists p w = (Return false, w).
Proof.
  intros H. unfold os_path_exists, bind, get_files, ret. now rewrite H.
Qed.

Lemma read_text_file (p s : string) (w : World) :
  FS.lookup p (files w) = Some (File (Text s)) -> FS.has_nul p = false ->
  read_text p w = (Return s, w).
Proof.
  intros H Hn. unfold read_text, bind, check_path, get_files, ret.
  now rewrite Hn, H.
Qed.

Lemma write_file_ok (p : string) (c : content) (w : World) :
  writable (files w) p = true ->
  write_file p c w
  = (Return tt, mkWorld (FS.set p (File c) (files w)) (clock w) (launched w) (shown w)).
Proof.
  unfold writable, write_file, bind, check_path. intros H.
  apply andb_prop in H as [H Hpar]. apply andb_prop in H as [H Hdir].
  apply andb_prop in H as [Hne Hnul].
  apply negb_true_iff in Hne, Hnul, Hdir. rewrite Hnul.
  unfold get_files, ret, put_files, raise.
  destruct p as [|a p]; [discriminate|].
  unfold FS.is_dir in Hdir.
  destruct (FS.parent (files w) (String a p)); try discriminate.
  destruct (FS.lookup (String a p) (files w)) as [[|c']|]; try discriminate;
    reflexivity.
Qed.

(** A file that has been written can be written again. *)
Lemma writable_set (p : string) (c : content) (f : fs) :
  writable f p = true -> writable (FS.set p (File c) f) p = true.
Proof.
  unfold writable. intros H.
  apply andb_prop in H as [H Hpar]. apply andb_prop in H as [H Hdir].
  rewrite H. unfold FS.is_dir. rewrite lookup_set, String.eqb_refl. simpl.
  unfold FS.parent in *. destruct (OsPath.dirname p) as [|a d]; [reflexivity|].
  destruct (OsPath.all_sep (String a d)); [reflexivity|].
  rewrite lookup_set. destruct (String.eqb_spec (String a d) p) as [E|_].
  - rewrite E in Hpar. unfold FS.is_dir in Hdir.
    destruct (FS.lookup p f) as [[|c']|]; discriminate.
  - exact Hpar.
Qed.

End FSFacts.
Import FSFacts.

(** ** Steps of a run *)

Section RunFacts.

Variable env : Env.

Lemma staging_inv (pdf : string) (w w2 : World) :
  staging pdf w = (Return tt, w2) ->
  exists w1,
    os_makedirs (job_dir w) w = (Return tt, w1)
    /\ shutil_copy pdf (input_copy w) w1 = (Return tt, w2).
Proof.
  unfold staging, bind. intros H.
  destruct (os_makedirs (job_dir w) w) as [[[]|e] w1]; [|discriminate].
  now exists w1.
Qed.

Lemma extraction_inv (pdf : string) (w w1 : World) (r : proc_result) :
  extraction env pdf w = (Return r, w1) ->
  exists w',
    staging pdf w = (Return tt, w')
    /\ run_tool env (pipeline_cmd w)
         (launch (pipeline_cmd w) (show 2 10 "正在处理PDF..." w')) = (r, w1).
Proof.
  unfold extraction. intros H.
  destruct (staging pdf w) as [[[]|e] w'] eqn:E; [|discriminate].
  exists w'. split; [reflexivity|].
  destruct (run_tool env _ _) as [r' w'']. now injection H as -> ->.
Qed.

(** The two ends of [subprocess.run(..., check=True)]. *)
Lemma subprocess_run_zero (cmd : list string) (capture : bool)
    (w w1 : World) (out err : string) :
  run_tool env cmd (launch cmd w) = (Exited 0 out err, w1) ->
  subprocess_run env cmd capture w = (Return out, w1).
Proof. unfold subprocess_run. now intros ->. Qed.

Lemma subprocess_run_nonzero (cmd : list string) (capture : bool)
    (w w1 : World) (code : Z) (out err : string) :
  run_tool env cmd (launch cmd w) = (Exited code out err, w1) ->
  code <> 0%Z ->
  subprocess_run env cmd capture w
  = (Raise (CalledProcessError cmd code
              (if capture then Some out else None)
              (if capture then Some err else None)), w1).
Proof.
  unfold subprocess_run. intros -> H.
  now destruct (Z.eqb_spec code 0).
Qed.

(** The preview subprocess never ends the run: its failure only adds a
    line to the log. *)
Lemma preview_step (cmd : list string) (log : string) (w : World) :
  exists log',
    try_except (subprocess_run env cmd false ;;; ret log)
      (fun e => ret (log ++ nl ++ "生成HTML预览失败: " ++ str_exn env e)) w
    = (Return log', snd (subprocess_run env cmd false w)).
Proof.
  unfold try_except, bind.
  destruct (subprocess_run env cmd false w) as [[o|e] w'']; eexists; reflexivity.
Qed.

Lemma read_text_world (p : string) (w : World) : snd (read_text p w) = w.
Proof.
  unfold read_text, bind, check_path.
  destruct (FS.has_nul p); [reflexivity|]. simpl.
  destruct (FS.lookup p (files w)) as [[|[s|es]]|]; reflexivity.
Qed.

(** Neither does reading the preview. *)
Lemma html_step (html_files : list string) (log : string) (w : World) :
  exists html log',
    match html_files with
    | [] => ret ("", log)
    | html_file :: _ =>
        try_except
          (html_content <- read_text html_file ;;
           ret (modify_html_for_better_display html_content, log))
          (fun e => ret ("", log ++ nl ++ "读取HTML预览失败: " ++ str_exn env e))
    end w = (Return (html, log'), w).
Proof.
  destruct html_files as [|h t]; [now exists "", log|].
  unfold try_except, bind. pose proof (read_text_world h w) as Hw.
  destruct (read_text h w) as [[c|e] w0]; simpl in Hw; subst w0;
    eexists; eexists; reflexivity.
Qed.

Lemma write_value_ok (p s : string) (w : World) :
  writable (files w) p = true -> has_surrogate s = false ->
  exists w', write_value p (PyStr s) w = (Return s, w').
Proof.
  intros Hw Hs. unfold write_value.
  rewrite (bind_return _ _ _ _ _ (write_file_ok p (Text "") w Hw)), Hs.
  eexists. erewrite bind_return; [reflexivity|].
  apply write_file_ok. simpl. now apply writable_set.
Qed.

(** The handler of the [try] turns every exception into a result. *)
Lemma handler_returns (m : M outputs) (w : World) :
  exists out w',
    try_except m
      (fun e =>
         match e with
         | CalledProcessError _ _ _ stderr =>
             ret (failure ("命令执行失败: " ++ format_opt stderr))
         | _ => ret (failure ("处理过程中发生错误: " ++ str_exn env e))
         end) w = (Return out, w').
Proof.
  unfold try_except. destruct (m w) as [[a|e] w'].
  - now exists a, w'.
  - destruct e; eexists; eexists; reflexivity.
Qed.

(** [process_pdf] returns exactly when staging succeeds: everything after
    staging is inside the [try]. *)
Lemma process_pdf_returns_iff (pdf : string) (w : World) :
  (exists out w', process_pdf env (Some pdf) w = (Return out, w'))
  <-> (exists w', staging pdf w = (Return tt, w')).
Proof.
  unfold process_pdf.
  rewrite (bind_return time_time _ w (clock w) w eq_refl).
  change (OsPath.join WORKSPACE_DIR ("job_" ++ str_of_Z (clock w)))
    with (job_dir w).
  change (OsPath.join (job_dir w) "input.pdf") with (input_copy w).
  split.
  - intros (out & w' & H). unfold staging.
    destruct (os_makedirs (job_dir w) w) as [[[]|e] w1] eqn:Em.
    + rewrite (bind_return _ _ _ _ _ Em) in H.
      rewrite (bind_return _ _ _ _ _ Em).
      destruct (shutil_copy pdf (input_copy w) w1) as [[[]|e] w2] eqn:Ec.
      * now exists w2.
      * rewrite (bind_raise _ _ _ _ _ Ec) in H. discriminate.
    + rewrite (bind_raise _ _ _ _ _ Em) in H. discriminate.
  - intros (w2 & H). apply staging_inv in H as (w1 & Hm & Hc).
    rewrite (bind_return _ _ _ _ _ Hm), (bind_return _ _ _ _ _ Hc).
    apply handler_returns.
Qed.

(** Every result of [process_pdf] is a failure or a complete result. *)
Lemma process_pdf_shape (pdf : option string) (w w' : World) (out : outputs) :
  process_pdf env pdf w = (Return out, w') -> well_shaped out.
Proof.
  destruct pdf as [pdf|];
    [|intros [= <- _]; left; now exists "请上传PDF文件"].
  unfold process_pdf. intros H.
  apply bind_inv in H as (ts & w0 & _ & H).
  apply bind_inv in H as ([] & w1 & _ & H).
  apply bind_inv in H as ([] & w2 & _ & H).
  unfold try_except in H.
  match type of H with
  | match ?body ?w with _ => _ end = _ => destruct (body w) as [[a|e] w3] eqn:B
  end.
  - injection H as -> ->.
    repeat match goal with
    | H : bind _ _ _ = (Return _, _) |- _ =>
        apply bind_inv in H as (? & ? & ? & H)
    | H : ret _ _ = (Return _, _) |- _ => injection H as <- <-
    | H : (if ?b then _ else _) _ = (Return _, _) |- _ => destruct b
    | H : match ?x with _ => _ end _ = (Return _, _) |- _ => destruct x
    | H : (let (_, _) := ?x in _) _ = (Return _, _) |- _ => destruct x
    end;
    try (left; eexists; reflexivity);
    try (right; do 5 eexists; reflexivity).
  - destruct e; injection H as <- _; left; eexists; reflexivity.
Qed.

(** A result without a table is a failure: its text is empty, and it has
    neither preview nor file to download. *)
Lemma process_pdf_failure_text (pdf : option string) (w w' : World)
    (log text : string) (html dl : option string) :
  process_pdf env pdf w = (Return (log, text, html, None, dl), w') ->
  text = "" /\ html = None /\ dl = None.
Proof.
  intros H. apply process_pdf_shape in H as [(m & E)|(l & t & h & df & d & E)].
  - now injection E as _ -> -> ->.
  - discriminate.
Qed.

End RunFacts.

(** ** The single-file handler *)

Section Claims.

Variable env : Env.

Lemma path_glob_eq (dir pre post : string) (w : World) :
  path_glob dir pre post w = (Return (FS.glob (files w) dir pre post), w).
Proof. reflexivity. Qed.

(** Symbolic execution of [process_pdf] up to the end of the extraction
    subprocess. *)
Ltac enter_try H :=
  let w' := fresh "w'" in
  let w0 := fresh "w0" in
  let Hs := fresh "Hs" in
  let Hr := fresh "Hr" in
  let Hm := fresh "Hm" in
  let Hc := fresh "Hc" in
  apply extraction_inv in H as (w' & Hs & Hr);
  apply staging_inv in Hs as (w0 & Hm & Hc);
  unfold process_pdf;
  match goal with
  | |- context [bind time_time ?k ?w] =>
      rewrite (bind_return time_time k w (clock w) w eq_refl)
  end;
  rewrite (bind_return _ _ _ _ _ Hm), (bind_return _ _ _ _ _ Hc).

Ltac step_with E := rewrite (bind_return _ _ _ _ _ E).
Ltac step_refl :=
  match goal with
  | |- context [bind (progress ?n ?d ?s) ?k ?w] =>
      rewrite (bind_return (progress n d s) k w tt (show n d s w) eq_refl)
  | |- context [bind (ret ?a) ?k ?w] =>
      rewrite (bind_return (ret a) k w a w eq_refl)
  end.

(** C10.  Without an input file [process_pdf] returns the prompt, with
    the four other values empty or absent, and leaves the world as it was:
    no directory, no copy, no subprocess, no progress shown. *)
Theorem process_pdf_no_input (w : World) :
  process_pdf env None w = (Return ("请上传PDF文件", "", None, None, None), w).
Proof. reflexivity. Qed.

(** C3.  When the extraction subprocess exits with a status other than
    zero, [process_pdf] returns a message that contains the captured error
    stream; the text is empty and the preview, the table and the file to
    download are absent. *)
Theorem process_pdf_tool_failure (pdf : string) (w w1 : World) (code : Z)
    (out err : string) :
  extraction env pdf w = (Return (Exited code out err), w1) ->
  code <> 0%Z ->
  process_pdf env (Some pdf) w
  = (Return ("命令执行失败: " ++ err, "", None, None, None), w1)
  /\ contains err ("命令执行失败: " ++ err) = true.
Proof.
  intros H Hcode. split.
  - enter_try H.
    rewrite (try_except_raise _ _ _
               (CalledProcessError (pipeline_cmd w) code (Some out) (Some err)) w1);
      [reflexivity|].
    step_refl. apply bind_raise.
    now apply (subprocess_run_nonzero env (pipeline_cmd w) true).
  - apply contains_occurs. exists "命令执行失败: ", "". now rewrite app_nil_r.
Qed.

(** C4.  When the extraction succeeds and the job directory has no
    results directory, the message names the missing results directory and
    the four other values are empty or absent. *)
Theorem process_pdf_missing_results_dir (pdf : string) (w w1 : World)
    (out err : string) :
  extraction env pdf w = (Return (Exited 0 out err), w1) ->
  FS.lookup (results_dir w) (files w1) = None ->
  process_pdf env (Some pdf) w
  = (Return ("处理完成，但未生成结果目录" ++ nl ++ nl ++ "日志输出:" ++ nl ++ out,
             "", None, None, None),
     show 6 10 "正在生成预览..." w1)
  /\ contains "未生成结果目录"
       ("处理完成，但未生成结果目录" ++ nl ++ nl ++ "日志输出:" ++ nl ++ out) = true.
Proof.
  intros H Hres. split.
  - enter_try H. apply try_except_return. step_refl.
    step_with (subprocess_run_zero env (pipeline_cmd w) true _ _ _ _ Hr).
    step_refl.
    step_with (os_path_exists_false (results_dir w)
                 (show 6 10 "正在生成预览..." w1) Hres).
    reflexivity.
  - apply contains_occurs.
    exists "处理完成，但", (nl ++ nl ++ "日志输出:" ++ nl ++ out). reflexivity.
Qed.

(** C5.  When the first output file is blank, the message says that the
    output file is empty and the four other values are empty or absent. *)
Theorem process_pdf_blank_output (pdf : string) (w w1 : World)
    (out err f raw : string) :
  extraction env pdf w = (Return (Exited 0 out err), w1) ->
  first_output w w1 f raw ->
  strip raw = "" ->
  process_pdf env (Some pdf) w
  = (Return ("输出文件为空" ++ nl ++ nl ++ "日志输出:" ++ nl ++ out,
             "", None, None, None),
     show 8 10 "正在生成下载文件..." (show 6 10 "正在生成预览..." w1))
  /\ contains "输出文件为空"
       ("输出文件为空" ++ nl ++ nl ++ "日志输出:" ++ nl ++ out) = true.
Proof.
  intros H [(others & Hglob) Hfile] Hblank. split.
  - destruct (glob_first _ _ _ _ _ _ Hglob) as (Hdir & name & Hf & Hname).
    assert (Hnul : FS.has_nul f = false).
    { rewrite Hf. unfold FS.has_nul. rewrite !has_char_app.
      fold (FS.has_nul (results_dir w)). rewrite results_dir_no_nul, Hname.
      reflexivity. }
    unfold FS.is_dir in Hdir.
    destruct (FS.lookup (results_dir w) (files w1)) as [n|] eqn:Hres;
      [|discriminate].
    enter_try H. apply try_except_return. step_refl.
    step_with (subprocess_run_zero env (pipeline_cmd w) true _ _ _ _ Hr).
    step_refl.
    step_with (os_path_exists_true (results_dir w) n
                 (show 6 10 "正在生成预览..." w1) Hres (results_dir_no_nul w)).
    cbn [negb].
    step_with (path_glob_eq (results_dir w) "output_" ".jsonl"
                 (show 6 10 "正在生成预览..." w1)).
    cbn [files show]. rewrite Hglob. step_refl.
    step_with (read_text_file f raw
                 (show 8 10 "正在生成下载文件..." (show 6 10 "正在生成预览..." w1))
                 Hfile Hnul).
    cbv zeta. rewrite Hblank. reflexivity.
  - apply contains_occurs.
    exists "", (nl ++ nl ++ "日志输出:" ++ nl ++ out). reflexivity.
Qed.


Lemma loads_empty : Json.loads "" = None.
Proof. reflexivity. Qed.

(** A run that reaches the end of the [try]. *)
Lemma process_pdf_success (pdf : string) (w w1 : World)
    (out err f raw : string) (d : list (string * pyval)) :
  extraction env pdf w = (Return (Exited 0 out err), w1) ->
  first_output w w1 f raw ->
  Json.loads (strip raw) = Some (PyDict d) ->
  well_typed_record d = true ->
  writable (files (preview_world env f w1)) (download_path pdf w) = true ->
  exists log html w',
    process_pdf env (Some pdf) w
    = (Return (log, record_text d, Some html, Some (metadata_table d),
               Some (download_path pdf w)), w').
Proof.
  intros H [(others & Hglob) Hfile] Hloads Htyped Hwr.
  destruct (glob_first _ _ _ _ _ _ Hglob) as (Hdir & name & Hf & Hname).
  assert (Hnul : FS.has_nul f = false).
  { rewrite Hf. unfold FS.has_nul. rewrite !has_char_app.
    fold (FS.has_nul (results_dir w)). rewrite results_dir_no_nul, Hname.
    reflexivity. }
  unfold FS.is_dir in Hdir.
  destruct (FS.lookup (results_dir w) (files w1)) as [n|] eqn:Hres;
    [|discriminate].
  set (w6 := show 6 10 "正在生成预览..." w1).
  set (w8 := show 8 10 "正在生成下载文件..." w6).
  destruct (preview_step env (viewer_cmd f) out w8) as (log1 & Hprev).
  fold (preview_world env f w1) in Hprev.
  set (wp := preview_world env f w1) in *.
  destruct (html_step env (FS.glob (files wp) "dolma_previews" "" ".html")
              log1 wp) as (html & log2 & Hhtml).
  (* the two fields of the record *)
  assert (Htext : exists s, has_surrogate s = false /\ record_text d = s
            /\ match Dict.get "text" d with
               | Some v => v | None => PyStr "未找到文本内容" end = PyStr s).
  { unfold well_typed_record in Htyped. apply andb_prop in Htyped as [Ht _].
    unfold record_text.
    destruct (Dict.get "text" d) as [[| | | |s| |]|]; try discriminate.
    - exists s. now apply negb_true_iff in Ht.
    - now exists "未找到文本内容". }
  destruct Htext as (s & Hsur & Hs & Hget).
  assert (Hmeta : exists m, record_rows d = map (fun kv => [PyStr (fst kv); snd kv]) m
            /\ match Dict.get "metadata" d with
               | Some v => v | None => PyDict [] end = PyDict m).
  { unfold well_typed_record in Htyped. apply andb_prop in Htyped as [_ Ht].
    unfold record_rows.
    destruct (Dict.get "metadata" d) as [[| | | | | |m]|]; try discriminate.
    - now exists m.
    - now exists []. }
  destruct Hmeta as (m & Hrows & Hm).
  destruct (write_value_ok (download_path pdf w) s wp Hwr Hsur) as (wf' & Hwrite).
  exists log2, html. eexists.
  enter_try H. apply try_except_return. step_refl.
  step_with (subprocess_run_zero env (pipeline_cmd w) true _ _ _ _ Hr).
  step_refl. fold w6.
  step_with (os_path_exists_true (results_dir w) n w6 Hres (results_dir_no_nul w)).
  cbn [negb].
  step_with (path_glob_eq (results_dir w) "output_" ".jsonl" w6).
  change (files w6) with (files w1). rewrite Hglob. step_refl. fold w8.
  step_with (read_text_file f raw w8 Hfile Hnul).
  cbv zeta.
  destruct (strip raw) as [|c0 t0] eqn:Hstrip;
    [rewrite loads_empty in Hloads; discriminate|].
  unfold json_loads. rewrite Hloads. step_refl.
  unfold py_get at 1. step_refl.
  step_with Hprev.
  step_with (path_glob_eq "dolma_previews" "" ".html" wp).
  step_with Hhtml.
  unfold py_get. step_refl. rewrite Hm. unfold py_items. step_refl.
  rewrite Hget.
  step_with Hwrite. step_refl.
  unfold metadata_table. rewrite Hs, Hrows. reflexivity.
Qed.


(** C1, as amended.  A run whose extraction exits with status zero, whose
    first output file holds the record of the worked example, and whose
    download file can be written once the preview step is over, returns
    the text hello and a metadata table with the single row pages, 1. *)
Theorem process_pdf_hello_record (pdf : string) (w w1 : World)
    (out err f raw : string) :
  extraction env pdf w = (Return (Exited 0 out err), w1) ->
  first_output w w1 f raw ->
  strip raw = hello_record ->
  writable (files (preview_world env f w1)) (download_path pdf w) = true ->
  exists log html dl w',
    process_pdf env (Some pdf) w
    = (Return (log, "hello", html,
               Some (mkDataFrame [[PyStr "pages"; PyInt 1]] ["属性"; "值"]),
               dl), w').
Proof.
  intros H Hout Hraw Hwr.
  destruct (process_pdf_success pdf w w1 out err f raw
              [("text", PyStr "hello"); ("metadata", PyDict [("pages", PyInt 1)])]
              H Hout) as (log & html & w' & E);
    [rewrite Hraw; reflexivity | reflexivity | exact Hwr |].
  now exists log, (Some html), (Some (download_path pdf w)), w'.
Qed.

(** C6, as amended.  When the fields that the record has are well typed
    (a text that is a string UTF-8 can encode, metadata that is an
    object) and the download file can be written once the preview step is
    over, the run returns a complete result: for a record without a text
    field its text is the placeholder, and for a record without a
    metadata field its metadata table has no rows. *)
Theorem process_pdf_record_defaults (pdf : string) (w w1 : World)
    (out err f raw : string) (d : list (string * pyval)) :
  extraction env pdf w = (Return (Exited 0 out err), w1) ->
  first_output w w1 f raw ->
  Json.loads (strip raw) = Some (PyDict d) ->
  well_typed_record d = true ->
  writable (files (preview_world env f w1)) (download_path pdf w) = true ->
  exists log text html table dl w',
    process_pdf env (Some pdf) w
    = (Return (log, text, html, Some table, dl), w')
    /\ (Dict.get "text" d = None -> text = "未找到文本内容")
    /\ (Dict.get "metadata" d = None -> rows table = []).
Proof.
  intros H Hout Hloads Htyped Hwr.
  destruct (process_pdf_success pdf w w1 out err f raw d H Hout Hloads Htyped Hwr)
    as (log & html & w' & E).
  exists log, (record_text d), (Some html), (metadata_table d),
    (Some (download_path pdf w)), w'.
  split; [exact E|]. split; intros Hnone.
  - unfold record_text. now rewrite Hnone.
  - unfold metadata_table, record_rows. now rewrite Hnone.
Qed.

End Claims.

(** ** The batch handler *)

Module NameFacts.

Lemma rsplit_sep_app (p : string) :
  fst (OsPath.rsplit_sep p) ++ snd (OsPath.rsplit_sep p) = p.
Proof.
  induction p as [|c t IH]; [reflexivity|].
  cbn [OsPath.rsplit_sep]. destruct (OsPath.rsplit_sep t) as [h tl].
  simpl in IH. destruct h as [|a h].
  - simpl in IH. subst tl. now destruct (OsPath.is_sep c).
  - simpl. now rewrite <- IH.
Qed.

Lemma rsplit_dot_app (n root ext : string) :
  OsPath.rsplit_dot n = Some (root, ext) -> n = root ++ ext.
Proof.
  revert root; induction n as [|c t IH]; intros root H; [discriminate|].
  cbn [OsPath.rsplit_dot] in H.
  destruct (OsPath.rsplit_dot t) as [[r e]|].
  - injection H as <- <-. simpl. now rewrite (IH r eq_refl).
  - destruct (Ascii.eqb c "."); [|discriminate]. now injection H as <- <-.
Qed.

Lemma splitext_app (p : string) :
  fst (OsPath.splitext p) ++ snd (OsPath.splitext p) = p.
Proof.
  unfold OsPath.splitext. pose proof (rsplit_sep_app p) as Hp.
  destruct (OsPath.rsplit_sep p) as [head name]. simpl in Hp.
  destruct (OsPath.rsplit_dot name) as [[root ext]|] eqn:E.
  - destruct (OsPath.all_dots root); simpl; [apply app_nil_r|].
    apply rsplit_dot_app in E. now rewrite app_assoc, <- E.
  - simpl. apply app_nil_r.
Qed.

(** The stem of a path has no character the path does not have. *)
Lemma stem_chars (c : ascii) (pdf : string) :
  has_char c pdf = false -> has_char c (stem pdf) = false.
Proof.
  intros H. unfold stem, OsPath.basename.
  rewrite <- (rsplit_sep_app pdf), has_char_app in H.
  apply orb_false_iff in H as [_ H].
  rewrite <- (splitext_app (snd (OsPath.rsplit_sep pdf))), has_char_app in H.
  now apply orb_false_iff in H as [H _].
Qed.

Lemma zip_arcname_id (name : string) :
  has_char "000" name = false -> zip_arcname name = name.
Proof.
  induction name as [|c t IH]; [reflexivity|].
  cbn [has_char zip_arcname]. intros H. apply orb_false_iff in H as [Hc Ht].
  now rewrite Hc, IH.
Qed.

Lemma shutil_copy_source (src dst : string) (w w' : World) :
  shutil_copy src dst w = (Return tt, w') -> FS.has_nul src = false.
Proof.
  unfold shutil_copy, bind, get_files, check_path.
  destruct (FS.has_nul src); [discriminate|reflexivity].
Qed.

End NameFacts.
Import NameFacts.

Section Batch.

Variable env : Env.

Lemma process_pdf_source (pdf : string) (w w' : World) (out : outputs) :
  process_pdf env (Some pdf) w = (Return out, w') -> FS.has_nul pdf = false.
Proof.
  intros H.
  destruct (proj1 (process_pdf_returns_iff env pdf w)) as (w2 & Hs);
    [now exists out, w'|].
  apply staging_inv in Hs as (w1 & _ & Hc).
  now apply shutil_copy_source in Hc.
Qed.

Lemma text_filename_arcname (pdf : string) :
  FS.has_nul pdf = false -> zip_arcname (text_filename pdf) = text_filename pdf.
Proof.
  intros H. apply zip_arcname_id. unfold text_filename.
  rewrite has_char_app, stem_chars by exact H. reflexivity.
Qed.

Lemma zip_writestr_eq (zip : string) (entries : list (string * string))
    (name data : string) (w : World) :
  zip_writestr zip entries name data w
  = (Return (entries ++ [(zip_arcname name, data)])%list,
     put_archive zip (entries ++ [(zip_arcname name, data)])%list w).
Proof. reflexivity. Qed.

Lemma batch_loop_calls (zip : string) (total i : Z) (pdf_files : list string)
    (entries : list (string * string)) (w : World) (texts : list string)
    (w' : World) :
  batch_calls env zip total i pdf_files entries w texts w' ->
  batch_loop env zip total i pdf_files entries w = (Return tt, w').
Proof.
  induction 1 as [|i pdf rest entries w log text html df dl w1 texts w' Hp _ IH];
    [reflexivity|].
  cbn [batch_loop].
  rewrite (bind_return (progress _ _ _) _ _ tt _ eq_refl).
  change (show i total _ w) with (show i total (item_desc i total) w).
  rewrite (bind_return _ _ _ _ _ Hp). cbv iota beta.
  change (fst (OsPath.splitext (OsPath.basename pdf)) ++ "_extracted_text.txt")
    with (text_filename pdf).
  rewrite (bind_return _ _ _ _ _
             (zip_writestr_eq zip entries (text_filename pdf) text w1)).
  rewrite (text_filename_arcname pdf (process_pdf_source _ _ _ _ Hp)).
  exact IH.
Qed.

Lemma batch_calls_length (zip : string) (total i : Z) (pdf_files : list string)
    (entries : list (string * string)) (w : World) (texts : list string)
    (w' : World) :
  batch_calls env zip total i pdf_files entries w texts w' ->
  List.length texts = List.length pdf_files.
Proof. induction 1; simpl; congruence. Qed.

Lemma batch_calls_archive (zip : string) (total i : Z) (pdf_files : list string)
    (entries : list (string * string)) (w : World) (texts : list string)
    (w' : World) :
  batch_calls env zip total i pdf_files entries w texts w' ->
  pdf_files <> [] ->
  FS.lookup zip (files w')
  = Some (File (Archive
                  (entries ++ combine (map text_filename pdf_files) texts)%list)).
Proof.
  induction 1 as [|i pdf rest entries w log text html df dl w1 texts w' Hp Hrest IH];
    intros Hne; [congruence|].
  destruct rest as [|pdf' rest'].
  - inversion Hrest; subst. cbn [files put_archive map combine].
    now rewrite lookup_set, String.eqb_refl.
  - rewrite IH by discriminate. cbn [map combine].
    now rewrite <- List.app_assoc.
Qed.

(** C7.  Without input files (an empty list, or no list at all)
    [process_multiple_pdfs] returns the prompt and no archive path, and
    leaves the world as it was: no batch directory, no archive. *)
Theorem process_multiple_pdfs_empty (w : World) :
  process_multiple_pdfs env (Some []) w = (Return ("请上传PDF文件", None), w)
  /\ process_multiple_pdfs env None w = (Return ("请上传PDF文件", None), w).
Proof. split; reflexivity. Qed.

(** C2, as amended.  When the batch directory and the archive can be made
    and every call of [process_pdf] returns, the batch returns the archive
    path, and the archive holds one entry per input, in order: the i-th is
    named after the stem of the i-th input and holds the text that the
    i-th call returned. *)
Theorem batch_archive_entries (pdf_files : list string) (w w0 w' : World)
    (texts : list string) :
  pdf_files <> [] ->
  batch_setup w = (Return tt, w0) ->
  batch_calls env (zip_path w) (Z.of_nat (List.length pdf_files)) 1 pdf_files []
    w0 texts w' ->
  process_multiple_pdfs env (Some pdf_files) w
  = (Return ("所有文件处理完成！", Some (zip_path w)), w')
  /\ List.length texts = List.length pdf_files
  /\ FS.lookup (zip_path w) (files w')
     = Some (File (Archive
          (combine (map (fun p => stem p ++ "_extracted_text.txt") pdf_files)
                   texts))).
Proof.
  intros Hne Hsetup Hcalls. split; [|split].
  - unfold process_multiple_pdfs. destruct pdf_files as [|p ps]; [congruence|].
    rewrite (bind_return time_time _ w (clock w) w eq_refl).
    unfold batch_setup, bind in Hsetup.
    destruct (os_makedirs (batch_dir w) w) as [[[]|e] wm] eqn:Em; [|discriminate].
    change (OsPath.join WORKSPACE_DIR ("batch_" ++ str_of_Z (clock w)))
      with (batch_dir w).
    rewrite (bind_return _ _ _ _ _ Em).
    change (OsPath.join (batch_dir w) "extracted_texts.zip") with (zip_path w).
    rewrite (bind_return _ _ _ _ _ Hsetup).
    rewrite (bind_return _ _ _ _ _ (batch_loop_calls _ _ _ _ _ _ _ _ Hcalls)).
    reflexivity.
  - exact (batch_calls_length _ _ _ _ _ _ _ _ Hcalls).
  - exact (batch_calls_archive _ _ _ _ _ _ _ _ Hcalls Hne).
Qed.

End Batch.

(** ** The handlers on the concrete tool *)

Lemma process_pdf_tool_failure_witness :
  exists w1,
    process_pdf Demo.env (Some Demo.upload) (Demo.world "fail")
    = (Return ("命令执行失败: " ++ "boom", "", None, None, None), w1)
    /\ contains "boom" ("命令执行失败: " ++ "boom") = true.
Proof.
  eexists.
  eapply (process_pdf_tool_failure Demo.env Demo.upload (Demo.world "fail")).
  - vm_compute. reflexivity.
  - discriminate.
Defined.

Lemma process_pdf_missing_results_dir_witness :
  exists w',
    process_pdf Demo.env (Some Demo.upload) (Demo.world "nodir")
    = (Return ("处理完成，但未生成结果目录" ++ nl ++ nl ++ "日志输出:" ++ nl ++ "started",
               "", None, None, None), w')
    /\ contains "未生成结果目录"
         ("处理完成，但未生成结果目录" ++ nl ++ nl ++ "日志输出:" ++ nl ++ "started")
       = true.
Proof.
  eexists.
  eapply (process_pdf_missing_results_dir Demo.env Demo.upload
            (Demo.world "nodir")).
  - vm_compute. reflexivity.
  - vm_compute. reflexivity.
Defined.

Lemma process_pdf_blank_output_witness :
  exists w',
    process_pdf Demo.env (Some Demo.upload) (Demo.world "blank")
    = (Return ("输出文件为空" ++ nl ++ nl ++ "日志输出:" ++ nl ++ "started",
               "", None, None, None), w')
    /\ contains "输出文件为空"
         ("输出文件为空" ++ nl ++ nl ++ "日志输出:" ++ nl ++ "started") = true.
Proof.
  eexists.
  eapply (process_pdf_blank_output Demo.env Demo.upload (Demo.world "blank")).
  - vm_compute. reflexivity.
  - split; [eexists|]; vm_compute; reflexivity.
  - vm_compute. reflexivity.
Defined.

Lemma process_pdf_hello_record_witness :
  exists log html dl w',
    process_pdf Demo.env (Some Demo.upload) (Demo.world "%PDF-1.7")
    = (Return (log, "hello", html,
               Some (mkDataFrame [[PyStr "pages"; PyInt 1]] ["属性"; "值"]),
               dl), w').
Proof.
  eapply (process_pdf_hello_record Demo.env Demo.upload (Demo.world "%PDF-1.7")).
  - vm_compute. reflexivity.
  - split; [eexists|]; vm_compute; reflexivity.
  - vm_compute. reflexivity.
  - vm_compute. reflexivity.
Defined.

Lemma process_pdf_record_defaults_witness :
  exists log text html table dl w',
    process_pdf Demo.env (Some Demo.upload) (Demo.world "bare")
    = (Return (log, text, html, Some table, dl), w')
    /\ text = "未找到文本内容" /\ rows table = [].
Proof.
  edestruct (process_pdf_record_defaults Demo.env Demo.upload (Demo.world "bare"))
    as (log & text & html & table & dl & w' & E & Ht & Hm).
  - vm_compute. reflexivity.
  - split; [eexists|]; vm_compute; reflexivity.
  - vm_compute. reflexivity.
  - reflexivity.
  - vm_compute. reflexivity.
  - exists log, text, html, table, dl, w'.
    split; [exact E|]. split; [apply Ht | apply Hm]; reflexivity.
Defined.

(** A batch of two, the first of which fails inside the [try]: its text
    is empty, and the batch goes on. *)
Lemma batch_archive_entries_witness :
  exists w',
    process_multiple_pdfs Demo.env (Some [Demo.upload; Demo.upload2])
      (Demo.world2 "fail" "%PDF-1.7")
    = (Return ("所有文件处理完成！",
               Some "olmocr_workspace/batch_1700000000/extracted_texts.zip"), w')
    /\ FS.lookup "olmocr_workspace/batch_1700000000/extracted_texts.zip" (files w')
       = Some (File (Archive [("paper.v2_extracted_text.txt", "");
                              ("scan_extracted_text.txt", "hello")])).
Proof.
  edestruct (batch_archive_entries Demo.env [Demo.upload; Demo.upload2]
               (Demo.world2 "fail" "%PDF-1.7")) as (E & _ & A).
  - discriminate.
  - vm_compute. reflexivity.
  - eapply calls_step; [vm_compute; reflexivity|].
    eapply calls_step; [vm_compute; reflexivity|].
    apply calls_done.
  - eexists. split; [exact E | exact A].
Defined.

(** C2, as stated, fails: an input path that names no file makes the copy
    of staging raise, outside the [try] of [process_pdf]; the exception
    leaves [process_multiple_pdfs], and the archive has no entry for the
    one input. *)
Lemma batch_aborts_when_staging_fails :
  let r := process_multiple_pdfs Demo.env (Some ["/tmp/gradio/gone.pdf"])
             (Demo.world "%PDF-1.7") in
  fst r = Raise (FileNotFoundError "/tmp/gradio/gone.pdf")
  /\ FS.lookup "olmocr_workspace/batch_1700000000/extracted_texts.zip"
       (files (snd r)) = Some (File (Archive []))
  /\ ~ (exists msg zip w',
          r = (Return (msg, Some zip), w')
          /\ exists entries,
               FS.lookup zip (files w') = Some (File (Archive entries))
               /\ List.length entries = 1).
Proof.
  split; [vm_compute; reflexivity|]. split; [vm_compute; reflexivity|].
  intros (msg & zip & w' & E & _). vm_compute in E. discriminate.
Qed.

(** C1, as stated, fails: the extraction exits with status zero and the
    one output file holds just the record of the worked example, but the
    name of the download file is taken by a directory; opening it raises,
    inside the [try], and the run returns a failure: an empty text and no
    table. *)
Lemma hello_record_download_blocked :
  let env := Scenario.script (Scenario.writes hello_record) Scenario.view_nothing in
  let w := Scenario.world_with_blocked_download "%PDF-1.7" in
  let r := process_pdf env (Some Demo.upload) w in
  fst (extraction env Demo.upload w) = Return (Exited 0 "started" "")
  /\ first_output w (snd (extraction env Demo.upload w))
       "olmocr_workspace/job_1700000000/results/output_0001.jsonl" hello_record
  /\ fst r = Return ("处理过程中发生错误: " ++ "error", "", None, None, None)
  /\ ~ (exists log html dl w',
          r = (Return (log, "hello", html,
                       Some (mkDataFrame [[PyStr "pages"; PyInt 1]] ["属性"; "值"]),
                       dl), w')).
Proof.
  split; [vm_compute; reflexivity|].
  split; [split; [eexists|]; vm_compute; reflexivity|].
  split; [vm_compute; reflexivity|].
  intros (log & html & dl & w' & E). vm_compute in E. discriminate.
Qed.

(** C6, as stated, fails in both halves.  The first record is an object
    without a text field whose metadata is a list: the run ends at
    [metadata.items()] and returns an empty text, not the placeholder.
    The second is an object without a metadata field whose text is a
    number: the run ends at the write of the download file and returns
    no table at all. *)
Lemma record_defaults_need_typed_fields :
  let view := Scenario.view_nothing in
  let w := Demo.world "%PDF-1.7" in
  let r1 := process_pdf (Scenario.script (Scenario.writes Scenario.list_metadata) view)
              (Some Demo.upload) w in
  let r2 := process_pdf (Scenario.script (Scenario.writes Scenario.numeric_text) view)
              (Some Demo.upload) w in
  (exists d, Json.loads (strip Scenario.list_metadata) = Some (PyDict d)
             /\ Dict.get "text" d = None)
  /\ fst r1 = Return ("处理过程中发生错误: " ++ "error", "", None, None, None)
  /\ ~ (exists log html table dl w',
          r1 = (Return (log, "未找到文本内容", html, table, dl), w'))
  /\ (exists d, Json.loads (strip Scenario.numeric_text) = Some (PyDict d)
                /\ Dict.get "metadata" d = None)
  /\ fst r2 = Return ("处理过程中发生错误: " ++ "error", "", None, None, None)
  /\ ~ (exists log text html table dl w',
          r2 = (Return (log, text, html, Some table, dl), w')
          /\ rows table = []).
Proof.
  split; [eexists; split; vm_compute; reflexivity|].
  split; [vm_compute; reflexivity|].
  split; [intros (log & html & table & dl & w' & E); vm_compute in E; discriminate|].
  split; [eexists; split; vm_compute; reflexivity|].
  split; [vm_compute; reflexivity|].
  intros (log & text & html & table & dl & w' & E & _). vm_compute in E.
  discriminate.
Qed.

(** ** The recursion bounds are enough *)

Module FuelFacts.

(** More fuel than the length of the text changes nothing. *)
Lemma replace_scan_fuel (old new : string) (n m : nat) (s : string) :
  old <> "" ->
  String.length s < n -> String.length s < m ->
  replace_scan n old new s = replace_scan m old new s.
Proof.
  intros Hne. revert m s; induction n as [|n IH]; intros m s Hn Hm; [lia|].
  destruct m as [|m]; [lia|]. cbn [replace_scan].
  destruct (strip_prefix old s) as [rest|] eqn:E.
  - apply strip_prefix_some in E. subst s. rewrite length_app in Hn, Hm.
    destruct old as [|a o]; [congruence|]. simpl in Hn, Hm.
    f_equal. apply IH; lia.
  - destruct s as [|c t]; [reflexivity|]. simpl in Hn, Hm.
    f_equal. apply IH; lia.
Qed.

Lemma match_img_shorter (s g1 g2 rest : string) :
  match_img s = Some (g1, g2, rest) -> String.length rest < String.length s.
Proof.
  intros H. apply match_img_some in H as [-> _].
  rewrite !length_app. simpl. rewrite length_app. simpl. lia.
Qed.

Lemma img_sub_scan_fuel (n m : nat) (s : string) :
  String.length s < n -> String.length s < m ->
  img_sub_scan n s = img_sub_scan m s.
Proof.
  revert m s; induction n as [|n IH]; intros m s Hn Hm; [lia|].
  destruct m as [|m]; [lia|]. cbn [img_sub_scan].
  destruct (match_img s) as [[[g1 g2] rest]|] eqn:E.
  - apply match_img_shorter in E. f_equal. apply IH; lia.
  - destruct s as [|c t]; [reflexivity|]. simpl in Hn, Hm.
    f_equal. apply IH; lia.
Qed.

Lemma strip_any_prefix_shorter (ps : list string) (s r : string) :
  forallb (fun p => negb (String.eqb p "")) ps = true ->
  strip_any_prefix ps s = Some r -> String.length r < String.length s.
Proof.
  induction ps as [|p ps IH]; [discriminate|].
  cbn [forallb strip_any_prefix]. intros Hps H.
  apply andb_prop in Hps as [Hp Hps].
  destruct (strip_prefix p s) as [r'|] eqn:E.
  - injection H as ->. apply strip_prefix_some in E. subst s.
    rewrite length_app. destruct p; [discriminate|]. simpl. lia.
  - now apply IH.
Qed.

(** When the fuel of a strip is used up, nothing is left to strip. *)
Lemma strip_scan_fuel (ps : list string) (scan : nat -> string -> string) :
  forallb (fun p => negb (String.eqb p "")) ps = true ->
  (forall n s, scan n s =
     match n with
     | O => s
     | S k => match strip_any_prefix ps s with
              | Some r => scan k r
              | None => s
              end
     end) ->
  forall n m s, String.length s <= n -> String.length s <= m ->
                scan n s = scan m s.
Proof.
  intros Hps Hscan.
  assert (Hnone : strip_any_prefix ps "" = None).
  { destruct (strip_any_prefix ps "") as [r|] eqn:E; [|reflexivity].
    apply (strip_any_prefix_shorter _ _ _ Hps) in E. simpl in E. lia. }
  assert (Hempty : forall k, scan k "" = "").
  { intros [|k]; rewrite Hscan; [reflexivity|]. now rewrite Hnone. }
  induction n as [|n IH]; intros m s Hn Hm.
  - destruct s; [|simpl in Hn; lia]. now rewrite !Hempty.
  - destruct m as [|m].
    + destruct s; [|simpl in Hm; lia]. now rewrite !Hempty.
    + rewrite (Hscan (S n)), (Hscan (S m)).
      destruct (strip_any_prefix ps s) as [r|] eqn:E; [|reflexivity].
      apply (strip_any_prefix_shorter _ _ _ Hps) in E. apply IH; lia.
Qed.

Lemma lstrip_scan_fuel (n m : nat) (s : string) :
  String.length s <= n -> String.length s <= m ->
  lstrip_scan n s = lstrip_scan m s.
Proof.
  apply (strip_scan_fuel whitespace lstrip_scan); [reflexivity|].
  now intros [|k] s'.
Qed.

Lemma rstrip_scan_fuel (n m : nat) (s : string) :
  String.length s <= n -> String.length s <= m ->
  rstrip_scan n s = rstrip_scan m s.
Proof.
  apply (strip_scan_fuel (map rev whitespace) rstrip_scan); [reflexivity|].
  now intros [|k] s'.
Qed.

End FuelFacts.

Module MakedirsFacts.

Lemma rstrip_sep_length (s : string) :
  String.length (OsPath.rstrip_sep s) <= String.length s.
Proof.
  induction s as [|c t IH]; simpl; [lia|].
  destruct (OsPath.rstrip_sep t); [destruct (OsPath.is_sep c)|]; simpl in *; lia.
Qed.

Lemma split_length (p : string) :
  String.length (fst (OsPath.split p)) + String.length (snd (OsPath.split p))
  <= String.length p.
Proof.
  unfold OsPath.split. pose proof (rsplit_sep_app p) as H.
  destruct (OsPath.rsplit_sep p) as [h t]. simpl in *.
  rewrite <- H, length_app. pose proof (rstrip_sep_length h).
  destruct (OsPath.all_sep h); simpl; lia.
Qed.

(** More fuel than the length of the path changes nothing. *)
Lemma os_makedirs_rec_fuel (n m : nat) (name : string) :
  String.length name < n -> String.length name < m ->
  os_makedirs_rec n name = os_makedirs_rec m name.
Proof.
  revert m name; induction n as [|n IH]; intros m name Hn Hm; [lia|].
  destruct m as [|m]; [lia|]. cbn [os_makedirs_rec].
  pose proof (split_length name) as L0.
  destruct (OsPath.split name) as [head0 tail0]. simpl in L0.
  assert (L : forall head tail,
             (head, tail) = match tail0 with
                            | "" => OsPath.split head0
                            | _ => (head0, tail0)
                            end ->
             String.length head + String.length tail <= String.length name).
  { intros head tail E. destruct tail0.
    - pose proof (split_length head0) as L1. rewrite <- E in L1. simpl in *. lia.
    - injection E as -> ->. exact L0. }
  destruct (match tail0 with
            | "" => OsPath.split head0
            | _ => (head0, tail0)
            end) as [head tail].
  specialize (L head tail eq_refl).
  destruct head as [|a h]; [reflexivity|].
  destruct tail as [|b t]; [reflexivity|].
  rewrite (IH m (String a h)); [reflexivity| |]; simpl in *; lia.
Qed.

End MakedirsFacts.

Module JsonFacts.

Import Json.

Lemma strip_prefix_length (p s r : string) :
  strip_prefix p s = Some r ->
  String.length s = String.length p + String.length r.
Proof.
  intros H. apply strip_prefix_some in H. subst s. apply length_app.
Qed.

Lemma skip_ws_length (s : string) :
  String.length (skip_ws s) <= String.length s.
Proof.
  induction s as [|c t IH]; simpl; [lia|].
  destruct (is_ws c); simpl; lia.
Qed.

Lemma take_digits_length (s : string) :
  String.length (snd (take_digits s)) <= String.length s.
Proof.
  induction s as [|c t IH]; simpl; [lia|].
  destruct (is_digit c); [|simpl; lia].
  destruct (take_digits t) as [ds r]. simpl in *. lia.
Qed.

Lemma hex4_length (s r : string) (u : N) :
  hex4 s = Some (u, r) -> String.length s = 4 + String.length r.
Proof.
  unfold hex4. destruct s as [|a [|b [|c [|d t]]]]; try discriminate.
  destruct (hex_digit a), (hex_digit b), (hex_digit c), (hex_digit d);
    try discriminate.
  now intros [= _ <-].
Qed.

Lemma scan_unicode_escape_length (s r : string) (cp : N) :
  scan_unicode_escape s = Some (cp, r) -> String.length r < String.length s.
Proof.
  unfold scan_unicode_escape.
  destruct (hex4 s) as [[u r0]|] eqn:E; [|discriminate].
  apply hex4_length in E.
  destruct (is_high_surrogate u); [|intros [= _ <-]; lia].
  destruct (strip_prefix "\u" r0) as [r1|] eqn:E1; [|intros [= _ <-]; lia].
  apply strip_prefix_length in E1.
  destruct (hex4 r1) as [[u2 r2]|] eqn:E2; [|intros [= _ <-]; lia].
  apply hex4_length in E2.
  destruct (is_low_surrogate u2); intros [= _ <-]; simpl in *; lia.
Qed.

Lemma scan_string_sound (n : nat) (s : string) :
  String.length s < n -> sound (scan_string n s) s.
Proof.
  revert s; induction n as [|n IH]; intros s Hn; [lia|].
  cbn [scan_string]. destruct s as [|c t]; [exact I|]. simpl in Hn.
  destruct (Ascii.eqb c "034"); [simpl; lia|].
  destruct (Ascii.eqb c "\").
  - destruct t as [|e t']; [exact I|]. simpl in Hn.
    destruct (Ascii.eqb e "u").
    + destruct (scan_unicode_escape t') as [[cp r]|] eqn:E; [|exact I].
      apply scan_unicode_escape_length in E.
      specialize (IH r ltac:(lia)).
      destruct (scan_string n r); simpl in *; try exact IH; lia.
    + destruct (simple_escape e); [|exact I].
      specialize (IH t' ltac:(lia)).
      destruct (scan_string n t'); simpl in *; try exact IH; lia.
  - destruct (nat_of_ascii c <? 32)%nat; [exact I|].
    specialize (IH t ltac:(lia)).
    destruct (scan_string n t); simpl in *; try exact IH; lia.
Qed.

Lemma string_literal_sound (t : string) : sound (string_literal t) t.
Proof. apply scan_string_sound. lia. Qed.

Lemma scan_int_part_length (s ds r : string) :
  scan_int_part s = Some (ds, r) -> String.length r < String.length s.
Proof.
  unfold scan_int_part. destruct s as [|c t]; [discriminate|].
  destruct (Ascii.eqb c "0"); [intros [= _ <-]; simpl; lia|].
  destruct (is_digit c); [|discriminate].
  pose proof (take_digits_length t) as L.
  destruct (take_digits t) as [ds' r']. intros [= _ <-]. simpl in *. lia.
Qed.

Lemma scan_frac_length (r : string) :
  String.length (snd (scan_frac r)) <= String.length r.
Proof.
  unfold scan_frac. destruct (strip_prefix "." r) as [t|] eqn:E; [|simpl; lia].
  apply strip_prefix_length in E. pose proof (take_digits_length t) as L.
  destruct (take_digits t) as [[|a fs] r']; simpl in *; lia.
Qed.

Lemma scan_exp_length (r : string) :
  String.length (snd (scan_exp r)) <= String.length r.
Proof.
  unfold scan_exp. destruct r as [|e t]; [simpl; lia|].
  destruct (Ascii.eqb e "e" || Ascii.eqb e "E"); [|simpl; lia].
  destruct (strip_prefix "+" t) as [t'|] eqn:Ep.
  - apply strip_prefix_length in Ep. pose proof (take_digits_length t') as L.
    destruct (take_digits t') as [[|a es] r']; simpl in *; lia.
  - destruct (strip_prefix "-" t) as [t'|] eqn:Em.
    + apply strip_prefix_length in Em. pose proof (take_digits_length t') as L.
      destruct (take_digits t') as [[|a es] r']; simpl in *; lia.
    + pose proof (take_digits_length t) as L.
      destruct (take_digits t) as [[|a es] r']; simpl in *; lia.
Qed.

Lemma scan_sign_length (s : string) :
  String.length (snd (scan_sign s)) <= String.length s.
Proof.
  unfold scan_sign. destruct (strip_prefix "-" s) as [t|] eqn:E; [|simpl; lia].
  apply strip_prefix_length in E. simpl in *. lia.
Qed.

Lemma scan_number_length (s r : string) (v : pyval) :
  scan_number s = Some (v, r) -> String.length r < String.length s.
Proof.
  unfold scan_number. pose proof (scan_sign_length s) as Ls.
  destruct (scan_sign s) as [neg s1]. simpl in Ls.
  destruct (scan_int_part s1) as [[ds r0]|] eqn:E; [|discriminate].
  apply scan_int_part_length in E.
  pose proof (scan_frac_length r0) as Lf.
  destruct (scan_frac r0) as [frac r1].
  pose proof (scan_exp_length r1) as Le.
  destruct (scan_exp r1) as [ex r2]. simpl in Lf, Le.
  destruct frac, ex; intros [= _ <-]; lia.
Qed.

Lemma keyword_sound (kw : string) (v : pyval) (s : string) :
  kw <> "" -> sound (keyword kw v s) s.
Proof.
  intros Hkw. unfold keyword.
  destruct (strip_prefix kw s) as [r|] eqn:E; [|exact I].
  apply strip_prefix_length in E. destruct kw; [congruence|]. simpl in *. lia.
Qed.

(** With fuel above twice the length of the text the three scanners never
    run out of it. *)
Lemma scan_sound (n : nat) :
  (forall s, 2 * String.length s + 1 <= n -> sound (scan_once n s) s)
  /\ (forall s, 2 * String.length s + 2 <= n -> sound (scan_items n s) s)
  /\ (forall s acc, 2 * String.length s + 2 <= n ->
                    sound (scan_pairs n s acc) s).
Proof.
  induction n as [|n (IHonce & IHitems & IHpairs)].
  - repeat split; intros; lia.
  - repeat split.
    + (* one value *)
      intros s Hn. cbn [scan_once]. destruct s as [|c t]; [exact I|].
      simpl in Hn. pose proof (skip_ws_length t) as Lws.
      destruct (Ascii.eqb c "034").
      { pose proof (string_literal_sound t) as L.
        destruct (string_literal t); simpl in *; try exact L; lia. }
      destruct (Ascii.eqb c "{").
      { destruct (strip_prefix "}" (skip_ws t)) as [r|] eqn:E.
        - apply strip_prefix_length in E. simpl in *. lia.
        - specialize (IHpairs (skip_ws t) [] ltac:(lia)).
          destruct (scan_pairs n (skip_ws t) []); simpl in *;
            try exact IHpairs; lia. }
      destruct (Ascii.eqb c "[").
      { destruct (strip_prefix "]" (skip_ws t)) as [r|] eqn:E.
        - apply strip_prefix_length in E. simpl in *. lia.
        - specialize (IHitems (skip_ws t) ltac:(lia)).
          destruct (scan_items n (skip_ws t)); simpl in *;
            try exact IHitems; lia. }
      destruct (Ascii.eqb c "n"); [apply keyword_sound; discriminate|].
      destruct (Ascii.eqb c "t"); [apply keyword_sound; discriminate|].
      destruct (Ascii.eqb c "f"); [apply keyword_sound; discriminate|].
      destruct (Ascii.eqb c "N"); [apply keyword_sound; discriminate|].
      destruct (Ascii.eqb c "I"); [apply keyword_sound; discriminate|].
      destruct (strip_prefix "-Infinity" (String c t)) as [r|] eqn:E.
      { apply strip_prefix_length in E. simpl in *. lia. }
      destruct (scan_number (String c t)) as [[v r]|] eqn:En; [|exact I].
      apply scan_number_length in En. exact En.
    + (* the items of an array *)
      intros s Hn. cbn [scan_items].
      specialize (IHonce s ltac:(lia)).
      destruct (scan_once n s) as [v r| |]; try exact IHonce.
      simpl in IHonce. pose proof (skip_ws_length r) as Lws.
      destruct (strip_prefix "]" (skip_ws r)) as [r'|] eqn:E1.
      { apply strip_prefix_length in E1. simpl in *. lia. }
      destruct (strip_prefix "," (skip_ws r)) as [r'|] eqn:E2; [|exact I].
      apply strip_prefix_length in E2. simpl in E2.
      pose proof (skip_ws_length r') as Lws'.
      specialize (IHitems (skip_ws r') ltac:(lia)).
      destruct (scan_items n (skip_ws r')); simpl in *; try exact IHitems; lia.
    + (* the pairs of an object *)
      intros s acc Hn. cbn [scan_pairs].
      destruct (strip_prefix dq s) as [t|] eqn:E0; [|exact I].
      apply strip_prefix_length in E0. simpl in E0.
      pose proof (string_literal_sound t) as L.
      destruct (string_literal t) as [key r| |]; try exact L. simpl in L.
      pose proof (skip_ws_length r) as Lws.
      destruct (strip_prefix ":" (skip_ws r)) as [r1|] eqn:E1; [|exact I].
      apply strip_prefix_length in E1. simpl in E1.
      pose proof (skip_ws_length r1) as Lws1.
      specialize (IHonce (skip_ws r1) ltac:(lia)).
      destruct (scan_once n (skip_ws r1)) as [v r2| |]; try exact IHonce.
      simpl in IHonce. pose proof (skip_ws_length r2) as Lws2.
      destruct (strip_prefix "}" (skip_ws r2)) as [r3|] eqn:E2.
      { apply strip_prefix_length in E2. simpl in *. lia. }
      destruct (strip_prefix "," (skip_ws r2)) as [r3|] eqn:E3; [|exact I].
      apply strip_prefix_length in E3. simpl in E3.
      pose proof (skip_ws_length r3) as Lws3.
      specialize (IHpairs (skip_ws r3) (Dict.set key v acc) ltac:(lia)).
      destruct (scan_pairs n (skip_ws r3) (Dict.set key v acc));
        simpl in *; try exact IHpairs; lia.
Qed.

(** [loads] fails only on a malformed document or on text after the
    value, never for lack of fuel. *)
Theorem loads_fuel (s : string) :
  scan_once (2 * String.length s + 2) (skip_ws s) <> OutOfFuel.
Proof.
  pose proof (skip_ws_length s) as L.
  pose proof (proj1 (scan_sound (2 * String.length s + 2)) (skip_ws s)
                ltac:(lia)) as H.
  intros E. rewrite E in H. exact H.
Qed.

End JsonFacts.

(** * Further properties *)

(** ** The adapter *)

Module AdapterFacts.

(** A text without the first character of [old] is left as it is. *)
Lemma replace_scan_no_anchor (c : ascii) (old' new : string) (fuel : nat)
    (s : string) :
  has_char c s = false ->
  replace_scan fuel (String c old') new s = s.
Proof.
  revert fuel; induction s as [|d t IH]; intros fuel H.
  - destruct fuel; reflexivity.
  - cbn [has_char] in H. apply orb_false_iff in H as [Hd Ht].
    destruct fuel as [|n]; [reflexivity|].
    cbn [replace_scan strip_prefix]. rewrite Ascii.eqb_sym, Hd.
    now rewrite IH.
Qed.

Lemma img_sub_scan_no_lt (fuel : nat) (s : string) :
  has_char "<" s = false -> img_sub_scan fuel s = s.
Proof.
  revert fuel; induction s as [|d t IH]; intros fuel H.
  - destruct fuel; reflexivity.
  - cbn [has_char] in H. apply orb_false_iff in H as [Hd Ht].
    destruct fuel as [|n]; [reflexivity|].
    cbn [img_sub_scan]. unfold match_img. cbn [strip_prefix].
    rewrite Ascii.eqb_sym, Hd. now rewrite IH.
Qed.

(** A replacement that takes place leaves the new text in the result. *)
Lemma replace_scan_inserts (old new : string) (fuel : nat) (s : string) :
  old <> "" ->
  occurs old s ->
  String.length s < fuel ->
  occurs new (replace_scan fuel old new s).
Proof.
  intros Hne. revert s; induction fuel as [|n IH]; intros s Hocc Hfuel; [lia|].
  cbn [replace_scan]. destruct (strip_prefix old s) as [rest|] eqn:E.
  - apply occurs_here.
  - destruct s as [|d t].
    + now destruct (occurs_nonempty _ _ Hocc Hne).
    + apply occurs_uncons in Hocc as [(b & H)|H].
      * rewrite H, strip_prefix_app in E. discriminate.
      * apply occurs_cons, IH; [exact H|]. simpl in Hfuel. lia.
Qed.

(** Without an occurrence of [old] nothing is replaced. *)
Lemma replace_scan_absent (old new : string) (fuel : nat) (s : string) :
  ~ occurs old s -> replace_scan fuel old new s = s.
Proof.
  revert s; induction fuel as [|n IH]; intros s H; [reflexivity|].
  cbn [replace_scan]. destruct (strip_prefix old s) as [rest|] eqn:E.
  - apply strip_prefix_some in E. subst s. destruct H. apply occurs_here.
  - destruct s as [|d t]; [reflexivity|]. rewrite IH; [reflexivity|].
    intros Ht. apply H. now apply occurs_cons.
Qed.

Section Converse.

(** The pattern to look for, the text replaced and its replacement all
    start with [c] and have no other [c]. *)
Variable c : ascii.
Variables old' new' p' : string.
Hypothesis new_anchor : has_char c new' = false.
Hypothesis p_anchor : has_char c p' = false.

(** What the scan gives before its first [c] is a copy. *)
Lemma replace_scan_copied (x b : string) (fuel : nat) (t : string) :
  has_char c x = false ->
  replace_scan fuel (String c old') (String c new') t = x ++ b ->
  exists b0, t = x ++ b0.
Proof.
  revert fuel t; induction x as [|e x IH]; intros fuel t Hx H.
  - now exists t.
  - cbn [has_char] in Hx. apply orb_false_iff in Hx as [He Hx].
    destruct fuel as [|n]; [now exists b|].
    cbn [replace_scan] in H.
    destruct (strip_prefix (String c old') t) as [rest|].
    + simpl in H. injection H as <- _. now rewrite Ascii.eqb_refl in He.
    + destruct t as [|d t']; [discriminate|].
      simpl in H. injection H as -> H.
      destruct (IH n t' Hx H) as (b0 & ->). now exists b0.
Qed.

(** The scan creates no occurrence of the pattern. *)
Lemma replace_scan_creates_none (fuel : nat) (s : string) :
  (forall b, strip_prefix (String c p') (String c new' ++ b) = None) ->
  occurs (String c p') (replace_scan fuel (String c old') (String c new') s) ->
  occurs (String c p') s.
Proof.
  intros Hdiff. revert s; induction fuel as [|n IH]; intros s H; [exact H|].
  cbn [replace_scan] in H.
  destruct (strip_prefix (String c old') s) as [rest|] eqn:E.
  - apply strip_prefix_some in E. subst s. apply occurs_app_l, IH.
    set (X := replace_scan n (String c old') (String c new') rest) in *.
    change (String c new' ++ X) with (String c (new' ++ X)) in H.
    apply occurs_uncons in H as [(b & H)|H].
    + pose proof (Hdiff X) as D.
      change (String c new' ++ X) with (String c (new' ++ X)) in D.
      rewrite H, strip_prefix_app in D. discriminate.
    + now apply occurs_skip in H.
  - destruct s as [|d t].
    + exfalso. now apply (occurs_nonempty _ _ H).
    + apply occurs_uncons in H as [(b & H)|H].
      * simpl in H. injection H as -> H.
        destruct (replace_scan_copied p' b n t p_anchor H) as (b0 & ->).
        apply (occurs_here (String c p') b0).
      * now apply occurs_cons, IH.
Qed.

End Converse.

Lemma img_sub_scan_copied (x b : string) (fuel : nat) (t : string) :
  has_char "<" x = false ->
  img_sub_scan fuel t = x ++ b ->
  exists b0, t = x ++ b0.
Proof.
  revert fuel t; induction x as [|e x IH]; intros fuel t Hx H.
  - now exists t.
  - cbn [has_char] in Hx. apply orb_false_iff in Hx as [He Hx].
    destruct fuel as [|n]; [now exists b|].
    cbn [img_sub_scan] in H.
    destruct (match_img t) as [[[g1 g2] rest]|].
    + unfold img_template in H. simpl in H. injection H as <- _.
      now rewrite Ascii.eqb_refl in He.
    + destruct t as [|d t']; [discriminate|].
      simpl in H. injection H as -> H.
      destruct (IH n t' Hx H) as (b0 & ->). now exists b0.
Qed.

(** The image substitution creates no occurrence of a pattern [<p'] that
    has a [>], no double quote and no second [<]. *)
Lemma img_sub_scan_creates_none (p' : string) (fuel : nat) (s : string) :
  has_char "<" p' = false ->
  has_char "034" p' = false ->
  has_char ">" p' = true ->
  occurs (String "<" p') (img_sub_scan fuel s) ->
  occurs (String "<" p') s.
Proof.
  intros Hlt Hq Hgt. revert s; induction fuel as [|n IH]; intros s H;
    [exact H|].
  cbn [img_sub_scan] in H.
  destruct (match_img s) as [[[g1 g2] rest]|] eqn:E.
  - apply match_img_some in E as [-> Hg1].
    unfold img_template in H.
    replace (("<img" ++ g1 ++ "style=" ++ dq
              ++ "max-width: 100%; height: auto; " ++ g2 ++ dq)
             ++ img_sub_scan n rest)
      with ((("<img" ++ g1 ++ "style=")
             ++ String "034" ("max-width: 100%; height: auto; " ++ g2))
            ++ String "034" (img_sub_scan n rest))
      in H by (now rewrite !app_assoc).
    apply occurs_split_at in H as [H|H]; [| |exact Hq].
    + apply occurs_split_at in H as [H|H]; [| |exact Hq].
      * apply occurs_has_char with (c := ">"%char) in H; [|simpl; now rewrite Hgt].
        rewrite !has_char_app in H. simpl in H. rewrite Hg1 in H. discriminate.
      * apply occurs_skip in H; [|reflexivity].
        do 3 apply occurs_app_l. apply occurs_cons. now apply occurs_app_r.
    + do 3 apply occurs_app_l. apply occurs_cons, occurs_app_l, occurs_cons.
      now apply IH.
  - destruct s as [|d t].
    + exfalso. now apply (occurs_nonempty _ _ H).
    + apply occurs_uncons in H as [(b & H)|H].
      * simpl in H. injection H as -> H.
        destruct (img_sub_scan_copied p' b n t Hlt H) as (b0 & ->).
        apply (occurs_here (String "<" p') b0).
      * now apply occurs_cons, IH.
Qed.

End AdapterFacts.
Import AdapterFacts.

Lemma replace_no_anchor (c : ascii) (old' new s : string) :
  has_char c s = false -> replace (String c old') new s = s.
Proof. apply replace_scan_no_anchor. Qed.

Lemma replace_inserts (old new s : string) :
  old <> "" -> occurs old s -> occurs new (replace old new s).
Proof.
  intros Hne Hocc. destruct old as [|a o]; [congruence|].
  apply replace_scan_inserts; auto.
Qed.

Lemma replace_creates_none (c : ascii) (old' new' p' s : string) :
  has_char c new' = false ->
  has_char c p' = false ->
  (forall b, strip_prefix (String c p') (String c new' ++ b) = None) ->
  occurs (String c p') (replace (String c old') (String c new') s) ->
  occurs (String c p') s.
Proof.
  intros Hn Hp Hdiff. now apply replace_scan_creates_none.
Qed.

(** Leading a pattern back through one literal replacement. *)
Ltac back_through old new H :=
  let o := eval vm_compute in old in
  let n := eval vm_compute in new in
  lazymatch o with
  | String ?c ?o' =>
      lazymatch n with
      | String c ?n' =>
          change old with (String c o') in H;
          change new with (String c n') in H;
          apply replace_creates_none in H;
          [ | reflexivity | reflexivity | intros ?; reflexivity ]
      end
  end.

(** X1.  The adapter only adds text: its result is never shorter than
    its input. *)
Theorem modify_html_never_shrinks (html : string) :
  String.length html
  <= String.length (modify_html_for_better_display html).
Proof. apply modify_html_length. Qed.

(** X2.  A text without an opening angle bracket has none of the patterns
    of the adapter, and is returned as it is. *)
Theorem modify_html_plain_text_unchanged (html : string) :
  has_char "<" html = false ->
  modify_html_for_better_display html = html.
Proof.
  intros H. unfold modify_html_for_better_display.
  destruct html as [|c t]; [reflexivity|].
  set (s := String c t) in *.
  change container_old with (String "<" ("div class=" ++ dq ++ "container" ++ dq ++ ">")).
  rewrite (replace_no_anchor "<" _ _ s H).
  change style_old with (String "<" "style>").
  rewrite (replace_no_anchor "<" _ _ s H).
  change row_old with (String "<" ("div class=" ++ dq ++ "row" ++ dq ++ ">")).
  rewrite (replace_no_anchor "<" _ _ s H).
  change col_old with (String "<" ("div class=" ++ dq ++ "col-md-6" ++ dq ++ ">")).
  rewrite (replace_no_anchor "<" _ _ s H).
  change page_old with (String "<" ("div class=" ++ dq ++ "page" ++ dq ++ ">")).
  rewrite (replace_no_anchor "<" _ _ s H).
  unfold img_sub. rewrite (img_sub_scan_no_lt _ s H).
  change body_close with (String "<" "/body>").
  now rewrite (replace_no_anchor "<" _ _ s H).
Qed.

Lemma modify_html_plain_text_unchanged_witness :
  modify_html_for_better_display "page 1 of 3" = "page 1 of 3".
Proof. apply (modify_html_plain_text_unchanged "page 1 of 3"). reflexivity. Defined.

(** The text that reaches the last step has the closing body tag whenever
    the input has it. *)
Lemma before_last_step_keeps_body (s : string) :
  occurs body_close s ->
  occurs body_close
    (img_sub
       (replace page_old page_new
          (replace col_old col_new
             (replace row_old row_new
                (replace style_old style_new
                   (replace container_old container_new s)))))).
Proof.
  intros H. change body_close with (String "<" "/body>") in *.
  apply img_sub_scan_keeps; try reflexivity.
  keep_through page_old. keep_through col_old. keep_through row_old.
  keep_through style_old. keep_through container_old. exact H.
Qed.

(** X3.  When the input has a closing body tag, the result has the zoom
    controls directly in front of a closing body tag. *)
Theorem modify_html_zoom_before_body (html : string) :
  contains body_close html = true ->
  contains (zoom_controls ++ body_close)
    (modify_html_for_better_display html) = true.
Proof.
  intros H. apply contains_occurs in H. apply contains_occurs.
  unfold modify_html_for_better_display. destruct html as [|c t].
  - destruct H as (a & b & H). destruct a; discriminate.
  - apply replace_inserts; [discriminate|].
    now apply before_last_step_keeps_body.
Qed.

Lemma modify_html_zoom_before_body_witness :
  contains (zoom_controls ++ body_close)
    (modify_html_for_better_display Demo.page) = true.
Proof. apply (modify_html_zoom_before_body Demo.page). reflexivity. Defined.

Lemma contains_decide (p s : string) : occurs p s \/ ~ occurs p s.
Proof.
  destruct (contains p s) eqn:E.
  - left. now apply contains_occurs.
  - right. intros H. apply contains_occurs in H. congruence.
Qed.

(** X4.  The adapter neither removes nor creates a closing body tag: its
    result has one exactly when its input has one. *)
Theorem modify_html_body_tag_iff (html : string) :
  contains body_close (modify_html_for_better_display html)
  = contains body_close html.
Proof.
  apply eq_true_iff_eq. rewrite !contains_occurs. split.
  - unfold modify_html_for_better_display. destruct html as [|c t]; [tauto|].
    set (s := String c t). intros H.
    set (s6 := img_sub _) in H.
    assert (H6 : occurs body_close s6).
    { destruct (contains_decide body_close s6) as [Y|N]; [exact Y|].
      unfold replace in H. change body_close with (String "<" "/body>") in H at 2.
      cbv iota in H. rewrite replace_scan_absent in H; [exact H|exact N]. }
    clear H. subst s6. change body_close with (String "<" "/body>") in *.
    apply img_sub_scan_creates_none in H6; try reflexivity.
    back_through page_old page_new H6.
    back_through col_old col_new H6.
    back_through row_old row_new H6.
    back_through style_old style_new H6.
    back_through container_old container_new H6.
    exact H6.
  - apply modify_html_keeps_body.
Qed.

(** X5.  When the input has a style element, the result has the rules
    for larger text right after its opening tag. *)
Theorem modify_html_style_rules (html : string) :
  contains style_old html = true ->
  contains style_new (modify_html_for_better_display html) = true.
Proof.
  intros H. apply contains_occurs in H. apply contains_occurs.
  unfold modify_html_for_better_display. destruct html as [|c t].
  - destruct H as (a & b & H). destruct a; discriminate.
  - set (s := String c t) in *.
    assert (H1 : occurs style_old (replace container_old container_new s)).
    { change style_old with (String "<" "style>") in *.
      keep_through container_old. exact H. }
    apply (replace_inserts style_old style_new) in H1; [|discriminate].
    set (s2 := replace style_old style_new _) in *.
    let p := eval vm_compute in style_new in
    lazymatch p with
    | String ?c ?p' => change style_new with (String c p') in *
    end.
    keep_through body_close.
    apply img_sub_scan_keeps; try reflexivity.
    keep_through page_old. keep_through col_old. keep_through row_old.
    exact H1.
Qed.

Lemma modify_html_style_rules_witness :
  contains style_new
    (modify_html_for_better_display
       "<html><head><style>p {margin: 0}</style></head></html>") = true.
Proof.
  apply (modify_html_style_rules
           "<html><head><style>p {margin: 0}</style></head></html>").
  reflexivity.
Defined.

(** ** Paths of a job *)

Module JobPathFacts.

Lemma rsplit_sep_tail (p : string) :
  has_char "/" (snd (OsPath.rsplit_sep p)) = false
  /\ (fst (OsPath.rsplit_sep p) = "" -> snd (OsPath.rsplit_sep p) = p).
Proof.
  induction p as [|c t [IH1 IH2]]; [now split|].
  cbn [OsPath.rsplit_sep]. destruct (OsPath.rsplit_sep t) as [h tl].
  simpl in IH1, IH2. destruct h as [|a h].
  - specialize (IH2 eq_refl). subst tl. unfold OsPath.is_sep.
    destruct (Ascii.eqb c "/") eqn:Ec; simpl.
    + split; [exact IH1|discriminate].
    + now rewrite Ec, IH1.
  - simpl. split; [exact IH1|discriminate].
Qed.

Lemma basename_no_sep (p : string) : has_char "/" (OsPath.basename p) = false.
Proof. apply rsplit_sep_tail. Qed.

Lemma stem_no_sep (pdf : string) : has_char "/" (stem pdf) = false.
Proof.
  unfold stem. pose proof (basename_no_sep pdf) as H.
  rewrite <- (splitext_app (OsPath.basename pdf)), has_char_app in H.
  now apply orb_false_iff in H as [H _].
Qed.

Lemma text_filename_no_sep (pdf : string) :
  has_char "/" (text_filename pdf) = false.
Proof.
  unfold text_filename. now rewrite has_char_app, stem_no_sep.
Qed.

Lemma startswith_sep (x : string) :
  has_char "/" x = false -> startswith "/" x = false.
Proof.
  destruct x as [|c t]; [reflexivity|]. cbn [has_char]. intros H.
  apply orb_false_iff in H as [Hc _]. unfold startswith. cbn [strip_prefix].
  now rewrite Ascii.eqb_sym, Hc.
Qed.

Lemma rsplit_sep_no_sep (n : string) :
  has_char "/" n = false -> OsPath.rsplit_sep n = ("", n).
Proof.
  induction n as [|c t IH]; [reflexivity|]. cbn [has_char]. intros H.
  apply orb_false_iff in H as [Hc Ht]. cbn [OsPath.rsplit_sep].
  rewrite (IH Ht). unfold OsPath.is_sep. now rewrite Hc.
Qed.

Lemma rsplit_sep_join (a b : string) :
  has_char "/" b = false ->
  OsPath.rsplit_sep (a ++ "/" ++ b) = (a ++ "/", b).
Proof.
  intros Hb. induction a as [|c a IH].
  - simpl. now rewrite (rsplit_sep_no_sep b Hb).
  - change (String c a ++ "/" ++ b) with (String c (a ++ "/" ++ b)).
    cbn [OsPath.rsplit_sep]. rewrite IH. now destruct a.
Qed.

Lemma rstrip_sep_one (x : string) :
  x <> "" -> has_char "/" x = false -> OsPath.rstrip_sep (x ++ "/") = x.
Proof.
  induction x as [|c t IH]; [congruence|]. intros _ H. cbn [has_char] in H.
  apply orb_false_iff in H as [Hc Ht]. cbn [append OsPath.rstrip_sep].
  destruct t as [|d t'].
  - simpl. unfold OsPath.is_sep. now rewrite Hc.
  - rewrite (IH ltac:(discriminate) Ht). reflexivity.
Qed.

Lemma rstrip_sep_app (a y : string) :
  OsPath.rstrip_sep y <> "" ->
  OsPath.rstrip_sep (a ++ y) = a ++ OsPath.rstrip_sep y.
Proof.
  intros Hy. induction a as [|c a IH]; [reflexivity|].
  cbn [append OsPath.rstrip_sep]. rewrite IH.
  destruct (a ++ OsPath.rstrip_sep y) eqn:E; [|reflexivity].
  destruct a; [simpl in E; congruence | discriminate].
Qed.

Lemma all_sep_app (a y : string) :
  OsPath.all_sep (a ++ y) = OsPath.all_sep a && OsPath.all_sep y.
Proof.
  induction a as [|c a IH]; [reflexivity|]. simpl.
  now rewrite IH, andb_assoc.
Qed.

(** Splitting [dir/name] when [dir] ends with a numeral. *)
Lemma split_numbered (pre : string) (z : Z) (name : string) :
  has_char "/" name = false ->
  OsPath.split ((pre ++ str_of_Z z) ++ "/" ++ name) = (pre ++ str_of_Z z, name).
Proof.
  intros Hn. unfold OsPath.split. rewrite (rsplit_sep_join _ _ Hn).
  assert (Hnum : has_char "/" (str_of_Z z) = false)
    by (now apply str_of_Z_chars).
  pose proof (str_of_Z_nonempty z) as Hne.
  rewrite app_assoc, all_sep_app.
  assert (Hall : OsPath.all_sep (str_of_Z z ++ "/") = false).
  { destruct (str_of_Z z) as [|c t]; [congruence|]. cbn [has_char] in Hnum.
    apply orb_false_iff in Hnum as [Hc _]. simpl. unfold OsPath.is_sep.
    now rewrite Hc. }
  rewrite Hall, andb_false_r, rstrip_sep_app;
    rewrite (rstrip_sep_one _ Hne Hnum); [reflexivity|exact Hne].
Qed.

Lemma split_job_dir (w : World) :
  OsPath.split (job_dir w) = ("olmocr_workspace", "job_" ++ str_of_Z (clock w)).
Proof.
  rewrite job_dir_eq. unfold OsPath.split.
  change ("olmocr_workspace/job_" ++ str_of_Z (clock w))
    with ("olmocr_workspace" ++ "/" ++ "job_" ++ str_of_Z (clock w)).
  rewrite rsplit_sep_join; [reflexivity|].
  rewrite has_char_app, str_of_Z_chars by reflexivity. reflexivity.
Qed.

Lemma job_dir_no_nul (w : World) : FS.has_nul (job_dir w) = false.
Proof.
  rewrite job_dir_eq. unfold FS.has_nul.
  rewrite has_char_app, str_of_Z_chars by reflexivity. reflexivity.
Qed.

Lemma input_copy_no_nul (w : World) : FS.has_nul (input_copy w) = false.
Proof.
  rewrite input_copy_eq. unfold FS.has_nul.
  rewrite !has_char_app, str_of_Z_chars by reflexivity. reflexivity.
Qed.

Lemma dirname_input_copy (w : World) :
  OsPath.dirname (input_copy w) = job_dir w.
Proof.
  unfold OsPath.dirname, input_copy. rewrite job_dir_eq.
  rewrite join_numbered by reflexivity.
  now rewrite split_numbered by reflexivity.
Qed.

Lemma download_path_eq (pdf : string) (w : World) :
  download_path pdf w = job_dir w ++ "/" ++ text_filename pdf.
Proof.
  unfold download_path. rewrite job_dir_eq.
  apply join_numbered, startswith_sep, text_filename_no_sep.
Qed.

Lemma dirname_download_path (pdf : string) (w : World) :
  OsPath.dirname (download_path pdf w) = job_dir w.
Proof.
  rewrite download_path_eq. unfold OsPath.dirname. rewrite job_dir_eq.
  now rewrite split_numbered by apply text_filename_no_sep.
Qed.

End JobPathFacts.
Import JobPathFacts.

(** X6.  The file to download always lies directly in the job directory,
    whatever the name of the upload: its name, which is also the name of
    the entry in a batch archive, has no separator. *)
Theorem download_path_inside_job_dir (pdf : string) (w : World) :
  download_path pdf w = job_dir w ++ "/" ++ text_filename pdf
  /\ OsPath.dirname (download_path pdf w) = job_dir w
  /\ has_char "/" (text_filename pdf) = false.
Proof.
  split; [apply download_path_eq|]. split;
    [apply dirname_download_path | apply text_filename_no_sep].
Qed.

(** ** Staging *)

Module StagingFacts.

Lemma os_mkdir_fresh (p : string) (w : World) :
  p <> "" -> FS.has_nul p = false ->
  FS.lookup p (files w) = None ->
  FS.parent (files w) p = FS.ParentDir ->
  os_mkdir p w = (Return tt, with_files (FS.set p Dir (files w)) w).
Proof.
  intros Hne Hnul Hl Hp. unfold os_mkdir, bind, check_path, get_files.
  rewrite Hnul. cbn [ret]. destruct p; [congruence|]. now rewrite Hl, Hp.
Qed.

Lemma os_mkdir_bound (p : string) (n : node) (w : World) :
  p <> "" -> FS.has_nul p = false ->
  FS.lookup p (files w) = Some n ->
  os_mkdir p w = (Raise (FileExistsError p), w).
Proof.
  intros Hne Hnul Hl. unfold os_mkdir, bind, check_path, get_files.
  rewrite Hnul. cbn [ret]. destruct p; [congruence|]. now rewrite Hl.
Qed.

Lemma job_dir_nonempty (w : World) : job_dir w <> "".
Proof. rewrite job_dir_eq. discriminate. Qed.

Lemma parent_job_dir (w : World) :
  FS.is_dir (files w) WORKSPACE_DIR = true ->
  FS.parent (files w) (job_dir w) = FS.ParentDir.
Proof.
  intros H. unfold FS.parent, OsPath.dirname. rewrite split_job_dir.
  cbn [fst]. unfold FS.is_dir in H. change WORKSPACE_DIR with "olmocr_workspace" in H.
  destruct (FS.lookup "olmocr_workspace" (files w)) as [[|c]|]; try discriminate.
  reflexivity.
Qed.

(** With the workspace in place, making the job directory succeeds when
    its name is free, and when it is a directory already. *)
Lemma makedirs_job_dir (w : World) :
  FS.is_dir (files w) WORKSPACE_DIR = true ->
  (FS.lookup (job_dir w) (files w) = None ->
   os_makedirs (job_dir w) w
   = (Return tt, with_files (FS.set (job_dir w) Dir (files w)) w))
  /\ (FS.is_dir (files w) (job_dir w) = true ->
      os_makedirs (job_dir w) w = (Return tt, w)).
Proof.
  intros Hws.
  assert (Hex : os_path_exists "olmocr_workspace" w = (Return true, w)).
  { unfold FS.is_dir in Hws. change WORKSPACE_DIR with "olmocr_workspace" in Hws.
    destruct (FS.lookup "olmocr_workspace" (files w)) as [n|] eqn:E;
      [|discriminate].
    now apply (os_path_exists_true _ n). }
  assert (Hstep : forall r,
             try_except (os_mkdir (job_dir w))
               (fun e =>
                  f <- get_files ;;
                  match e with
                  | FileNotFoundError _ | FileExistsError _
                  | IsADirectoryError _ | NotADirectoryError _ =>
                      if FS.is_dir f (job_dir w) then ret tt else raise e
                  | _ => raise e
                  end) w = r ->
             os_makedirs (job_dir w) w = r).
  { intros r <-. unfold os_makedirs. cbn [os_makedirs_rec].
    rewrite split_job_dir.
    change ("job_" ++ str_of_Z (clock w))
      with (String "j" ("ob_" ++ str_of_Z (clock w))).
    cbv iota beta. rewrite (bind_return _ _ _ _ _ Hex). reflexivity. }
  split; intros H; apply Hstep.
  - rewrite (try_except_return _ _ _ tt
               (with_files (FS.set (job_dir w) Dir (files w)) w));
      [reflexivity|].
    apply os_mkdir_fresh; auto using job_dir_nonempty, job_dir_no_nul, parent_job_dir.
  - unfold FS.is_dir in H.
    destruct (FS.lookup (job_dir w) (files w)) as [[|c]|] eqn:E; try discriminate.
    rewrite (try_except_raise _ _ _ (FileExistsError (job_dir w)) w).
    + unfold bind, get_files, FS.is_dir. now rewrite E.
    + apply (os_mkdir_bound _ Dir); auto using job_dir_nonempty, job_dir_no_nul.
Qed.

Lemma input_copy_not_job_dir (w : World) : input_copy w <> job_dir w.
Proof.
  rewrite input_copy_eq, job_dir_eq. intros H.
  apply (f_equal String.length) in H. rewrite !length_app in H.
  simpl in H. lia.
Qed.

Lemma parent_input_copy (f : fs) (w : World) :
  FS.is_dir f (job_dir w) = true ->
  FS.parent f (input_copy w) = FS.ParentDir.
Proof.
  intros H. unfold FS.parent. rewrite dirname_input_copy.
  unfold FS.is_dir in H.
  destruct (FS.lookup (job_dir w) f) as [[|c']|]; try discriminate.
  rewrite job_dir_eq. reflexivity.
Qed.

(** Copying a regular file onto a free path of a directory. *)
Lemma copy_to_file (pdf dst : string) (c : content) (w : World) :
  FS.lookup pdf (files w) = Some (File c) ->
  FS.has_nul pdf = false ->
  pdf <> dst ->
  dst <> "" -> FS.has_nul dst = false ->
  FS.is_dir (files w) dst = false ->
  FS.parent (files w) dst = FS.ParentDir ->
  shutil_copy pdf dst w
  = (Return tt, with_files (FS.set dst (File c) (files w)) w).
Proof.
  intros Hpdf Hnul Hneq Hne Hdnul Hdst Hpar.
  unfold shutil_copy. rewrite (bind_return get_files _ w (files w) w eq_refl).
  rewrite Hdst. unfold check_path at 1. rewrite Hnul.
  rewrite (bind_return (ret tt) _ w tt w eq_refl).
  unfold check_path. rewrite Hdnul.
  rewrite (bind_return (ret tt) _ w tt w eq_refl), Hpdf.
  destruct (String.eqb_spec pdf dst) as [E|_]; [contradiction|].
  apply write_file_ok. unfold writable.
  apply String.eqb_neq in Hne. now rewrite Hne, Hdnul, Hdst, Hpar.
Qed.

(** Staging succeeds for an uploaded regular file when the workspace is
    in place and the job directory is free or a directory already. *)
Lemma staging_succeeds (pdf : string) (c : content) (w : World) :
  FS.is_dir (files w) WORKSPACE_DIR = true ->
  FS.lookup (job_dir w) (files w) = None
  \/ FS.is_dir (files w) (job_dir w) = true ->
  FS.lookup pdf (files w) = Some (File c) ->
  FS.has_nul pdf = false ->
  pdf <> input_copy w ->
  FS.is_dir (files w) (input_copy w) = false ->
  exists w', staging pdf w = (Return tt, w')
             /\ FS.lookup (input_copy w) (files w') = Some (File c)
             /\ FS.is_dir (files w') (job_dir w) = true.
Proof.
  intros Hws Hjob Hpdf Hnul Hneq Hdst.
  assert (Hne : input_copy w <> "") by (rewrite input_copy_eq; discriminate).
  destruct (makedirs_job_dir w Hws) as [Hfresh Hold].
  unfold staging. destruct Hjob as [Hjob|Hjob].
  - rewrite (bind_return _ _ _ _ _ (Hfresh Hjob)).
    eexists. split.
    + apply (copy_to_file pdf (input_copy w) c); auto using input_copy_no_nul.
      * cbn [files with_files]. rewrite lookup_set.
        destruct (String.eqb_spec pdf (job_dir w)) as [E|_]; [|exact Hpdf].
        rewrite E in Hpdf. congruence.
      * cbn [files with_files]. unfold FS.is_dir in *. rewrite lookup_set.
        destruct (String.eqb_spec (input_copy w) (job_dir w)) as [E|_];
          [now destruct (input_copy_not_job_dir w)|exact Hdst].
      * apply parent_input_copy. cbn [files with_files]. unfold FS.is_dir.
        now rewrite lookup_set, String.eqb_refl.
    + cbn [files with_files]. split; [now rewrite lookup_set, String.eqb_refl|].
      unfold FS.is_dir. rewrite !lookup_set.
      destruct (String.eqb_spec (job_dir w) (input_copy w)) as [E|_];
        [now destruct (input_copy_not_job_dir w)|].
      now rewrite String.eqb_refl.
  - rewrite (bind_return _ _ _ _ _ (Hold Hjob)).
    eexists. split.
    + apply (copy_to_file pdf (input_copy w) c); auto using input_copy_no_nul.
      now apply parent_input_copy.
    + cbn [files with_files]. split; [now rewrite lookup_set, String.eqb_refl|].
      unfold FS.is_dir in *. rewrite lookup_set.
      destruct (String.eqb_spec (job_dir w) (input_copy w)) as [E|_];
        [now destruct (input_copy_not_job_dir w)|exact Hjob].
Qed.

End StagingFacts.
Import StagingFacts.

(** ** More on the single-file handler *)

Section EarlyEnds.

Variable env : Env.

Ltac enter_try H :=
  let w' := fresh "w'" in
  let w0 := fresh "w0" in
  let Hs := fresh "Hs" in
  let Hr := fresh "Hr" in
  let Hm := fresh "Hm" in
  let Hc := fresh "Hc" in
  apply extraction_inv in H as (w' & Hs & Hr);
  apply staging_inv in Hs as (w0 & Hm & Hc);
  unfold process_pdf;
  match goal with
  | |- context [bind time_time ?k ?w] =>
      rewrite (bind_return time_time k w (clock w) w eq_refl)
  end;
  rewrite (bind_return _ _ _ _ _ Hm), (bind_return _ _ _ _ _ Hc).

Ltac step_with E := rewrite (bind_return _ _ _ _ _ E).
Ltac step_refl :=
  match goal with
  | |- context [bind (progress ?n ?d ?s) ?k ?w] =>
      rewrite (bind_return (progress n d s) k w tt (show n d s w) eq_refl)
  | |- context [bind (ret ?a) ?k ?w] =>
      rewrite (bind_return (ret a) k w a w eq_refl)
  end.

Lemma first_output_facts (w w1 : World) (f raw : string) :
  first_output w w1 f raw ->
  FS.has_nul f = false
  /\ exists n, FS.lookup (results_dir w) (files w1) = Some n.
Proof.
  intros [(others & Hglob) Hfile].
  destruct (glob_first _ _ _ _ _ _ Hglob) as (Hdir & name & Hf & Hname).
  split.
  - rewrite Hf. unfold FS.has_nul. rewrite !has_char_app.
    fold (FS.has_nul (results_dir w)). now rewrite results_dir_no_nul, Hname.
  - unfold FS.is_dir in Hdir.
    destruct (FS.lookup (results_dir w) (files w1)) as [n|]; [|discriminate].
    now exists n.
Qed.

(** X7.  When the results directory exists and has no file matching the
    pattern, the message says that no output file was found and the four
    other values are empty or absent. *)
Theorem process_pdf_no_output_file (pdf : string) (w w1 : World)
    (out err : string) (n : node) :
  extraction env pdf w = (Return (Exited 0 out err), w1) ->
  FS.lookup (results_dir w) (files w1) = Some n ->
  FS.glob (files w1) (results_dir w) "output_" ".jsonl" = [] ->
  process_pdf env (Some pdf) w
  = (Return ("处理完成，但未找到输出文件" ++ nl ++ nl ++ "日志输出:" ++ nl ++ out,
             "", None, None, None),
     show 6 10 "正在生成预览..." w1).
Proof.
  intros H Hres Hglob. enter_try H. apply try_except_return. step_refl.
  step_with (subprocess_run_zero env (pipeline_cmd w) true _ _ _ _ Hr).
  step_refl.
  step_with (os_path_exists_true (results_dir w) n
               (show 6 10 "正在生成预览..." w1) Hres (results_dir_no_nul w)).
  cbn [negb].
  step_with (path_glob_eq (results_dir w) "output_" ".jsonl"
               (show 6 10 "正在生成预览..." w1)).
  change (files (show 6 10 "正在生成预览..." w1)) with (files w1).
  now rewrite Hglob.
Qed.

(** X8.  When the first output file is not blank and is not a JSON
    document, the run ends with the general failure message for the
    decoding error, before any preview is made. *)
Theorem process_pdf_malformed_record (pdf : string) (w w1 : World)
    (out err f raw : string) :
  extraction env pdf w = (Return (Exited 0 out err), w1) ->
  first_output w w1 f raw ->
  strip raw <> "" ->
  Json.loads (strip raw) = None ->
  process_pdf env (Some pdf) w
  = (Return ("处理过程中发生错误: " ++ str_exn env (JSONDecodeError (strip raw)),
             "", None, None, None),
     show 8 10 "正在生成下载文件..." (show 6 10 "正在生成预览..." w1)).
Proof.
  intros H Hout Hne Hloads.
  destruct (first_output_facts _ _ _ _ Hout) as (Hnul & n & Hres).
  destruct Hout as [(others & Hglob) Hfile].
  enter_try H.
  rewrite (try_except_raise _ _ _ (JSONDecodeError (strip raw))
             (show 8 10 "正在生成下载文件..." (show 6 10 "正在生成预览..." w1)));
    [reflexivity|].
  step_refl.
  step_with (subprocess_run_zero env (pipeline_cmd w) true _ _ _ _ Hr).
  step_refl.
  step_with (os_path_exists_true (results_dir w) n
               (show 6 10 "正在生成预览..." w1) Hres (results_dir_no_nul w)).
  cbn [negb].
  step_with (path_glob_eq (results_dir w) "output_" ".jsonl"
               (show 6 10 "正在生成预览..." w1)).
  change (files (show 6 10 "正在生成预览..." w1)) with (files w1).
  rewrite Hglob. step_refl.
  step_with (read_text_file f raw
               (show 8 10 "正在生成下载文件..." (show 6 10 "正在生成预览..." w1))
               Hfile Hnul).
  cbv zeta. destruct (strip raw) as [|c0 t0] eqn:Hs; [congruence|].
  apply bind_raise. unfold json_loads. now rewrite Hloads.
Qed.

(** X9.  When the first output file holds a JSON value that is not an
    object (a list, a string, a number, ...), the run ends with the
    general failure message for the missing [get], before any preview is
    made. *)
Theorem process_pdf_record_not_object (pdf : string) (w w1 : World)
    (out err f raw : string) (v : pyval) :
  extraction env pdf w = (Return (Exited 0 out err), w1) ->
  first_output w w1 f raw ->
  Json.loads (strip raw) = Some v ->
  (forall d, v <> PyDict d) ->
  process_pdf env (Some pdf) w
  = (Return ("处理过程中发生错误: "
               ++ str_exn env (AttributeError (type_name v) "get"),
             "", None, None, None),
     show 8 10 "正在生成下载文件..." (show 6 10 "正在生成预览..." w1)).
Proof.
  intros H Hout Hloads Hv.
  destruct (first_output_facts _ _ _ _ Hout) as (Hnul & n & Hres).
  destruct Hout as [(others & Hglob) Hfile].
  enter_try H.
  rewrite (try_except_raise _ _ _ (AttributeError (type_name v) "get")
             (show 8 10 "正在生成下载文件..." (show 6 10 "正在生成预览..." w1)));
    [reflexivity|].
  step_refl.
  step_with (subprocess_run_zero env (pipeline_cmd w) true _ _ _ _ Hr).
  step_refl.
  step_with (os_path_exists_true (results_dir w) n
               (show 6 10 "正在生成预览..." w1) Hres (results_dir_no_nul w)).
  cbn [negb].
  step_with (path_glob_eq (results_dir w) "output_" ".jsonl"
               (show 6 10 "正在生成预览..." w1)).
  change (files (show 6 10 "正在生成预览..." w1)) with (files w1).
  rewrite Hglob. step_refl.
  step_with (read_text_file f raw
               (show 8 10 "正在生成下载文件..." (show 6 10 "正在生成预览..." w1))
               Hfile Hnul).
  cbv zeta. destruct (strip raw) as [|c0 t0] eqn:Hs;
    [rewrite loads_empty in Hloads; discriminate|].
  unfold json_loads. rewrite Hloads. step_refl.
  apply bind_raise. destruct v; try reflexivity.
  now destruct (Hv entries).
Qed.

(** X10.  When the extraction tool cannot be started, the run ends with
    the general failure message, not with the message for a failed
    command. *)
Theorem process_pdf_tool_not_started (pdf : string) (w w1 : World)
    (detail : string) :
  extraction env pdf w = (Return (NotStarted detail), w1) ->
  process_pdf env (Some pdf) w
  = (Return ("处理过程中发生错误: " ++ str_exn env (LaunchError detail),
             "", None, None, None), w1).
Proof.
  intros H. enter_try H.
  rewrite (try_except_raise _ _ _ (LaunchError detail) w1); [reflexivity|].
  step_refl. apply bind_raise. unfold subprocess_run.
  change (run_tool env _ _) with
    (run_tool env (pipeline_cmd w)
       (launch (pipeline_cmd w) (show 2 10 "正在处理PDF..." w'))).
  now rewrite Hr.
Qed.

End EarlyEnds.

(** ** The last steps of a run *)

Lemma try_except_step {A B} (m : M A) (k : A -> M B) (h : exn -> M B)
    (w : World) (a : A) (w' : World) :
  m w = (Return a, w') ->
  try_except (bind m k) h w = try_except (k a) h w'.
Proof. intros H. unfold try_except, bind. now rewrite H. Qed.

Lemma write_file_world (p : string) (c : content) (w : World) :
  writable (files w) p = true ->
  write_file p c w = (Return tt, with_files (FS.set p (File c) (files w)) w).
Proof. intros H. now rewrite (write_file_ok p c w H). Qed.

Section LastSteps.

Variable env : Env.

(** The two preview steps, as they end. *)
Lemma preview_attempt_ok (f log : string) (w : World) (out : string) (w' : World) :
  subprocess_run env (viewer_cmd f) false w = (Return out, w') ->
  preview_attempt env f log w = (Return log, w').
Proof.
  intros H. unfold preview_attempt. apply try_except_return.
  now rewrite (bind_return _ _ _ _ _ H).
Qed.

Lemma preview_attempt_failed (f log : string) (w : World) (e : exn) (w' : World) :
  subprocess_run env (viewer_cmd f) false w = (Raise e, w') ->
  preview_attempt env f log w
  = (Return (log ++ nl ++ "生成HTML预览失败: " ++ str_exn env e), w').
Proof.
  intros H. unfold preview_attempt.
  rewrite (try_except_raise _ _ _ e w'); [reflexivity|].
  now apply bind_raise.
Qed.

Lemma preview_attempt_returns (f log : string) (w : World) :
  exists more,
    preview_attempt env f log w
    = (Return (log ++ more), snd (subprocess_run env (viewer_cmd f) false w)).
Proof.
  destruct (subprocess_run env (viewer_cmd f) false w) as [[o|e] w'] eqn:H.
  - exists "". rewrite StrFacts.app_nil_r. now apply preview_attempt_ok with o.
  - eexists. cbn [snd]. apply preview_attempt_failed. exact H.
Qed.

Lemma preview_read_returns (fs0 : list string) (log : string) (w : World) :
  exists html more, preview_read env fs0 log w = (Return (html, log ++ more), w).
Proof.
  destruct fs0 as [|h t]; [exists "", ""; now rewrite StrFacts.app_nil_r|].
  unfold preview_read, try_except, bind. pose proof (read_text_world h w) as Hw.
  destruct (read_text h w) as [[c|e] w0]; simpl in Hw; subst w0.
  - exists (modify_html_for_better_display c), "". now rewrite StrFacts.app_nil_r.
  - eexists; eexists; reflexivity.
Qed.

(** A run whose record is an object reaches the table and the download
    file. *)
Lemma process_pdf_to_finish (pdf : string) (w w1 : World)
    (out err f raw : string) (d : list (string * pyval))
    (log1 html log2 : string) :
  extraction env pdf w = (Return (Exited 0 out err), w1) ->
  first_output w w1 f raw ->
  Json.loads (strip raw) = Some (PyDict d) ->
  preview_attempt env f out (preview_start w1)
  = (Return log1, preview_world env f w1) ->
  preview_read env
    (FS.glob (files (preview_world env f w1)) "dolma_previews" "" ".html")
    log1 (preview_world env f w1)
  = (Return (html, log2), preview_world env f w1) ->
  process_pdf env (Some pdf) w
  = try_except (finish pdf w d html log2) (on_error env) (preview_world env f w1).
Proof.
  intros H Hout Hloads Hprev Hhtml.
  destruct (first_output_facts _ _ _ _ Hout) as (Hnul & n & Hres).
  destruct Hout as [(others & Hglob) Hfile].
  unfold preview_start in Hprev.
  set (w6 := show 6 10 "正在生成预览..." w1) in *.
  set (w8 := show 8 10 "正在生成下载文件..." w6) in *.
  set (wp := preview_world env f w1) in *.
  apply extraction_inv in H as (w' & Hs & Hr).
  apply staging_inv in Hs as (w0 & Hm & Hc).
  unfold process_pdf.
  match goal with
  | |- context [bind time_time ?k ?w] =>
      rewrite (bind_return time_time k w (clock w) w eq_refl)
  end.
  rewrite (bind_return _ _ _ _ _ Hm), (bind_return _ _ _ _ _ Hc).
  rewrite (try_except_step (progress 2 10 "正在处理PDF...") _ _ w' tt _ eq_refl).
  rewrite (try_except_step _ _ _ _ _ _
             (subprocess_run_zero env (pipeline_cmd w) true _ _ _ _ Hr)).
  rewrite (try_except_step (progress 6 10 "正在生成预览...") _ _ w1 tt _ eq_refl).
  fold w6.
  rewrite (try_except_step _ _ _ _ _ _
             (os_path_exists_true (results_dir w) n w6 Hres (results_dir_no_nul w))).
  cbn [negb].
  rewrite (try_except_step _ _ _ _ _ _
             (path_glob_eq (results_dir w) "output_" ".jsonl" w6)).
  change (files w6) with (files w1). rewrite Hglob.
  rewrite (try_except_step (progress 8 10 "正在生成下载文件...") _ _ w6 tt _ eq_refl).
  fold w8.
  rewrite (try_except_step _ _ _ _ _ _ (read_text_file f raw w8 Hfile Hnul)).
  cbv zeta.
  destruct (strip raw) as [|c0 t0] eqn:Hstrip;
    [rewrite loads_empty in Hloads; discriminate|].
  unfold json_loads. rewrite Hloads.
  rewrite (try_except_step (ret (PyDict d)) _ _ w8 _ _ eq_refl).
  unfold py_get at 1.
  rewrite (try_except_step (ret _) _ _ w8 _ _ eq_refl).
  unfold preview_attempt in Hprev.
  rewrite (try_except_step _ _ _ _ _ _ Hprev).
  rewrite (try_except_step _ _ _ _ _ _
             (path_glob_eq "dolma_previews" "" ".html" wp)).
  unfold preview_read in Hhtml.
  rewrite (try_except_step _ _ _ _ _ _ Hhtml).
  unfold py_get.
  rewrite (try_except_step (ret _) _ _ wp _ _ eq_refl).
  reflexivity.
Qed.

(** The write of a string leaves it in the file. *)
Lemma write_value_world (p s : string) (w : World) :
  writable (files w) p = true -> has_surrogate s = false ->
  write_value p (PyStr s) w
  = (Return s,
     with_files (FS.set p (File (Text s)) (FS.set p (File (Text "")) (files w))) w).
Proof.
  intros Hw Hs. unfold write_value.
  rewrite (bind_return _ _ _ _ _ (write_file_world p (Text "") w Hw)), Hs.
  erewrite bind_return; [reflexivity|].
  rewrite write_file_world; [reflexivity|]. simpl. now apply writable_set.
Qed.


Lemma well_typed_text (d : list (string * pyval)) :
  well_typed_record d = true ->
  text_value d = PyStr (record_text d) /\ has_surrogate (record_text d) = false.
Proof.
  unfold well_typed_record, text_value, record_text. intros H.
  apply andb_prop in H as [H _].
  destruct (Dict.get "text" d) as [[| | | |s| |]|]; try discriminate.
  - split; [reflexivity|]. now apply negb_true_iff in H.
  - split; reflexivity.
Qed.

Lemma well_typed_metadata (d : list (string * pyval)) :
  well_typed_record d = true ->
  exists m, metadata_value d = PyDict m
            /\ record_rows d = map (fun kv => [PyStr (fst kv); snd kv]) m.
Proof.
  unfold well_typed_record, metadata_value, record_rows. intros H.
  apply andb_prop in H as [_ H].
  destruct (Dict.get "metadata" d) as [[| | | | | |m]|]; try discriminate.
  - now exists m.
  - now exists [].
Qed.

(** The last part of a run on a well-typed record. *)
Lemma finish_ok (pdf : string) (w : World) (d : list (string * pyval))
    (html log : string) (wp : World) :
  well_typed_record d = true ->
  writable (files wp) (download_path pdf w) = true ->
  finish pdf w d html log wp
  = (Return (log, record_text d, Some html, Some (metadata_table d),
             Some (download_path pdf w)),
     show 10 10 "处理完成！"
       (with_files
          (FS.set (download_path pdf w) (File (Text (record_text d)))
             (FS.set (download_path pdf w) (File (Text "")) (files wp))) wp)).
Proof.
  intros Htyped Hwr.
  destruct (well_typed_text d Htyped) as [Ht Hsur].
  destruct (well_typed_metadata d Htyped) as (m & Hm & Hrows).
  unfold finish. rewrite Hm, Ht. unfold py_items.
  rewrite (bind_return (ret m) _ wp m wp eq_refl).
  rewrite (bind_return _ _ _ _ _ (write_value_world _ _ wp Hwr Hsur)).
  unfold metadata_table. now rewrite Hrows.
Qed.

(** A run that reaches the end of the [try], with its log, its preview
    and the world it leaves. *)
Lemma process_pdf_complete (pdf : string) (w w1 : World)
    (out err f raw : string) (d : list (string * pyval))
    (log1 html log2 : string) :
  extraction env pdf w = (Return (Exited 0 out err), w1) ->
  first_output w w1 f raw ->
  Json.loads (strip raw) = Some (PyDict d) ->
  well_typed_record d = true ->
  writable (files (preview_world env f w1)) (download_path pdf w) = true ->
  preview_attempt env f out (preview_start w1)
  = (Return log1, preview_world env f w1) ->
  preview_read env
    (FS.glob (files (preview_world env f w1)) "dolma_previews" "" ".html")
    log1 (preview_world env f w1)
  = (Return (html, log2), preview_world env f w1) ->
  process_pdf env (Some pdf) w
  = (Return (log2, record_text d, Some html, Some (metadata_table d),
             Some (download_path pdf w)),
     show 10 10 "处理完成！"
       (with_files
          (FS.set (download_path pdf w) (File (Text (record_text d)))
             (FS.set (download_path pdf w) (File (Text ""))
                (files (preview_world env f w1))))
          (preview_world env f w1))).
Proof.
  intros H Hout Hloads Htyped Hwr Hprev Hhtml.
  rewrite (process_pdf_to_finish pdf w w1 out err f raw d log1 html log2
             H Hout Hloads Hprev Hhtml).
  apply try_except_return. now apply finish_ok.
Qed.

End LastSteps.

(** ** Complete runs *)

Section CompleteRuns.

Variable env : Env.

(** X11.  A run that reaches its end leaves in the download file exactly
    the text it returns, and its log starts with the standard output of
    the extraction. *)
Theorem process_pdf_download_file (pdf : string) (w w1 : World)
    (out err f raw : string) (d : list (string * pyval)) :
  extraction env pdf w = (Return (Exited 0 out err), w1) ->
  first_output w w1 f raw ->
  Json.loads (strip raw) = Some (PyDict d) ->
  well_typed_record d = true ->
  writable (files (preview_world env f w1)) (download_path pdf w) = true ->
  exists more html w',
    process_pdf env (Some pdf) w
    = (Return (out ++ more, record_text d, Some html, Some (metadata_table d),
               Some (download_path pdf w)), w')
    /\ FS.lookup (download_path pdf w) (files w')
       = Some (File (Text (record_text d))).
Proof.
  intros H Hout Hloads Htyped Hwr.
  destruct (preview_attempt_returns env f out (preview_start w1))
    as (more1 & Hprev).
  destruct (preview_read_returns env
              (FS.glob (files (preview_world env f w1)) "dolma_previews" "" ".html")
              (out ++ more1) (preview_world env f w1))
    as (html & more2 & Hhtml).
  exists (more1 ++ more2), html. eexists. split.
  - rewrite <- StrFacts.app_assoc.
    exact (process_pdf_complete env pdf w w1 out err f raw d _ _ _
             H Hout Hloads Htyped Hwr Hprev Hhtml).
  - cbn [files show with_files]. rewrite lookup_set. now rewrite String.eqb_refl.
Qed.



(** X14.  When the metadata field of the record is not an object, the
    run ends with the general failure message before the download file
    is opened: the files are those the preview subprocess left. *)
Theorem process_pdf_metadata_not_object (pdf : string) (w w1 : World)
    (out err f raw : string) (d : list (string * pyval)) (v : pyval) :
  extraction env pdf w = (Return (Exited 0 out err), w1) ->
  first_output w w1 f raw ->
  Json.loads (strip raw) = Some (PyDict d) ->
  Dict.get "metadata" d = Some v ->
  (forall m, v <> PyDict m) ->
  process_pdf env (Some pdf) w
  = (Return ("处理过程中发生错误: "
               ++ str_exn env (AttributeError (type_name v) "items"),
             "", None, None, None),
     preview_world env f w1).
Proof.
  intros H Hout Hloads Hget Hv.
  destruct (preview_attempt_returns env f out (preview_start w1))
    as (more1 & Hprev).
  destruct (preview_read_returns env
              (FS.glob (files (preview_world env f w1)) "dolma_previews" "" ".html")
              (out ++ more1) (preview_world env f w1))
    as (html & more2 & Hhtml).
  rewrite (process_pdf_to_finish env pdf w w1 out err f raw d _ _ _
             H Hout Hloads Hprev Hhtml).
  rewrite (try_except_raise _ _ _ (AttributeError (type_name v) "items")
             (preview_world env f w1)); [reflexivity|].
  unfold finish. apply bind_raise. unfold metadata_value. rewrite Hget.
  destruct v; try reflexivity. now destruct (Hv entries).
Qed.

(** X15.  The preview of a complete result is the adapted text of the
    first HTML file of the shared directory dolma_previews, whichever
    job wrote it. *)
Theorem process_pdf_preview_from_shared_dir (pdf : string) (w w1 : World)
    (out err f raw : string) (d : list (string * pyval))
    (h page : string) (others : list string) :
  extraction env pdf w = (Return (Exited 0 out err), w1) ->
  first_output w w1 f raw ->
  Json.loads (strip raw) = Some (PyDict d) ->
  well_typed_record d = true ->
  writable (files (preview_world env f w1)) (download_path pdf w) = true ->
  FS.glob (files (preview_world env f w1)) "dolma_previews" "" ".html"
  = h :: others ->
  FS.lookup h (files (preview_world env f w1)) = Some (File (Text page)) ->
  exists log w',
    process_pdf env (Some pdf) w
    = (Return (log, record_text d,
               Some (modify_html_for_better_display page),
               Some (metadata_table d), Some (download_path pdf w)), w').
Proof.
  intros H Hout Hloads Htyped Hwr Hglob Hpage.
  destruct (preview_attempt_returns env f out (preview_start w1))
    as (more1 & Hprev).
  destruct (glob_first _ _ _ _ _ _ Hglob) as (_ & name & Hh & Hname).
  assert (Hnul : FS.has_nul h = false).
  { rewrite Hh. unfold FS.has_nul. rewrite !has_char_app, Hname. reflexivity. }
  exists (out ++ more1). eexists.
  apply (process_pdf_complete env pdf w w1 out err f raw d (out ++ more1)
           _ _ H Hout Hloads Htyped Hwr Hprev).
  rewrite Hglob. unfold preview_read. apply try_except_return.
  now rewrite (bind_return _ _ _ _ _ (read_text_file h page _ Hpage Hnul)).
Qed.


(** X17.  An exception leaves [process_pdf] exactly when staging raises
    it: nothing that happens after the copy of the input escapes. *)
Theorem process_pdf_raises_iff_staging (pdf : string) (w w' : World) (e : exn) :
  process_pdf env (Some pdf) w = (Raise e, w')
  <-> staging pdf w = (Raise e, w').
Proof.
  unfold process_pdf.
  rewrite (bind_return time_time _ w (clock w) w eq_refl).
  change (OsPath.join WORKSPACE_DIR ("job_" ++ str_of_Z (clock w)))
    with (job_dir w).
  change (OsPath.join (job_dir w) "input.pdf") with (input_copy w).
  unfold staging.
  destruct (os_makedirs (job_dir w) w) as [[[]|e1] w1] eqn:Em.
  - rewrite !(bind_return _ _ _ _ _ Em).
    destruct (shutil_copy pdf (input_copy w) w1) as [[[]|e2] w2] eqn:Ec.
    + rewrite (bind_return _ _ _ _ _ Ec).
      match goal with
      | |- try_except ?m ?h ?w0 = _ <-> _ =>
          destruct (handler_returns env m w0) as (o & w3 & ->)
      end.
      split; discriminate.
    + rewrite (bind_raise _ _ _ _ _ Ec).
      split; intros [= <- <-]; reflexivity.
  - rewrite !(bind_raise _ _ _ _ _ Em).
    split; intros [= <- <-]; reflexivity.
Qed.

(** X18.  In every result of [process_pdf] the table tells the two kinds
    apart: without a table the text is empty and there is neither
    preview nor download file; with a table there are both. *)
Theorem process_pdf_result_shape (pdf : option string) (w w' : World)
    (log text : string) (html : option string) (df : option DataFrame)
    (dl : option string) :
  process_pdf env pdf w = (Return (log, text, html, df, dl), w') ->
  (df = None -> text = "" /\ html = None /\ dl = None)
  /\ (df <> None -> html <> None /\ dl <> None).
Proof.
  intros H.
  apply process_pdf_shape in H as [(m & E)|(l & t & h & tb & p & E)].
  - injection E as -> -> -> -> ->. split; [now intros _|]. now intros [].
  - injection E as -> -> -> -> ->. split; [discriminate|].
    intros _. split; discriminate.
Qed.

End CompleteRuns.

(** ** Uploads, batches and names *)

Section Uploads.

Variable env : Env.

(** X19.  For an uploaded regular file, with the workspace in place and
    the job directory free or a directory already, [process_pdf] raises
    nothing: once the two tools have ended, however they ended (an exit
    status, or no start at all) and whatever they left in the files, it
    returns a failure or a complete result.  A tool that never ends is
    outside [Env], where a run of a tool always has an outcome. *)
Theorem process_pdf_returns_on_upload (pdf : string) (c : content) (w : World) :
  FS.is_dir (files w) WORKSPACE_DIR = true ->
  FS.lookup (job_dir w) (files w) = None
  \/ FS.is_dir (files w) (job_dir w) = true ->
  FS.lookup pdf (files w) = Some (File c) ->
  FS.has_nul pdf = false ->
  pdf <> input_copy w ->
  FS.is_dir (files w) (input_copy w) = false ->
  exists out w',
    process_pdf env (Some pdf) w = (Return out, w') /\ well_shaped out.
Proof.
  intros Hws Hjob Hpdf Hnul Hneq Hdst.
  destruct (staging_succeeds pdf c w Hws Hjob Hpdf Hnul Hneq Hdst)
    as (w1 & Hs & _).
  destruct (proj2 (process_pdf_returns_iff env pdf w)) as (out & w' & H);
    [now exists w1|].
  exists out, w'. split; [exact H|]. exact (process_pdf_shape env _ _ _ _ H).
Qed.

(** X20.  Under the same conditions staging leaves the job directory in
    place, with a copy of the upload under the name input.pdf. *)
Theorem staging_copies_upload (pdf : string) (c : content) (w : World) :
  FS.is_dir (files w) WORKSPACE_DIR = true ->
  FS.lookup (job_dir w) (files w) = None
  \/ FS.is_dir (files w) (job_dir w) = true ->
  FS.lookup pdf (files w) = Some (File c) ->
  FS.has_nul pdf = false ->
  pdf <> input_copy w ->
  FS.is_dir (files w) (input_copy w) = false ->
  exists w',
    staging pdf w = (Return tt, w')
    /\ FS.lookup (input_copy w) (files w') = Some (File c)
    /\ FS.is_dir (files w') (job_dir w) = true.
Proof.
  intros Hws Hjob Hpdf Hnul Hneq Hdst.
  exact (staging_succeeds pdf c w Hws Hjob Hpdf Hnul Hneq Hdst).
Qed.


(** The loop stops at the first call that raises. *)
Lemma batch_loop_raises (zip : string) (total i : Z) (done : list string)
    (entries : list (string * string)) (w : World) (texts : list string)
    (wk : World) (pdf : string) (rest : list string) (e : exn) (w1 : World) :
  batch_calls env zip total i done entries w texts wk ->
  process_pdf env (Some pdf)
    (show (i + Z.of_nat (List.length done)) total
       (item_desc (i + Z.of_nat (List.length done)) total) wk)
  = (Raise e, w1) ->
  batch_loop env zip total i (done ++ pdf :: rest)%list entries w = (Raise e, w1).
Proof.
  induction 1 as [|i p ps entries w log text html df dl w2 texts w' Hp _ IH];
    intros Hraise.
  - cbn [List.length Z.of_nat] in Hraise. rewrite Z.add_0_r in Hraise.
    cbn [List.app batch_loop].
    rewrite (bind_return (progress _ _ _) _ _ tt _ eq_refl).
    change (show i total _ w) with (show i total (item_desc i total) w).
    now apply bind_raise.
  - cbn [List.app batch_loop].
    rewrite (bind_return (progress _ _ _) _ _ tt _ eq_refl).
    change (show i total _ w) with (show i total (item_desc i total) w).
    rewrite (bind_return _ _ _ _ _ Hp). cbv iota beta.
    change (fst (OsPath.splitext (OsPath.basename p)) ++ "_extracted_text.txt")
      with (text_filename p).
    rewrite (bind_return _ _ _ _ _
               (zip_writestr_eq zip entries (text_filename p) text w2)).
    rewrite (text_filename_arcname p (process_pdf_source env _ _ _ _ Hp)).
    apply IH.
    replace (i + 1 + Z.of_nat (List.length ps))%Z
      with (i + Z.of_nat (List.length (p :: ps)))%Z; [exact Hraise|].
    cbn [List.length]. lia.
Qed.

(** X22.  An exception that leaves one call of [process_pdf] leaves the
    batch: [process_multiple_pdfs] raises it, returns no archive path, and
    the inputs after that one are not processed. *)
Theorem batch_stops_at_exception (done : list string) (pdf : string)
    (rest : list string) (w w0 wk w1 : World) (texts : list string) (e : exn) :
  batch_setup w = (Return tt, w0) ->
  batch_calls env (zip_path w)
    (Z.of_nat (List.length (done ++ pdf :: rest)%list)) 1 done [] w0 texts wk ->
  process_pdf env (Some pdf)
    (show (1 + Z.of_nat (List.length done))
       (Z.of_nat (List.length (done ++ pdf :: rest)%list))
       (item_desc (1 + Z.of_nat (List.length done))
          (Z.of_nat (List.length (done ++ pdf :: rest)%list))) wk)
  = (Raise e, w1) ->
  process_multiple_pdfs env (Some (done ++ pdf :: rest)%list) w = (Raise e, w1).
Proof.
  intros Hsetup Hcalls Hraise.
  pose proof (batch_loop_raises _ _ _ _ _ _ _ _ pdf rest e w1 Hcalls Hraise)
    as Hloop.
  unfold process_multiple_pdfs.
  destruct (done ++ pdf :: rest)%list as [|p ps] eqn:El;
    [now destruct done|].
  rewrite (bind_return time_time _ w (clock w) w eq_refl).
  unfold batch_setup, bind in Hsetup.
  destruct (os_makedirs (batch_dir w) w) as [[[]|e0] wm] eqn:Em; [|discriminate].
  change (OsPath.join WORKSPACE_DIR ("batch_" ++ str_of_Z (clock w)))
    with (batch_dir w).
  rewrite (bind_return _ _ _ _ _ Em).
  change (OsPath.join (batch_dir w) "extracted_texts.zip") with (zip_path w).
  rewrite (bind_return _ _ _ _ _ Hsetup).
  now apply bind_raise.
Qed.

End Uploads.

(** X23.  Loading the module makes the workspace directory when its name
    is free, leaves a directory of that name as it is, and raises
    [FileExistsError] when a regular file has the name. *)
Theorem startup_workspace (w : World) :
  startup w
  = match FS.lookup WORKSPACE_DIR (files w) with
    | None => (Return tt, with_files (FS.set WORKSPACE_DIR Dir (files w)) w)
    | Some Dir => (Return tt, w)
    | Some (File _) => (Raise (FileExistsError WORKSPACE_DIR), w)
    end.
Proof.
  unfold startup, os_makedirs. change WORKSPACE_DIR with "olmocr_workspace".
  cbn [String.length os_makedirs_rec]. 
  change (OsPath.split "olmocr_workspace") with ("", "olmocr_workspace").
  cbv iota beta.
  unfold bind at 1. unfold os_path_exists at 1. unfold bind at 1.
  cbn [get_files ret].
  unfold try_except, os_mkdir, bind, check_path.
  change (FS.has_nul "olmocr_workspace") with false. cbn [ret get_files].
  change (FS.parent (files w) "olmocr_workspace") with FS.ParentDir.
  unfold FS.is_dir.
  destruct (FS.lookup "olmocr_workspace" (files w)) as [[|c]|] eqn:E;
    cbn [raise put_files]; rewrite ?E; reflexivity.
Qed.

Lemma rsplit_dot_none (s : string) :
  has_char "." s = false -> OsPath.rsplit_dot s = None.
Proof.
  induction s as [|c t IH]; [reflexivity|]. cbn [has_char]. intros H.
  apply orb_false_iff in H as [Hc Ht]. cbn [OsPath.rsplit_dot].
  now rewrite (IH Ht), Hc.
Qed.

Lemma rsplit_dot_last (base ext : string) :
  has_char "." ext = false ->
  OsPath.rsplit_dot (base ++ "." ++ ext) = Some (base, "." ++ ext).
Proof.
  intros H. induction base as [|c t IH].
  - cbn [append OsPath.rsplit_dot]. now rewrite (rsplit_dot_none ext H).
  - change (String c t ++ "." ++ ext) with (String c (t ++ "." ++ ext)).
    cbn [OsPath.rsplit_dot]. now rewrite IH.
Qed.

(** X24.  The name of the download file and of the archive entry is the
    name of the upload without its directories and without its last
    extension: uploads that differ only there share the name. *)
Theorem text_filename_of_upload (dir base ext : string) :
  has_char "/" base = false -> has_char "/" ext = false ->
  has_char "." ext = false ->
  OsPath.all_dots base = false ->
  text_filename (dir ++ "/" ++ base ++ "." ++ ext)
  = base ++ "_extracted_text.txt".
Proof.
  intros Hb He Hd Hdots.
  assert (Hname : has_char "/" (base ++ "." ++ ext) = false).
  { rewrite !has_char_app, Hb, He. reflexivity. }
  unfold text_filename, stem, OsPath.basename.
  rewrite (rsplit_sep_join dir _ Hname). cbn [snd].
  unfold OsPath.splitext. rewrite (rsplit_sep_no_sep _ Hname).
  now rewrite (rsplit_dot_last base ext Hd), Hdots.
Qed.

(** ** The handlers on scripted tools *)

Lemma process_pdf_no_output_file_witness :
  exists w',
    process_pdf (Scenario.script Scenario.writes_nothing Scenario.view_nothing)
      (Some Demo.upload) (Demo.world "%PDF-1.7")
    = (Return ("处理完成，但未找到输出文件" ++ nl ++ nl ++ "日志输出:" ++ nl ++ "started",
               "", None, None, None), w').
Proof.
  eexists.
  eapply (process_pdf_no_output_file
            (Scenario.script Scenario.writes_nothing Scenario.view_nothing)
            Demo.upload (Demo.world "%PDF-1.7")).
  - vm_compute. reflexivity.
  - vm_compute. reflexivity.
  - vm_compute. reflexivity.
Defined.

Lemma process_pdf_malformed_record_witness :
  exists w',
    process_pdf (Scenario.script (Scenario.writes "{") Scenario.view_nothing)
      (Some Demo.upload) (Demo.world "%PDF-1.7")
    = (Return ("处理过程中发生错误: " ++ "error", "", None, None, None), w').
Proof.
  eexists.
  eapply (process_pdf_malformed_record
            (Scenario.script (Scenario.writes "{") Scenario.view_nothing)
            Demo.upload (Demo.world "%PDF-1.7")).
  - vm_compute. reflexivity.
  - split; [eexists|]; vm_compute; reflexivity.
  - vm_compute. discriminate.
  - vm_compute. reflexivity.
Defined.

Lemma process_pdf_record_not_object_witness :
  exists w',
    process_pdf (Scenario.script (Scenario.writes "[1]") Scenario.view_nothing)
      (Some Demo.upload) (Demo.world "%PDF-1.7")
    = (Return ("处理过程中发生错误: " ++ "error", "", None, None, None), w').
Proof.
  eexists.
  eapply (process_pdf_record_not_object
            (Scenario.script (Scenario.writes "[1]") Scenario.view_nothing)
            Demo.upload (Demo.world "%PDF-1.7")).
  - vm_compute. reflexivity.
  - split; [eexists|]; vm_compute; reflexivity.
  - vm_compute. reflexivity.
  - intros d. discriminate.
Defined.

Lemma process_pdf_tool_not_started_witness :
  exists w',
    process_pdf (Scenario.script Scenario.cannot_start Scenario.view_nothing)
      (Some Demo.upload) (Demo.world "%PDF-1.7")
    = (Return ("处理过程中发生错误: " ++ "error", "", None, None, None), w').
Proof.
  eexists.
  eapply (process_pdf_tool_not_started
            (Scenario.script Scenario.cannot_start Scenario.view_nothing)
            Demo.upload (Demo.world "%PDF-1.7")).
  vm_compute. reflexivity.
Defined.

Lemma process_pdf_download_file_witness :
  exists more html table w',
    process_pdf (Scenario.script (Scenario.writes hello_record) Scenario.view_page)
      (Some Demo.upload) (Demo.world "%PDF-1.7")
    = (Return ("started" ++ more, "hello", Some html, Some table,
               Some "olmocr_workspace/job_1700000000/paper.v2_extracted_text.txt"),
       w')
    /\ FS.lookup "olmocr_workspace/job_1700000000/paper.v2_extracted_text.txt"
         (files w')
       = Some (File (Text "hello")).
Proof.
  edestruct (process_pdf_download_file
               (Scenario.script (Scenario.writes hello_record) Scenario.view_page)
               Demo.upload (Demo.world "%PDF-1.7"))
    as (more & html & w' & E & L).
  - vm_compute. reflexivity.
  - split; [eexists|]; vm_compute; reflexivity.
  - vm_compute. reflexivity.
  - vm_compute. reflexivity.
  - vm_compute. reflexivity.
  - exists more, html. eexists. exists w'. split; [exact E | exact L].
Defined.



Lemma process_pdf_metadata_not_object_witness :
  exists w',
    process_pdf
      (Scenario.script (Scenario.writes Scenario.list_metadata) Scenario.view_nothing)
      (Some Demo.upload) (Demo.world "%PDF-1.7")
    = (Return ("处理过程中发生错误: " ++ "error", "", None, None, None), w')
    /\ FS.lookup "olmocr_workspace/job_1700000000/paper.v2_extracted_text.txt"
         (files w')
       = None.
Proof.
  eexists. split.
  - eapply (process_pdf_metadata_not_object
              (Scenario.script (Scenario.writes Scenario.list_metadata)
                 Scenario.view_nothing)
              Demo.upload (Demo.world "%PDF-1.7")).
    + vm_compute. reflexivity.
    + split; [eexists|]; vm_compute; reflexivity.
    + vm_compute. reflexivity.
    + vm_compute. reflexivity.
    + intros m. discriminate.
  - vm_compute. reflexivity.
Defined.

Lemma process_pdf_preview_from_shared_dir_witness :
  exists log table dl w',
    process_pdf (Scenario.script (Scenario.writes hello_record) Scenario.view_nothing)
      (Some Demo.upload) (Scenario.world_with_preview "%PDF-1.7")
    = (Return (log, "hello",
               Some (modify_html_for_better_display Demo.page),
               Some table, Some dl), w').
Proof.
  edestruct (process_pdf_preview_from_shared_dir
               (Scenario.script (Scenario.writes hello_record) Scenario.view_nothing)
               Demo.upload (Scenario.world_with_preview "%PDF-1.7"))
    as (log & w' & E).
  - vm_compute. reflexivity.
  - split; [eexists|]; vm_compute; reflexivity.
  - vm_compute. reflexivity.
  - vm_compute. reflexivity.
  - vm_compute. reflexivity.
  - vm_compute. reflexivity.
  - vm_compute. reflexivity.
  - exists log. eexists. eexists. exists w'. exact E.
Defined.


Lemma process_pdf_result_shape_witness :
  exists log text html df dl w',
    process_pdf (Scenario.script Scenario.cannot_start Scenario.view_nothing)
      (Some Demo.upload) (Demo.world "%PDF-1.7")
    = (Return (log, text, html, df, dl), w')
    /\ (df = None -> text = "" /\ html = None /\ dl = None)
    /\ (df <> None -> html <> None /\ dl <> None).
Proof.
  do 6 eexists. split; [vm_compute; reflexivity|].
  eapply (process_pdf_result_shape
            (Scenario.script Scenario.cannot_start Scenario.view_nothing)
            (Some Demo.upload) (Demo.world "%PDF-1.7")).
  vm_compute. reflexivity.
Defined.

Lemma process_pdf_returns_on_upload_witness :
  exists out w',
    process_pdf Demo.env (Some Demo.upload) (Demo.world "%PDF-1.7")
    = (Return out, w')
    /\ well_shaped out.
Proof.
  eapply (process_pdf_returns_on_upload Demo.env Demo.upload (Text "%PDF-1.7")
            (Demo.world "%PDF-1.7")).
  - vm_compute. reflexivity.
  - left. vm_compute. reflexivity.
  - vm_compute. reflexivity.
  - vm_compute. reflexivity.
  - vm_compute. discriminate.
  - vm_compute. reflexivity.
Defined.

Lemma staging_copies_upload_witness :
  exists w',
    staging Demo.upload (Demo.world "%PDF-1.7") = (Return tt, w')
    /\ FS.lookup "olmocr_workspace/job_1700000000/input.pdf" (files w')
       = Some (File (Text "%PDF-1.7"))
    /\ FS.is_dir (files w') "olmocr_workspace/job_1700000000" = true.
Proof.
  eapply (staging_copies_upload Demo.upload (Text "%PDF-1.7")
            (Demo.world "%PDF-1.7")).
  - vm_compute. reflexivity.
  - left. vm_compute. reflexivity.
  - vm_compute. reflexivity.
  - vm_compute. reflexivity.
  - vm_compute. discriminate.
  - vm_compute. reflexivity.
Defined.


(** A batch of three whose second input names no file: the first is
    processed, the third is not. *)
Lemma batch_stops_at_exception_witness :
  exists w',
    process_multiple_pdfs Demo.env
      (Some [Demo.upload; "/tmp/gradio/gone.pdf"; Demo.upload2])
      (Demo.world2 "%PDF-1.7" "%PDF-1.7")
    = (Raise (FileNotFoundError "/tmp/gradio/gone.pdf"), w').
Proof.
  eexists.
  eapply (batch_stops_at_exception Demo.env [Demo.upload] "/tmp/gradio/gone.pdf"
            [Demo.upload2] (Demo.world2 "%PDF-1.7" "%PDF-1.7")).
  - vm_compute. reflexivity.
  - eapply calls_step; [vm_compute; reflexivity|]. apply calls_done.
  - vm_compute. reflexivity.
Defined.

Lemma text_filename_of_upload_witness :
  text_filename "/tmp/gradio/paper.v2.pdf" = "paper.v2_extracted_text.txt"
  /\ text_filename "/home/user/paper.v2.txt" = "paper.v2_extracted_text.txt".
Proof.
  split.
  - apply (text_filename_of_upload "/tmp/gradio" "paper.v2" "pdf"); reflexivity.
  - apply (text_filename_of_upload "/home/user" "paper.v2" "txt"); reflexivity.
Defined.
